(** * CursorAISim: response parsing, snippet store and chat orchestration

    A shallow embedding of [code.py], the Streamlit script of the Gemini code
    assistant: the Python string operations the script relies on, the
    pydantic data model, the insertion-ordered selection dictionary, the two
    inline code-block extractions (generate flow, lines 151-164, and chat
    correction flow, lines 303-322), the chat turn, the snippet list render
    pass and the archive builder.

    The exceptions the script can raise are part of the model: the unbound
    name of line 269, the indexing of the extractions, the attribute reads
    on a gateway response (caught at line 99), the registration of a
    checkbox under a key already in use (line 210) and the limits of
    [zipfile] (line 227).  [render_snippets], [download_offer] and
    [run_columns] describe the run in which the render pass and the
    archive build go through; [render_pass], [download_button],
    [script_columns] and [script_run] are the same steps with their
    raises.

    Python [str] values are modelled as [string]; a character is an [ascii]
    read as the code point U+0000..U+00FF, and the character predicates
    follow the Unicode database on that range. *)

From Stdlib Require Import String Ascii List Bool Arith NArith Lia.
From Stdlib Require Strings.Byte.
Import ListNotations.
Open Scope list_scope.
Open Scope string_scope.

(** ** Python string primitives *)

Module Py.

Definition code (c : ascii) : N := N_of_ascii c.

Definition between (lo hi n : N) : bool := (N.leb lo n && N.leb n hi)%bool.

(** [str.isspace] on one character: TAB..CR, FS..US, SPACE, NEL, NBSP. *)
Definition isspace (c : ascii) : bool :=
  let n := code c in
  between 9 13 n || between 28 32 n || N.eqb n 133 || N.eqb n 160.

(** [str.isalpha] on one character (the letter categories). *)
Definition isalpha_char (c : ascii) : bool :=
  let n := code c in
  between 65 90 n || between 97 122 n
  || N.eqb n 170 || N.eqb n 181 || N.eqb n 186
  || between 192 214 n || between 216 246 n || between 248 255 n.

(** [str.lower] on one character. *)
Definition lower_char (c : ascii) : ascii :=
  let n := code c in
  if between 65 90 n || between 192 214 n || between 216 222 n
  then ascii_of_N (n + 32) else c.

(** [str.isprintable] on one character. *)
Definition isprintable (c : ascii) : bool :=
  let n := code c in
  between 32 126 n || (between 161 255 n && negb (N.eqb n 173)).

(** Truth value of a [str]: the empty string is falsy. *)
Definition truthy (s : string) : bool :=
  match s with EmptyString => false | String _ _ => true end.

Fixpoint lower (s : string) : string :=
  match s with
  | EmptyString => EmptyString
  | String c s' => String (lower_char c) (lower s')
  end.

Fixpoint all_chars (p : ascii -> bool) (s : string) : bool :=
  match s with
  | EmptyString => true
  | String c s' => p c && all_chars p s'
  end.

(** [s.isalpha()]: at least one character, all of them alphabetic. *)
Definition isalpha (s : string) : bool := truthy s && all_chars isalpha_char s.

Fixpoint lstrip (s : string) : string :=
  match s with
  | EmptyString => EmptyString
  | String c s' => if isspace c then lstrip s' else s
  end.

Fixpoint rstrip (s : string) : string :=
  match s with
  | EmptyString => EmptyString
  | String c s' =>
      match rstrip s' with
      | EmptyString => if isspace c then EmptyString else String c EmptyString
      | r => String c r
      end
  end.

(** [s.strip()] *)
Definition strip (s : string) : string := lstrip (rstrip s).

(** [s.startswith(p)] *)
Definition startswith (p s : string) : bool := String.prefix p s.
#[global] Arguments startswith : simpl never.

(** [sub in s] *)
Fixpoint contains (sub s : string) : bool :=
  startswith sub s ||
  match s with
  | EmptyString => false
  | String _ s' => contains sub s'
  end.

Fixpoint drop (n : nat) (s : string) : string :=
  match n, s with
  | O, _ => s
  | S _, EmptyString => EmptyString
  | S k, String _ s' => drop k s'
  end.

(** [s[:n]] *)
Fixpoint take (n : nat) (s : string) : string :=
  match n, s with
  | O, _ => EmptyString
  | S _, EmptyString => EmptyString
  | S k, String c s' => String c (take k s')
  end.

Fixpoint rev_acc (acc s : string) : string :=
  match acc with
  | EmptyString => s
  | String c acc' => rev_acc acc' (String c s)
  end.

(** [s.split(sep)] for a non-empty separator: a left to right scan for
    non-overlapping occurrences.  [skip] counts the characters of a
    matched separator that are still to be passed over, [acc] holds the
    current piece in reverse. *)
Fixpoint split_scan (sep : string) (skip : nat) (acc : string) (s : string)
  : list string :=
  match s with
  | EmptyString => [rev_acc acc EmptyString]
  | String c s' =>
      match skip with
      | S k => split_scan sep k acc s'
      | O =>
          if startswith sep s
          then rev_acc acc EmptyString
                 :: split_scan sep (String.length sep - 1) EmptyString s'
          else split_scan sep 0 (String c acc) s'
      end
  end.

Definition split (sep s : string) : list string :=
  split_scan sep 0 EmptyString s.

(** [s.partition(sep)] for a non-empty separator. *)
Fixpoint partition (sep s : string) : string * string * string :=
  match s with
  | EmptyString => (EmptyString, EmptyString, EmptyString)
  | String c s' =>
      if startswith sep s
      then (EmptyString, sep, drop (String.length sep) s)
      else let '(before, mid, after) := partition sep s' in
           (String c before, mid, after)
  end.

(** [s.split()] with no argument: the maximal runs of non-whitespace
    characters.  [acc] holds the current word in reverse. *)
Fixpoint words_scan (acc : string) (s : string) : list string :=
  match s with
  | EmptyString =>
      if truthy acc then [rev_acc acc EmptyString] else []
  | String c s' =>
      if isspace c
      then (if truthy acc
            then rev_acc acc EmptyString :: words_scan EmptyString s'
            else words_scan EmptyString s')
      else words_scan (String c acc) s'
  end.

Definition split_ws (s : string) : list string := words_scan EmptyString s.

(** [sep.join(l)] *)
Fixpoint join (sep : string) (l : list string) : string :=
  match l with
  | [] => EmptyString
  | [x] => x
  | x :: rest => x ++ sep ++ join sep rest
  end.

Definition hex_digit (n : N) : ascii :=
  if N.ltb n 10 then ascii_of_N (48 + n) else ascii_of_N (87 + n).

Definition backslash : ascii := ascii_of_N 92.
Definition squote : ascii := ascii_of_N 39.
Definition dquote : ascii := ascii_of_N 34.

(** One character of [repr(s)], for the quote character [q] in use. *)
Definition repr_char (q : ascii) (c : ascii) : string :=
  let n := code c in
  if Ascii.eqb c q || Ascii.eqb c backslash then String backslash (String c EmptyString)
  else if N.eqb n 9 then String backslash "t"
  else if N.eqb n 10 then String backslash "n"
  else if N.eqb n 13 then String backslash "r"
  else if isprintable c then String c EmptyString
  else String backslash
         (String "x"%char
            (String (hex_digit (N.div n 16))
               (String (hex_digit (N.modulo n 16)) EmptyString))).

Fixpoint repr_body (q : ascii) (s : string) : string :=
  match s with
  | EmptyString => EmptyString
  | String c s' => repr_char q c ++ repr_body q s'
  end.

(** [repr(s)]: single quotes, unless the string holds a single quote
    and no double quote. *)
Definition repr (s : string) : string :=
  let q :=
    if contains (String squote EmptyString) s
       && negb (contains (String dquote EmptyString) s)
    then dquote else squote in
  String q (repr_body q s ++ String q EmptyString).

(** [str(l)] of a list of strings. *)
Definition list_repr (l : list string) : string :=
  "[" ++ join ", " (map repr l) ++ "]".

End Py.

Definition nl : string := String (ascii_of_N 10) EmptyString.
Definition fence : string := "```".

(** ** The selection dictionary

    [Dict[str, bool]]: a Python dictionary keeps its keys in insertion
    order, and assigning to a key that is present keeps its position. *)

Module Dict.

Definition t : Type := list (string * bool).

Definition empty : t := [].

(** [d.get(k, default)] *)
Fixpoint get (d : t) (k : string) (default : bool) : bool :=
  match d with
  | [] => default
  | (k', v) :: rest => if String.eqb k' k then v else get rest k default
  end.

(** [d[k] = v] *)
Fixpoint set (d : t) (k : string) (v : bool) : t :=
  match d with
  | [] => [(k, v)]
  | (k', v') :: rest =>
      if String.eqb k' k then (k, v) :: rest else (k', v') :: set rest k v
  end.

(** [d.update(other)] *)
Definition update (d other : t) : t :=
  fold_left (fun acc kv => set acc (fst kv) (snd kv)) other d.

(** [d.items()] *)
Definition items (d : t) : list (string * bool) := d.

Definition keys (d : t) : list string := map fst d.

(** [k in d] *)
Definition has_key (d : t) (k : string) : bool :=
  existsb (fun kv => String.eqb (fst kv) k) d.

End Dict.

(** ** Pydantic models (lines 10-26) *)

Record CodeSnippet : Type := {
  id : string;
  filename : string;
  language : string;
  content : string;
  description : option string
}.

Record ChatMessage : Type := {
  role : string;
  parts : list string
}.

Record AppState : Type := {
  api_key_configured : bool;
  chat_history : list ChatMessage;
  generated_codes : list CodeSnippet;
  current_explanation : option string;
  selected_code_ids_for_download : Dict.t
}.

(** [AppState()] *)
Definition AppState_default : AppState := {|
  api_key_configured := false;
  chat_history := [];
  generated_codes := [];
  current_explanation := None;
  selected_code_ids_for_download := Dict.empty
|}.

(** ** The clock

    One reading of [datetime.datetime.now()].  [timestamp] is the text an
    f-string renders for [.timestamp()] (a float, seconds since the epoch). *)

Record datetime : Type := {
  hour : nat;
  minute : nat;
  second : nat;
  timestamp : string
}.

Definition digit (n : nat) : ascii := ascii_of_nat (48 + n mod 10).

(** Zero padded two digit field of [strftime]. *)
Definition two_digits (n : nat) : string :=
  String (digit (n / 10)) (String (digit n) EmptyString).

(** [now.strftime('%H%M%S')] *)
Definition strftime_HMS (now : datetime) : string :=
  two_digits (hour now) ++ two_digits (minute now) ++ two_digits (second now).

(** [default_factory] of [CodeSnippet.id] (line 11). *)
Definition default_id (now : datetime) : string := "code_" ++ timestamp now.

(** ** Exceptions and results *)

(** [StructError] is [struct.error], [LargeZipFile] is
    [zipfile.LargeZipFile] and [DuplicateElementKey] is Streamlit's
    [StreamlitDuplicateElementKey], with the key in question. *)
Inductive exn : Type :=
| NameError (name : string)
| IndexError
| StructError
| LargeZipFile
| DuplicateElementKey (key : string).

Inductive pyresult (A : Type) : Type :=
| Ok (a : A)
| Raise (e : exn).
Arguments Ok {A} a.
Arguments Raise {A} e.

Definition bind {A B : Type} (r : pyresult A) (k : A -> pyresult B)
  : pyresult B :=
  match r with
  | Ok a => k a
  | Raise e => Raise e
  end.

Notation "x <- r ;; k" := (bind r (fun x => k))
  (at level 61, r at next level, right associativity).

(** A script run either reaches its end or stops at an uncaught exception;
    the session state mutated so far is kept by the framework either way. *)
Inductive outcome : Type :=
| Done (st : AppState)
| Raised (e : exn) (st : AppState).

Definition state_of (o : outcome) : AppState :=
  match o with
  | Done st => st
  | Raised _ st => st
  end.

(** ** The AI gateway (lines 70-101)

    The Gemini client is external.  A response is described by the
    attributes [send_gemini_message] reads.  Reading an attribute finds
    it missing ([hasattr] is false), returns its value, or raises an
    exception other than [AttributeError], which [hasattr] lets through
    and the [except] of line 99 catches.  A call of the client that
    raises is [None]. *)

Inductive probe (A : Type) : Type :=
| Absent
| Present (a : A)
| Raising.
Arguments Absent {A}.
Arguments Present {A} a.
Arguments Raising {A}.

Record Part : Type := { part_text : probe string }.

(** [candidate_parts] stands for [c.content.parts], absent when
    [c.content] or its [parts] is. *)
Record Candidate : Type := { candidate_parts : probe (list Part) }.

Record Response : Type := {
  response_text : probe string;
  response_parts : probe (list Part);
  response_candidates : probe (list Candidate)
}.

Record Client : Type := {
  generate_content : string -> option Response;
  send_message : list ChatMessage -> string -> option Response
}.

(** ["".join(part.text for part in parts if hasattr(part, 'text'))];
    [None] when reading a part raises. *)
Fixpoint parts_text (ps : list Part) : option string :=
  match ps with
  | [] => Some EmptyString
  | p :: rest =>
      match part_text p with
      | Raising => None
      | Absent => parts_text rest
      | Present t =>
          match parts_text rest with
          | Some joined => Some (t ++ joined)
          | None => None
          end
      end
  end.

(** Line 94: the texts of the candidates that have [content.parts];
    [None] when reading a candidate or one of its parts raises. *)
Fixpoint candidate_texts (cs : list Candidate) : option (list string) :=
  match cs with
  | [] => Some []
  | c :: rest =>
      match candidate_parts c with
      | Raising => None
      | Absent => candidate_texts rest
      | Present ps =>
          match parts_text ps with
          | None => None
          | Some t =>
              match candidate_texts rest with
              | Some texts => Some (t :: texts)
              | None => None
              end
          end
      end
  end.

Definition unexpected_format_text : string :=
  "Sorry, I couldn't process that. The response format was unexpected.".

(** Lines 85-97: the text returned for a response, [None] when an
    exception is raised on the way (line 101). *)
Definition response_to_text (response : Response) : option string :=
  match response_text response with
  | Raising => None
  | Present (String c t) => Some (String c t)
  | _ =>
      match response_parts response with
      | Raising => None
      | Present (p :: ps) => parts_text (p :: ps)
      | _ =>
          match response_candidates response with
          | Raising => None
          | Present (c :: cs) =>
              match candidate_texts (c :: cs) with
              | None => None
              | Some texts =>
                  if existsb Py.truthy texts
                  then Some (Py.join nl (filter Py.truthy texts))
                  else Some unexpected_format_text
              end
          | _ => Some unexpected_format_text
          end
      end
  end.

Definition send_gemini_message (prompt : string) (model_client : option Client)
  (chat_history : option (list ChatMessage)) : option string :=
  match model_client with
  | None => None
  | Some client =>
      let response :=
        match chat_history with
        | Some (m :: h) => send_message client (m :: h) prompt
        | _ => generate_content client prompt
        end in
      match response with
      | Some r => response_to_text r
      | None => None
      end
  end.

(** Truth value of the returned text: [None] and [""] are falsy. *)
Definition truthy_text (t : option string) : option string :=
  match t with
  | Some (String c s) => Some (String c s)
  | _ => None
  end.

(** ** Response parsing *)

(** Generate flow, lines 154-161: the part of one fenced block that is kept
    before trimming. *)
Definition generate_block (code_block_content : string) : string :=
  if Py.contains nl code_block_content then
    let '(first_line, _, rest_of_code) := Py.partition nl code_block_content in
    if Py.isalpha (Py.strip first_line)
       && negb (existsb (fun p => Py.startswith p (Py.strip first_line))
                  ["#"; "//"; "/*"])
    then rest_of_code
    else code_block_content
  else code_block_content.

(** Generate flow, lines 151-164: [code_to_store]. *)
Definition code_to_store (generated_content : string) : pyresult string :=
  if Py.contains fence generated_content then
    match nth_error (Py.split fence generated_content) 1 with
    | Some code_block_content => Ok (Py.strip (generate_block code_block_content))
    | None => Raise IndexError
    end
  else Ok (Py.strip generated_content).

Definition hint_excluded : list string := [" "; ":"; ";"; "{"; "("; "#"].

(** Chat correction flow, lines 309-319: one pass of the loop body on a
    block, giving [extracted_code_content] and [extracted_language]. *)
Definition correct_block (block_content_with_lang extracted_language : string)
  : string * string :=
  if Py.contains nl block_content_with_lang then
    let '(first_line, _, code_block) := Py.partition nl block_content_with_lang in
    let lang_hint := Py.lower (Py.strip first_line) in
    if Py.truthy lang_hint
       && negb (existsb (fun char => Py.contains char lang_hint) hint_excluded)
    then (Py.strip code_block, lang_hint)
    else (Py.strip block_content_with_lang, extracted_language)
  else (Py.strip block_content_with_lang, extracted_language).

(** [range(start, stop, step)] for a positive step. *)
Definition range (start stop step : nat) : list nat :=
  map (fun k => start + step * k) (seq 0 ((stop - start + (step - 1)) / step)).

(** Lines 307-322: the loop over the odd positions, leaving at the first
    block whose extracted content is truthy. *)
Fixpoint correct_loop (potential_code_blocks : list string) (indices : list nat)
  (extracted_code_content : option string) (extracted_language : string)
  : pyresult (option string * string) :=
  match indices with
  | [] => Ok (extracted_code_content, extracted_language)
  | i :: rest =>
      match nth_error potential_code_blocks i with
      | None => Raise IndexError
      | Some block =>
          let '(c, l) := correct_block block extracted_language in
          if Py.truthy c then Ok (Some c, l)
          else correct_loop potential_code_blocks rest (Some c) l
      end
  end.

(** Lines 303-322. *)
Definition extracted_code (ai_response_text : string)
  : pyresult (option string * string) :=
  let potential_code_blocks := Py.split fence ai_response_text in
  correct_loop potential_code_blocks
    (range 1 (List.length potential_code_blocks) 2) None "python".

(** ** Session state updates *)

Definition with_chat_history (st : AppState) (h : list ChatMessage) : AppState :=
  {| api_key_configured := api_key_configured st;
     chat_history := h;
     generated_codes := generated_codes st;
     current_explanation := current_explanation st;
     selected_code_ids_for_download := selected_code_ids_for_download st |}.

Definition with_generated_codes (st : AppState) (l : list CodeSnippet) : AppState :=
  {| api_key_configured := api_key_configured st;
     chat_history := chat_history st;
     generated_codes := l;
     current_explanation := current_explanation st;
     selected_code_ids_for_download := selected_code_ids_for_download st |}.

Definition with_selected (st : AppState) (d : Dict.t) : AppState :=
  {| api_key_configured := api_key_configured st;
     chat_history := chat_history st;
     generated_codes := generated_codes st;
     current_explanation := current_explanation st;
     selected_code_ids_for_download := d |}.

(** [chat_history.append(m)] *)
Definition append_message (st : AppState) (m : ChatMessage) : AppState :=
  with_chat_history st (chat_history st ++ [m]).

(** The two statements both flows run on a new snippet (lines 172-174 and
    331-332): [generated_codes.append(snippet)] and
    [selected_code_ids_for_download[snippet.id] = True]. *)
Definition append_snippet (st : AppState) (snippet : CodeSnippet) : AppState :=
  let st' := with_generated_codes st (generated_codes st ++ [snippet]) in
  with_selected st' (Dict.set (selected_code_ids_for_download st') (id snippet) true).

(** ** Generate flow (lines 145-176) *)

Definition generate_prompt (language_gen prompt_gen : string) : string :=
  "Generate a code snippet for the following task. Provide only the code, no explanations before or after the code block. Language: "
  ++ language_gen ++ nl ++ "Task: " ++ prompt_gen.

Definition generated_snippet (now : datetime)
  (prompt_gen filename_gen language_gen stored : string) : CodeSnippet :=
  {| id := default_id now;
     filename := filename_gen;
     language := language_gen;
     content := stored;
     description :=
       Some ("Generated from prompt: " ++ Py.take 50 prompt_gen ++ "...") |}.

Definition generate_code (client : Client) (now : datetime)
  (prompt_gen filename_gen language_gen : string) (st : AppState) : outcome :=
  if Py.truthy prompt_gen then
    match truthy_text (send_gemini_message
                         (generate_prompt language_gen prompt_gen)
                         (Some client) None) with
    | Some generated_content =>
        match code_to_store generated_content with
        | Ok stored =>
            Done (append_snippet st
                    (generated_snippet now prompt_gen filename_gen language_gen stored))
        | Raise e => Raised e st
        end
    | None => Done st
    end
  else Done st.

(** ** Chat turn (lines 255-340) *)

Definition correct_mode : string := "Correct Code (via Chat)".

(** Values a module level name can hold, as far as the script compares
    them: a [str], or some other object. *)
Inductive pyobj : Type :=
| PStr (s : string)
| PObj.

(** [a == b] with [a] a [str]. *)
Definition str_eq (a : string) (b : pyobj) : bool :=
  match b with
  | PStr s => String.eqb a s
  | PObj => false
  end.

(** The names the script can have bound at module scope when line 269 runs.
    The loop variables of the comprehensions at lines 221-224 and 271 are
    local to them and are not part of it. *)
Definition module_globals (action_mode user_prompt : string)
  : list (string * pyobj) :=
  map (fun n => (n, PObj))
    ["st"; "genai"; "BaseModel"; "Field"; "ValidationError"; "List";
     "Optional"; "Dict"; "io"; "zipfile"; "datetime"; "CodeSnippet";
     "ChatMessage"; "AppState"; "initialize_gemini_client";
     "get_gemini_client"; "send_gemini_message"; "create_zip_file";
     "gemini_model"; "col1"; "col2"; "temp_selections"; "i"; "snippet";
     "is_selected"; "selected_to_download"; "zip_bytes"; "message_data";
     "latest_code_to_discuss"]
  ++ [("action_mode", PStr action_mode);
      ("user_prompt", PStr user_prompt);
      ("contextual_prompt", PStr user_prompt)].

(** Evaluation of a name that is not local: bound at module scope, or
    [NameError]. *)
Fixpoint load_name (globals : list (string * pyobj)) (name : string)
  : pyresult pyobj :=
  match globals with
  | [] => Raise (NameError name)
  | (n, v) :: rest => if String.eqb n name then Ok v else load_name rest name
  end.

(** Line 269: [[s for s_id, is_sel in ....items() if is_sel]].  The targets
    are [s_id] and [is_sel]; the element expression is the name [s]. *)
Fixpoint selected_for_chat_correction (globals : list (string * pyobj))
  (items : list (string * bool)) : pyresult (list pyobj) :=
  match items with
  | [] => Ok []
  | (s_id, is_sel) :: rest =>
      if is_sel then
        s <- load_name globals "s" ;;
        l <- selected_for_chat_correction globals rest ;;
        Ok (s :: l)
      else selected_for_chat_correction globals rest
  end.

(** [next((s for s in codes if s.id == target), None)] *)
Definition next_with_id (codes : list CodeSnippet) (target : pyobj)
  : option CodeSnippet :=
  find (fun s => str_eq (id s) target) codes.

(** Lines 268-273: [latest_code_to_discuss]. *)
Definition latest_code_to_discuss (st : AppState) (action_mode user_prompt : string)
  : pyresult (option CodeSnippet) :=
  chosen <- selected_for_chat_correction
              (module_globals action_mode user_prompt)
              (Dict.items (selected_code_ids_for_download st)) ;;
  match rev chosen with
  | target :: _ => Ok (next_with_id (generated_codes st) target)
  | [] =>
      match rev (generated_codes st) with
      | latest :: _ => Ok (Some latest)
      | [] => Ok None
      end
  end.

Definition prompt_with_code (snippet : CodeSnippet) (user_prompt : string)
  : string :=
  "Regarding the following " ++ language snippet
  ++ " code snippet (filename: " ++ filename snippet ++ "):" ++ nl
  ++ "```" ++ nl ++ content snippet ++ nl ++ "```" ++ nl ++ nl
  ++ "User request: " ++ user_prompt ++ nl ++ nl
  ++ "Please provide a corrected version if needed, and an explanation of the changes or your thoughts."
  ++ " If providing corrected code, ensure it's in a markdown code block.".

Definition prompt_without_code (user_prompt : string) : string :=
  "User request: " ++ user_prompt
  ++ ". (No specific code snippet context provided by the app).".

(** Lines 263-284: [contextual_prompt]. *)
Definition contextual_prompt (st : AppState) (action_mode user_prompt : string)
  : pyresult string :=
  match generated_codes st with
  | _ :: _ =>
      if String.eqb action_mode correct_mode then
        latest <- latest_code_to_discuss st action_mode user_prompt ;;
        match latest with
        | Some snippet => Ok (prompt_with_code snippet user_prompt)
        | None => Ok (prompt_without_code user_prompt)
        end
      else Ok user_prompt
  | [] => Ok user_prompt
  end.

(** Lines 325-330.  The two clock readings are those of the [filename]
    argument and of the [id] default factory. *)
Definition corrected_snippet (now_name now_id : datetime)
  (extracted_language extracted_code_content : string) : CodeSnippet :=
  {| id := default_id now_id;
     filename :=
       "corrected_" ++ strftime_HMS now_name ++ "."
       ++ (if Py.truthy extracted_language
           then Py.list_repr (Py.split_ws extracted_language)
           else "txt");
     language :=
       if Py.truthy extracted_language then extracted_language else "unknown";
     content := extracted_code_content;
     description := Some "Corrected/refined via chat" |}.

Definition fallback_text : string := "Sorry, I encountered an issue.".

Definition user_message (user_prompt : string) : ChatMessage :=
  {| role := "user"; parts := [user_prompt] |}.

Definition model_message (text : string) : ChatMessage :=
  {| role := "model"; parts := [text] |}.

(** Lines 299-336: the extraction of a corrected snippet from the reply;
    an exception inside the [try] leaves the state as it is. *)
Definition add_corrected (now_name now_id : datetime)
  (action_mode ai_response_text : string) (st : AppState) : AppState :=
  if Py.contains fence ai_response_text && String.eqb action_mode correct_mode
  then
    match extracted_code ai_response_text with
    | Ok (Some c, l) =>
        if Py.truthy c
        then append_snippet st (corrected_snippet now_name now_id l c)
        else st
    | Ok (None, _) => st
    | Raise _ => st
    end
  else st.

Definition chat_turn (client : Client) (now_name now_id : datetime)
  (action_mode user_prompt : string) (st : AppState) : outcome :=
  if Py.truthy user_prompt then
    let st1 := append_message st (user_message user_prompt) in
    match contextual_prompt st1 action_mode user_prompt with
    | Raise e => Raised e st1
    | Ok prompt =>
        match truthy_text (send_gemini_message prompt (Some client) None) with
        | Some ai_response_text =>
            Done (add_corrected now_name now_id action_mode ai_response_text
                    (append_message st1 (model_message ai_response_text)))
        | None => Done (append_message st1 (model_message fallback_text))
        end
    end
  else Done st.

(** ** Snippet list render pass (lines 201-224) *)

(** Line 210-214: the value read from the checkbox of the snippet [k]. *)
Definition checked (checkbox : bool -> string -> bool) (st : AppState)
  (k : string) : bool :=
  checkbox (Dict.get (selected_code_ids_for_download st) k false) ("cb_" ++ k).

(** Lines 204-215: [temp_selections], one checkbox per snippet. *)
Definition temp_selections (checkbox : bool -> string -> bool) (st : AppState)
  : Dict.t :=
  fold_left
    (fun temp snippet =>
       Dict.set temp (id snippet) (checked checkbox st (id snippet)))
    (generated_codes st) Dict.empty.

(** Lines 201-218, for a pass that registers all its checkboxes: the
    update of line 218.  The pass that can stop at line 210 is
    [render_pass] below. *)
Definition render_snippets (checkbox : bool -> string -> bool) (st : AppState)
  : AppState :=
  match generated_codes st with
  | [] => st
  | _ :: _ =>
      with_selected st
        (Dict.update (selected_code_ids_for_download st)
           (temp_selections checkbox st))
  end.

(** Lines 221-224. *)
Definition selected_to_download (st : AppState) : list CodeSnippet :=
  filter (fun s => Dict.get (selected_code_ids_for_download st) (id s) false)
    (generated_codes st).

(** The first element of [keys] met a second time, [seen] being the keys
    met before. *)
Fixpoint first_duplicate (seen keys : list string) : option string :=
  match keys with
  | [] => None
  | k :: rest =>
      if existsb (String.eqb k) seen then Some k
      else first_duplicate (k :: seen) rest
  end.

(** The keys of the checkboxes of one pass, in the order of line 205. *)
Definition checkbox_keys (st : AppState) : list string :=
  map (fun snippet => "cb_" ++ id snippet) (generated_codes st).

(** Lines 201-218 with the registration of the widgets.  Streamlit raises
    [StreamlitDuplicateElementKey] at the second widget of one key in a
    run, and line 213 derives the key from the snippet's id; no other
    widget of the page has a key that starts with [cb_].  The pass stops
    there, before the update of line 218, so the session state is as it
    was; when no key repeats the pass ends in [render_snippets]. *)
Definition render_pass (checkbox : bool -> string -> bool) (st : AppState)
  : outcome :=
  match first_duplicate [] (checkbox_keys st) with
  | Some key => Raised (DuplicateElementKey key) st
  | None => Done (render_snippets checkbox st)
  end.

(** ** Archive builder (lines 104-111)

    The [zipfile] module is external: a [ZipFile] is the sequence of its
    entries as a reading tool lists and extracts them, and [writestr] with
    a [str] payload asks for one entry holding the UTF-8 encoding of the
    payload. *)

Definition encode_char (c : ascii) : list Byte.byte :=
  let n := Py.code c in
  if N.ltb n 128 then [byte_of_ascii c]
  else [byte_of_ascii (ascii_of_N (192 + N.div n 64));
        byte_of_ascii (ascii_of_N (128 + N.modulo n 64))].

Fixpoint encode_utf8 (s : string) : list Byte.byte :=
  match s with
  | EmptyString => []
  | String c s' => encode_char c ++ encode_utf8 s'
  end.

Record ZipEntry : Type := {
  entry_name : string;
  entry_data : list Byte.byte
}.

Definition ZipFile : Type := list ZipEntry.

Definition writestr (zip_file : ZipFile) (name data : string) : ZipFile :=
  (zip_file ++ [{| entry_name := name; entry_data := encode_utf8 data |}])%list.

Definition create_zip_file (code_snippets : list CodeSnippet) : ZipFile :=
  fold_left (fun zip_file snippet =>
               writestr zip_file (filename snippet) (content snippet))
    code_snippets [].

(** *** The limits of [zipfile]

    [writestr] and [create_zip_file] above are the calls the builder
    makes, one per snippet, with the name and the payload as passed.  What
    the library (Python 3.11, [zipfile.py]) does with a call:
    - [ZipInfo.__init__] cuts the name at its first NUL character;
    - [writestr] reads the last character of that name, which raises
      [IndexError] when the name is empty;
    - the archive is opened with [allowZip64=False], so [_writecheck]
      raises [LargeZipFile] when 65535 entries are already written;
    - [FileHeader] packs the length of the encoded name into 16 bits,
      which raises [struct.error] above 65535 bytes.
    An exception leaves the [with] block of line 107 and the builder.
    The host is taken to be POSIX (no path separator is rewritten), its
    clock to read a year a ZIP time stamp can hold, and the archive to
    stay under the 2 GiB of an archive without ZIP64. *)

Module Zip.

Definition limit : N := 65535.


(** The name an entry is stored under: [filename[0:filename.find(chr(0))]]
    when there is a NUL character, the filename otherwise. *)
Fixpoint arcname (filename : string) : string :=
  match filename with
  | EmptyString => EmptyString
  | String c rest =>
      if Ascii.eqb c Ascii.zero then EmptyString else String c (arcname rest)
  end.

(** The length in bytes of the name in the header: ASCII when the name is,
    UTF-8 otherwise, which for an ASCII name is the same bytes. *)
Definition header_name_length (name : string) : N :=
  N.of_nat (List.length (encode_utf8 name)).

Definition writestr (zip_file : ZipFile) (name data : string)
  : pyresult ZipFile :=
  let payload := encode_utf8 data in
  match arcname name with
  | EmptyString => Raise IndexError
  | String c stored =>
      if N.leb limit (N.of_nat (List.length zip_file)) then Raise LargeZipFile
      else if N.ltb limit (header_name_length (String c stored))
      then Raise StructError
      else Ok (zip_file
               ++ [{| entry_name := String c stored;
                      entry_data := payload |}])%list
  end.

Fixpoint write_all (zip_file : ZipFile) (code_snippets : list CodeSnippet)
  : pyresult ZipFile :=
  match code_snippets with
  | [] => Ok zip_file
  | snippet :: rest =>
      written <- writestr zip_file (filename snippet) (content snippet) ;;
      write_all written rest
  end.

(** Lines 104-111. *)
Definition create_zip_file (code_snippets : list CodeSnippet)
  : pyresult ZipFile :=
  write_all [] code_snippets.



End Zip.

(** ** Views used by the statements *)

(** The fenced regions of a split text: the pieces at odd positions. *)
Fixpoint regions (pieces : list string) : list string :=
  match pieces with
  | _ :: r :: rest => r :: regions rest
  | _ => []
  end.

Definition first_line (segment : string) : string :=
  fst (fst (Py.partition nl segment)).

Definition after_first_line (segment : string) : string :=
  snd (Py.partition nl segment).

(** The test under which the generate flow drops the first line
    (lines 154 and 156). *)
Definition hint_taken_generate (segment : string) : bool :=
  Py.contains nl segment
  && (Py.isalpha (Py.strip (first_line segment))
      && negb (existsb (fun p => Py.startswith p (Py.strip (first_line segment)))
                 ["#"; "//"; "/*"])).

(** The hint the chat correction flow reads off a segment (line 311). *)
Definition lang_hint (segment : string) : string :=
  Py.lower (Py.strip (first_line segment)).

(** The test under which the chat correction flow takes the first line as
    the language (lines 309 and 313). *)
Definition hint_taken_correct (segment : string) : bool :=
  Py.contains nl segment
  && (Py.truthy (lang_hint segment)
      && negb (existsb (fun char => Py.contains char (lang_hint segment))
                 hint_excluded)).

Definition generated_region_content (segment : string) : string :=
  Py.strip (if hint_taken_generate segment then after_first_line segment
            else segment).

Definition corrected_region_content (segment : string) : string :=
  Py.strip (if hint_taken_correct segment then after_first_line segment
            else segment).

(** The wording of the specification for a language hint: an alphabetic
    token holding none of the space, colon, semicolon, brace, parenthesis
    and hash characters.  (No bound is given for "short".) *)
Definition spec_language_hint (line : string) : bool :=
  Py.isalpha line
  && negb (existsb (fun char => Py.contains char line) hint_excluded).

(** The wording of the specification for the subject snippet of a
    correction: the most recently selected snippet, else the most recently
    appended one, else none. *)
Definition spec_subject_snippet (st : AppState) : option CodeSnippet :=
  match rev (filter snd (Dict.items (selected_code_ids_for_download st))) with
  | (k, _) :: _ => find (fun s => String.eqb (id s) k) (generated_codes st)
  | [] =>
      match rev (generated_codes st) with
      | latest :: _ => Some latest
      | [] => None
      end
  end.

(** The responses on which lines 85-97 raise: reading [text], [parts],
    [candidates], a candidate's [content.parts] or a part's [text] raises
    at a point the code reaches. *)
Definition part_raises (p : Part) : Prop := part_text p = Raising.

Definition candidate_raises (c : Candidate) : Prop :=
  candidate_parts c = Raising \/
  exists ps, candidate_parts c = Present ps /\ Exists part_raises ps.

(** [hasattr(response, 'text') and response.text] is false. *)
Definition text_unusable (r : Response) : Prop :=
  response_text r = Absent \/ response_text r = Present EmptyString.

(** [hasattr(response, 'parts') and response.parts] is false. *)
Definition parts_unusable (r : Response) : Prop :=
  response_parts r = Absent \/ response_parts r = Present [].

Definition raises_in_try (r : Response) : Prop :=
  response_text r = Raising \/
  (text_unusable r /\
   (response_parts r = Raising \/
    (exists ps, response_parts r = Present ps /\ Exists part_raises ps) \/
    (parts_unusable r /\
     (response_candidates r = Raising \/
      exists cs, response_candidates r = Present cs /\
                 Exists candidate_raises cs)))).

(** The wording of the specification for the content of a fenced region:
    the first line is stripped when it is a language hint in the sense
    above, and the rest is trimmed. *)
Definition spec_region_content (segment : string) : string :=
  Py.strip (if spec_language_hint (Py.strip (first_line segment))
            then after_first_line segment else segment).

Fixpoint last_char (s : string) : option ascii :=
  match s with
  | EmptyString => None
  | String c s' =>
      match last_char s' with
      | Some d => Some d
      | None => Some c
      end
  end.

(** A trimmed text: it neither starts nor ends with a whitespace
    character. *)
Definition trimmed (s : string) : bool :=
  match s with
  | EmptyString => true
  | String c _ => negb (Py.isspace c)
  end
  && match last_char s with
     | Some c => negb (Py.isspace c)
     | None => true
     end.

(** The loop of lines 307-322 read over the list of regions. *)
Fixpoint first_truthy (rs : list string) (c : option string) (l : string)
  : option string * string :=
  match rs with
  | [] => (c, l)
  | r :: rest =>
      let '(c', l') := correct_block r l in
      if Py.truthy c' then (Some c', l') else first_truthy rest (Some c') l'
  end.

(** ** Sequences of store operations *)

Inductive store_op : Type :=
| OpAppend (snippet : CodeSnippet)
| OpToggle (snippet_id : string) (value : bool).

(** The checkbox widgets after the user has set the one of [snippet_id] to
    [value]: every other checkbox returns its current value. *)
Definition toggled (snippet_id : string) (value : bool)
  : bool -> string -> bool :=
  fun current key =>
    if String.eqb key ("cb_" ++ snippet_id) then value else current.

Definition apply_op (st : AppState) (op : store_op) : AppState :=
  match op with
  | OpAppend snippet => append_snippet st snippet
  | OpToggle k v => render_snippets (toggled k v) st
  end.

Definition run_ops (ops : list store_op) (st : AppState) : AppState :=
  fold_left apply_op ops st.

(** The same operations with the widgets registered: a toggle is a run
    of the render pass, which can stop at a repeated key; the sequence
    stops at the first operation that raises. *)
Definition apply_op_checked (st : AppState) (op : store_op) : outcome :=
  match op with
  | OpAppend snippet => Done (append_snippet st snippet)
  | OpToggle k v => render_pass (toggled k v) st
  end.

Fixpoint run_ops_checked (ops : list store_op) (st : AppState) : outcome :=
  match ops with
  | [] => Done st
  | op :: rest =>
      match apply_op_checked st op with
      | Done st' => run_ops_checked rest st'
      | Raised e st' => Raised e st'
      end
  end.

(** The snippet store in the wording of the specification: [append] puts
    the snippet last and sets its flag, [setSelected] does nothing for an
    unknown id, [selected] filters in store order. *)
Record SpecStore : Type := {
  spec_snippets : list CodeSnippet;
  spec_flag : string -> bool
}.

Definition spec_empty : SpecStore :=
  {| spec_snippets := []; spec_flag := fun _ => false |}.

Definition spec_append (ss : SpecStore) (snippet : CodeSnippet) : SpecStore :=
  {| spec_snippets := spec_snippets ss ++ [snippet];
     spec_flag := fun k => if String.eqb k (id snippet) then true
                           else spec_flag ss k |}.

Definition spec_setSelected (ss : SpecStore) (snippet_id : string) (value : bool)
  : SpecStore :=
  if existsb (fun s => String.eqb (id s) snippet_id) (spec_snippets ss)
  then {| spec_snippets := spec_snippets ss;
          spec_flag := fun k => if String.eqb k snippet_id then value
                                else spec_flag ss k |}
  else ss.

Definition spec_selected (ss : SpecStore) : list CodeSnippet :=
  filter (fun s => spec_flag ss (id s)) (spec_snippets ss).

Definition spec_apply (ss : SpecStore) (op : store_op) : SpecStore :=
  match op with
  | OpAppend snippet => spec_append ss snippet
  | OpToggle k v => spec_setSelected ss k v
  end.

Definition spec_run (ops : list store_op) : SpecStore :=
  fold_left spec_apply ops spec_empty.

(** The code state and the store of the specification agree: same
    snippets in the same order, same flag for every id. *)
Definition agrees (st : AppState) (ss : SpecStore) : Prop :=
  generated_codes st = spec_snippets ss /\
  forall k, Dict.get (selected_code_ids_for_download st) k false = spec_flag ss k.

Fixpoint appended (ops : list store_op) : list CodeSnippet :=
  match ops with
  | [] => []
  | OpAppend snippet :: rest => snippet :: appended rest
  | OpToggle _ _ :: rest => appended rest
  end.

(** ** Sessions

    One user interaction per script run; the session state a run leaves
    behind, also when it stops at an exception, is the next run's start. *)

Inductive event : Type :=
| EvGenerate (client : Client) (now : datetime)
    (prompt_gen filename_gen language_gen : string)
| EvChat (client : Client) (now_name now_id : datetime)
    (action_mode user_prompt : string)
| EvRender (checkbox : bool -> string -> bool).

Definition step (st : AppState) (ev : event) : AppState :=
  match ev with
  | EvGenerate client now p f l => state_of (generate_code client now p f l st)
  | EvChat client now_name now_id mode p =>
      state_of (chat_turn client now_name now_id mode p st)
  | EvRender checkbox => state_of (render_pass checkbox st)
  end.

Definition session (evs : list event) : AppState :=
  fold_left step evs AppState_default.

(** The clock readings an event can turn into a snippet id. *)
Definition id_stamps (ev : event) : list string :=
  match ev with
  | EvGenerate _ now _ _ _ => [timestamp now]
  | EvChat _ _ now_id _ _ => [timestamp now_id]
  | EvRender _ => []
  end.

(** ** Sample inputs *)

Definition sample_now : datetime :=
  {| hour := 9; minute := 5; second := 30; timestamp := "1700000000.123456" |}.

Definition sample_later : datetime :=
  {| hour := 9; minute := 6; second := 2; timestamp := "1700000032.5" |}.

(** The fenced region of the sample reply. *)
Definition sample_region : string := "python" ++ nl ++ "print(1)" ++ nl.

(** A segment whose first line is not alphabetic. *)
Definition assignment_segment : string := "x=1" ++ nl ++ "y=2".

(** A client whose every call returns [text]. *)
Definition replying (text : string) : Client :=
  {| generate_content := fun _ =>
       Some {| response_text := Present text;
               response_parts := Absent;
               response_candidates := Absent |};
     send_message := fun _ _ =>
       Some {| response_text := Present text;
               response_parts := Absent;
               response_candidates := Absent |} |}.

(** A client whose every call raises. *)
Definition failing : Client :=
  {| generate_content := fun _ => None; send_message := fun _ _ => None |}.

Definition sample_reply : string :=
  "Here:" ++ nl ++ "```python" ++ nl ++ "print(1)" ++ nl ++ "```" ++ nl ++ "Done".

(** A reply whose fenced region is hinted as [js]. *)
Definition js_reply : string := "```js" ++ nl ++ "let x;" ++ nl ++ "```".


Definition unnamed_snippet : CodeSnippet :=
  {| id := "code_1700000050.75";
     filename := EmptyString;
     language := "python";
     content := "print(4)";
     description := None |}.

Definition sample_snippet : CodeSnippet :=
  {| id := "code_1700000000.123456";
     filename := "q.py";
     language := "python";
     content := "print(1)";
     description := Some "Generated from prompt: quick sort..." |}.

Definition other_snippet : CodeSnippet :=
  {| id := "code_1700000032.5";
     filename := "q.py";
     language := "python";
     content := "print(2)";
     description := None |}.

(** The session after one successful generate. *)
Definition sample_state : AppState :=
  append_snippet AppState_default sample_snippet.

(** ** Explain flow (lines 178-197) *)

Definition with_explanation (st : AppState) (e : option string) : AppState :=
  {| api_key_configured := api_key_configured st;
     chat_history := chat_history st;
     generated_codes := generated_codes st;
     current_explanation := e;
     selected_code_ids_for_download := selected_code_ids_for_download st |}.

Definition explain_prompt (code_to_explain : string) : string :=
  "Explain the following code snippet. Be concise and clear:" ++ nl ++ nl
  ++ "```" ++ nl ++ code_to_explain ++ nl ++ "```".

(** Lines 183-191. *)
Definition explain_code (client : Client) (code_to_explain : string)
  (st : AppState) : AppState :=
  if Py.truthy code_to_explain then
    match truthy_text (send_gemini_message (explain_prompt code_to_explain)
                         (Some client) None) with
    | Some explanation => with_explanation st (Some explanation)
    | None => st
    end
  else st.

(** Lines 194-197: the explanation is shown and then cleared. *)
Definition show_explanation (st : AppState) : option string * AppState :=
  match truthy_text (current_explanation st) with
  | Some explanation => (Some explanation, with_explanation st None)
  | None => (None, st)
  end.

(** ** API key and client (lines 29-67)

    [st.session_state] holds the key [api_key] (absent: [None]), the key
    [gemini_model_client] (absent or [None]: [None]) and [app_state], which
    line 118 creates on the first run.  [initialize_gemini_client] wraps the
    external [genai] calls: [initialize key] is [None] when they raise. *)

Record SessionState : Type := {
  api_key : option string;
  gemini_model_client : option Client;
  app_state : AppState
}.

Definition fresh_session : SessionState :=
  {| api_key := None; gemini_model_client := None; app_state := AppState_default |}.

Definition with_configured (st : AppState) (b : bool) : AppState :=
  {| api_key_configured := b;
     chat_history := chat_history st;
     generated_codes := generated_codes st;
     current_explanation := current_explanation st;
     selected_code_ids_for_download := selected_code_ids_for_download st |}.

Definition with_app_state (ss : SessionState) (st : AppState) : SessionState :=
  {| api_key := api_key ss;
     gemini_model_client := gemini_model_client ss;
     app_state := st |}.

(** [get_gemini_client] returns, or stops the run at [st.rerun()]. *)
Inductive client_result : Type :=
| Restart (ss : SessionState)
| Returned (gemini_model : option Client) (ss : SessionState).

(** Lines 52-67. *)
Definition client_block (initialize : string -> option Client)
  (ss : SessionState) : client_result :=
  match gemini_model_client ss with
  | None =>
      match truthy_text (api_key ss) with
      | Some key =>
          match initialize key with
          | Some model =>
              Returned (Some model)
                {| api_key := api_key ss;
                   gemini_model_client := Some model;
                   app_state := with_configured (app_state ss) true |}
          | None =>
              Returned None
                {| api_key := None;
                   gemini_model_client := gemini_model_client ss;
                   app_state := with_configured (app_state ss) false |}
          end
      | None => Returned None ss
      end
  | Some model => Returned (Some model) ss
  end.

(** Lines 40-67. *)
Definition get_gemini_client (initialize : string -> option Client)
  (api_key_input : string) (ss : SessionState) : client_result :=
  match truthy_text (api_key ss) with
  | None =>
      if Py.truthy api_key_input
      then Restart {| api_key := Some api_key_input;
                      gemini_model_client := gemini_model_client ss;
                      app_state := with_configured (app_state ss) true |}
      else Returned None ss
  | Some _ => client_block initialize ss
  end.

Definition not_configured_error : string :=
  "Gemini API Key is not configured. Please enter it above.".

Definition init_failed_error : string :=
  "Gemini client initialization failed. Check your API key or console for errors.".

(** Lines 345-348: the error the sidebar shows at the end of a run. *)
Definition final_check (ss : SessionState) (gemini_model : option Client)
  : option string :=
  if negb (api_key_configured (app_state ss))
     && match api_key ss with None => true | Some _ => false end
  then Some not_configured_error
  else if api_key_configured (app_state ss)
          && match gemini_model with None => true | Some _ => false end
  then Some init_failed_error
  else None.

(** ** One run of the script (lines 116-348) *)

Module Page.

(** What the widgets return in one run, the clock readings of the run and
    the behaviour of the external client factory. *)
Record Input : Type := {
  initialize : string -> option Client;
  api_key_input : string;
  action_mode : string;
  submit_gen : bool;
  prompt_gen : string;
  filename_gen : string;
  language_gen : string;
  submit_explain : bool;
  code_to_explain : string;
  checkbox : bool -> string -> bool;
  user_prompt : option string;
  now_gen : datetime;
  now_name : datetime;
  now_id : datetime
}.

Inductive Status : Type :=
| Completed
| Rerun
| Uncaught (e : exn).

(** The session state a run leaves and what it put on the page. *)
Record Result : Type := {
  status : Status;
  final : SessionState;
  explanation_shown : option string;
  download : option ZipFile;
  sidebar_error : option string
}.

End Page.

(** Lines 138-191: the form of the selected action. *)
Definition run_action (client : Client) (inp : Page.Input) (st : AppState)
  : outcome :=
  if String.eqb (Page.action_mode inp) "Generate Code" then
    if Page.submit_gen inp
    then generate_code client (Page.now_gen inp) (Page.prompt_gen inp)
           (Page.filename_gen inp) (Page.language_gen inp) st
    else Done st
  else if String.eqb (Page.action_mode inp) "Explain Code" then
    if Page.submit_explain inp
    then Done (explain_code client (Page.code_to_explain inp) st)
    else Done st
  else Done st.

(** Lines 226-235: the download button, offered when a snippet is
    selected, with the archive as the builder asks for it. *)
Definition download_offer (st : AppState) : option ZipFile :=
  match generated_codes st with
  | [] => None
  | _ :: _ =>
      match selected_to_download st with
      | [] => None
      | s :: l => Some (create_zip_file (s :: l))
      end
  end.

(** Lines 253-341: the chat input, [None] when nothing was sent. *)
Definition run_chat (client : Client) (inp : Page.Input) (st : AppState)
  : outcome :=
  match Page.user_prompt inp with
  | Some p =>
      chat_turn client (Page.now_name inp) (Page.now_id inp)
        (Page.action_mode inp) p st
  | None => Done st
  end.

(** Lines 127-341 with a client at hand: the two columns and, when both
    end without an exception, the final check. *)
Definition run_columns (client : Client) (inp : Page.Input) (ss : SessionState)
  : Page.Result :=
  match run_action client inp (app_state ss) with
  | Raised e st1 =>
      {| Page.status := Page.Uncaught e; Page.final := with_app_state ss st1;
         Page.explanation_shown := None; Page.download := None;
         Page.sidebar_error := None |}
  | Done st1 =>
      let shown := fst (show_explanation st1) in
      let st3 := render_snippets (Page.checkbox inp)
                   (snd (show_explanation st1)) in
      match run_chat client inp st3 with
      | Raised e st4 =>
          {| Page.status := Page.Uncaught e;
             Page.final := with_app_state ss st4;
             Page.explanation_shown := shown;
             Page.download := download_offer st3;
             Page.sidebar_error := None |}
      | Done st4 =>
          {| Page.status := Page.Completed;
             Page.final := with_app_state ss st4;
             Page.explanation_shown := shown;
             Page.download := download_offer st3;
             Page.sidebar_error :=
               final_check (with_app_state ss st4) (Some client) |}
      end
  end.

Definition run_page (inp : Page.Input) (ss : SessionState) : Page.Result :=
  match get_gemini_client (Page.initialize inp) (Page.api_key_input inp) ss with
  | Restart ss' =>
      {| Page.status := Page.Rerun; Page.final := ss';
         Page.explanation_shown := None; Page.download := None;
         Page.sidebar_error := None |}
  | Returned None ss1 =>
      {| Page.status := Page.Completed; Page.final := ss1;
         Page.explanation_shown := None; Page.download := None;
         Page.sidebar_error := final_check ss1 None |}
  | Returned (Some client) ss1 => run_columns client inp ss1
  end.

(** Lines 226-235 on the archive the library builds: [create_zip_file]
    can raise at line 227, before the button is shown. *)
Definition download_button (st : AppState) : pyresult (option ZipFile) :=
  match generated_codes st with
  | [] => Ok None
  | _ :: _ =>
      match selected_to_download st with
      | [] => Ok None
      | s :: l =>
          archive <- Zip.create_zip_file (s :: l) ;; Ok (Some archive)
      end
  end.

(** Lines 127-341 with the raises of column 1: the render pass can stop at
    line 210 and the archive build at line 227; either ends the run
    before the chat column and the final check.  [run_columns] is the run
    in which both go through. *)
Definition script_columns (client : Client) (inp : Page.Input)
  (ss : SessionState) : Page.Result :=
  match run_action client inp (app_state ss) with
  | Raised e st1 =>
      {| Page.status := Page.Uncaught e; Page.final := with_app_state ss st1;
         Page.explanation_shown := None; Page.download := None;
         Page.sidebar_error := None |}
  | Done st1 =>
      let shown := fst (show_explanation st1) in
      match render_pass (Page.checkbox inp) (snd (show_explanation st1)) with
      | Raised e st2 =>
          {| Page.status := Page.Uncaught e;
             Page.final := with_app_state ss st2;
             Page.explanation_shown := shown;
             Page.download := None;
             Page.sidebar_error := None |}
      | Done st3 =>
          match download_button st3 with
          | Raise e =>
              {| Page.status := Page.Uncaught e;
                 Page.final := with_app_state ss st3;
                 Page.explanation_shown := shown;
                 Page.download := None;
                 Page.sidebar_error := None |}
          | Ok offered =>
              match run_chat client inp st3 with
              | Raised e st4 =>
                  {| Page.status := Page.Uncaught e;
                     Page.final := with_app_state ss st4;
                     Page.explanation_shown := shown;
                     Page.download := offered;
                     Page.sidebar_error := None |}
              | Done st4 =>
                  {| Page.status := Page.Completed;
                     Page.final := with_app_state ss st4;
                     Page.explanation_shown := shown;
                     Page.download := offered;
                     Page.sidebar_error :=
                       final_check (with_app_state ss st4) (Some client) |}
              end
          end
      end
  end.

Definition script_run (inp : Page.Input) (ss : SessionState) : Page.Result :=
  match get_gemini_client (Page.initialize inp) (Page.api_key_input inp) ss with
  | Restart ss' =>
      {| Page.status := Page.Rerun; Page.final := ss';
         Page.explanation_shown := None; Page.download := None;
         Page.sidebar_error := None |}
  | Returned None ss1 =>
      {| Page.status := Page.Completed; Page.final := ss1;
         Page.explanation_shown := None; Page.download := None;
         Page.sidebar_error := final_check ss1 None |}
  | Returned (Some client) ss1 => script_columns client inp ss1
  end.

(** A browser session of the script with the raises of column 1. *)
Definition script_session (inputs : list Page.Input) : SessionState :=
  fold_left (fun ss inp => Page.final (script_run inp ss)) inputs fresh_session.

(** The input of the same run with nothing typed in the chat, and with no
    checkbox changed either. *)
Definition no_chat (inp : Page.Input) : Page.Input :=
  {| Page.initialize := Page.initialize inp;
     Page.api_key_input := Page.api_key_input inp;
     Page.action_mode := Page.action_mode inp;
     Page.submit_gen := Page.submit_gen inp;
     Page.prompt_gen := Page.prompt_gen inp;
     Page.filename_gen := Page.filename_gen inp;
     Page.language_gen := Page.language_gen inp;
     Page.submit_explain := Page.submit_explain inp;
     Page.code_to_explain := Page.code_to_explain inp;
     Page.checkbox := Page.checkbox inp;
     Page.user_prompt := None;
     Page.now_gen := Page.now_gen inp;
     Page.now_name := Page.now_name inp;
     Page.now_id := Page.now_id inp |}.

Definition quiet (inp : Page.Input) : Page.Input :=
  {| Page.initialize := Page.initialize inp;
     Page.api_key_input := Page.api_key_input inp;
     Page.action_mode := Page.action_mode inp;
     Page.submit_gen := Page.submit_gen inp;
     Page.prompt_gen := Page.prompt_gen inp;
     Page.filename_gen := Page.filename_gen inp;
     Page.language_gen := Page.language_gen inp;
     Page.submit_explain := Page.submit_explain inp;
     Page.code_to_explain := Page.code_to_explain inp;
     Page.checkbox := fun value _ => value;
     Page.user_prompt := None;
     Page.now_gen := Page.now_gen inp;
     Page.now_name := Page.now_name inp;
     Page.now_id := Page.now_id inp |}.

(** A browser session: the runs of the script, each starting from the
    session state the one before left. *)
Definition app_run (inputs : list Page.Input) : SessionState :=
  fold_left (fun ss inp => Page.final (run_page inp ss)) inputs fresh_session.

(** ** Invariants of a session *)

(** A configured flag goes with a stored key, and a stored client with
    the flag. *)
Definition credentials_consistent (ss : SessionState) : Prop :=
  (api_key_configured (app_state ss) = true ->
   exists key, api_key ss = Some key /\ Py.truthy key = true) /\
  (gemini_model_client ss <> None ->
   api_key_configured (app_state ss) = true).

(** The keys of the selection dictionary are the ids of the stored
    snippets, each key once. *)
Definition selection_matches_store (st : AppState) : Prop :=
  NoDup (Dict.keys (selected_code_ids_for_download st)) /\
  forall k,
    Dict.has_key (selected_code_ids_for_download st) k =
    existsb (fun s => String.eqb (id s) k) (generated_codes st).

(** The messages one chat turn logs: the user's, then the model's if the
    turn got that far. *)
Definition turn_messages (turn : string * option string) : list ChatMessage :=
  user_message (fst turn)
  :: match snd turn with
     | Some text => [model_message text]
     | None => []
     end.

(** What one run adds: at most two snippets (one generated, one
    corrected) and at most one chat turn. *)
Definition grows (st st' : AppState) : Prop :=
  (exists added,
     generated_codes st' = (generated_codes st ++ added)%list /\
     List.length added <= 2) /\
  (exists turns,
     chat_history st' = (chat_history st ++ flat_map turn_messages turns)%list /\
     List.length turns <= 1).

(** A sample run input: the key is stored, the mode is [mode], nothing is
    submitted or ticked away. *)
Definition sample_input (mode : string) (p : option string) : Page.Input :=
  {| Page.initialize := fun _ => Some (replying sample_reply);
     Page.api_key_input := "";
     Page.action_mode := mode;
     Page.submit_gen := false;
     Page.prompt_gen := "";
     Page.filename_gen := "generated_script.py";
     Page.language_gen := "python";
     Page.submit_explain := false;
     Page.code_to_explain := "";
     Page.checkbox := fun value _ => value;
     Page.user_prompt := p;
     Page.now_gen := sample_now;
     Page.now_name := sample_now;
     Page.now_id := sample_later |}.

(** * Properties *)

(** ** Strings *)

Module PyFacts.
Import Py.

Lemma lstrip_idem (s : string) : lstrip (lstrip s) = lstrip s.
Proof.
  induction s as [|c s IH]; simpl; [reflexivity|].
  destruct (isspace c) eqn:E; [exact IH|].
  simpl. now rewrite E.
Qed.

Lemma rstrip_idem (s : string) : rstrip (rstrip s) = rstrip s.
Proof.
  induction s as [|c s IH]; simpl; [reflexivity|].
  destruct (rstrip s) as [|c' r] eqn:E.
  - destruct (isspace c) eqn:Ec; simpl; [reflexivity|]. now rewrite Ec.
  - simpl in IH |- *. now rewrite IH.
Qed.

Lemma rstrip_tail (c : ascii) (t : string) :
  rstrip (String c t) = String c t -> rstrip t = t.
Proof.
  simpl. destruct (rstrip t) as [|c' r] eqn:E.
  - destruct (isspace c); intros H; [discriminate|].
    now inversion H.
  - intros H. now inversion H.
Qed.

Lemma rstrip_lstrip (t : string) :
  rstrip t = t -> rstrip (lstrip t) = lstrip t.
Proof.
  induction t as [|c t IH]; intros H; [reflexivity|].
  simpl lstrip. destruct (isspace c).
  - apply IH. eapply rstrip_tail; eauto.
  - exact H.
Qed.

(** The result of [strip] has no whitespace left at either end. *)
Lemma strip_idem (s : string) : strip (strip s) = strip s.
Proof.
  unfold strip.
  rewrite (rstrip_lstrip (rstrip s)) by apply rstrip_idem.
  apply lstrip_idem.
Qed.

Lemma truthy_true (s : string) : truthy s = true <-> s <> EmptyString.
Proof.
  destruct s; simpl; split; intros H; congruence.
Qed.

Lemma truthy_false (s : string) : truthy s = false <-> s = EmptyString.
Proof.
  destruct s; simpl; split; intros H; congruence.
Qed.

Lemma split_scan_step (sep : string) (c : ascii) (s acc : string) :
  split_scan sep 0 acc (String c s) =
  if startswith sep (String c s)
  then rev_acc acc EmptyString
         :: split_scan sep (String.length sep - 1) EmptyString s
  else split_scan sep 0 (String c acc) s.
Proof. reflexivity. Qed.

Lemma contains_step (sub : string) (c : ascii) (s : string) :
  contains sub (String c s) = startswith sub (String c s) || contains sub s.
Proof. reflexivity. Qed.

Lemma split_scan_nonempty (sep : string) (s : string) (k : nat) (acc : string) :
  1 <= List.length (split_scan sep k acc s).
Proof.
  revert k acc. induction s as [|c s IH]; intros k acc; [simpl; lia|].
  destruct k as [|k]; [|apply IH].
  rewrite split_scan_step.
  destruct (startswith sep (String c s)); [cbn [List.length]; lia|apply IH].
Qed.

(** A text that holds the separator splits into two pieces at least. *)
Lemma split_scan_contains (sep : string) (s : string) (acc : string) :
  contains sep s = true ->
  startswith sep EmptyString = false ->
  2 <= List.length (split_scan sep 0 acc s).
Proof.
  intros H Hsep. revert acc H.
  induction s as [|c s IH]; intros acc H.
  - simpl in H. rewrite Hsep in H. discriminate.
  - rewrite split_scan_step. rewrite contains_step in H.
    destruct (startswith sep (String c s)) eqn:E.
    + pose proof (split_scan_nonempty sep s (String.length sep - 1) EmptyString).
      cbn [List.length]. lia.
    + apply IH. exact H.
Qed.

Lemma split_fence_two (text : string) :
  contains fence text = true -> 2 <= List.length (split fence text).
Proof.
  intros H. apply split_scan_contains; [exact H|reflexivity].
Qed.

(** A text without the separator is its own single piece. *)
Lemma split_scan_absent (sep : string) (s : string) (acc : string) :
  contains sep s = false ->
  split_scan sep 0 acc s = [rev_acc acc s].
Proof.
  revert acc. induction s as [|c s IH]; intros acc H.
  - reflexivity.
  - rewrite split_scan_step. rewrite contains_step in H.
    apply orb_false_iff in H as [H1 H2].
    rewrite H1. now rewrite IH.
Qed.

Lemma split_absent (sep s : string) :
  contains sep s = false -> split sep s = [s].
Proof.
  intros H. unfold split. now rewrite split_scan_absent.
Qed.

Lemma isalpha_char_lower (c : ascii) :
  isalpha_char c = true -> isalpha_char (lower_char c) = true.
Proof.
  destruct c as [[] [] [] [] [] [] [] []]; vm_compute; intros H;
    first [discriminate H | reflexivity].
Qed.

Lemma all_alpha_lower (s : string) :
  all_chars isalpha_char s = true -> all_chars isalpha_char (lower s) = true.
Proof.
  induction s as [|c s IH]; simpl; [reflexivity|].
  intros H. apply andb_true_iff in H as [H1 H2].
  rewrite isalpha_char_lower by exact H1. now apply IH.
Qed.

(** A one character string occurs in [s] only as one of its characters. *)
Lemma contains_char_alpha (x : ascii) (s : string) :
  isalpha_char x = false ->
  all_chars isalpha_char s = true ->
  contains (String x EmptyString) s = false.
Proof.
  intros Hx. induction s as [|c s IH]; simpl; intros H; [reflexivity|].
  apply andb_true_iff in H as [H1 H2].
  rewrite IH by exact H2. rewrite orb_false_r.
  destruct (Ascii.ascii_dec x c) as [->|Hne].
  - congruence.
  - destruct (Ascii.eqb_spec x c) as [->|_]; [contradiction|].
    unfold startswith. simpl.
    destruct (Ascii.ascii_dec x c); [contradiction|reflexivity].
Qed.

End PyFacts.

(** ** Response parsing *)

Section Parser.

Lemma generate_block_view (segment : string) :
  generate_block segment =
  if hint_taken_generate segment then after_first_line segment else segment.
Proof.
  unfold generate_block, hint_taken_generate, first_line, after_first_line.
  destruct (Py.contains nl segment); [|reflexivity].
  destruct (Py.partition nl segment) as [[a m] b]. reflexivity.
Qed.

Lemma correct_block_view (segment extracted_language : string) :
  correct_block segment extracted_language =
  (corrected_region_content segment,
   if hint_taken_correct segment then lang_hint segment
   else extracted_language).
Proof.
  unfold correct_block, corrected_region_content, hint_taken_correct,
    lang_hint, first_line, after_first_line.
  destruct (Py.contains nl segment); [|reflexivity].
  destruct (Py.partition nl segment) as [[a m] b]. cbn [fst snd andb].
  match goal with |- context [if ?b then _ else _] => destruct b end;
    reflexivity.
Qed.

Lemma pairs_ind (P : list string -> Prop) :
  P [] -> (forall a, P [a]) ->
  (forall a b l, P l -> P (a :: b :: l)) ->
  forall l, P l.
Proof.
  intros H0 H1 H2 l.
  assert (H : P l /\ forall a, P (a :: l)).
  { induction l as [|x l [IHa IHb]]; split; auto. }
  apply H.
Qed.

Lemma range_odd (n : nat) :
  range 1 n 2 = map (fun k => 1 + 2 * k) (seq 0 (n / 2)).
Proof.
  unfold range. f_equal. f_equal.
  destruct n as [|n]; [reflexivity|].
  replace (S n - 1 + (2 - 1)) with (S n) by lia. reflexivity.
Qed.

Lemma range_odd_next (n : nat) :
  range 1 (S (S n)) 2 = 1 :: map (fun i => S (S i)) (range 1 n 2).
Proof.
  rewrite !range_odd.
  replace (S (S n) / 2) with (S (n / 2)).
  2:{ change (S (S n)) with (2 + n).
      replace (2 + n) with (n + 1 * 2) by lia.
      rewrite Nat.div_add by lia. lia. }
  cbn [seq map]. f_equal.
  rewrite <- seq_shift, !map_map.
  apply map_ext. intros k. lia.
Qed.

(** The positions the loop visits hold exactly the fenced regions. *)
Lemma range_regions (blocks : list string) :
  map (nth_error blocks) (range 1 (List.length blocks) 2) =
  map Some (regions blocks).
Proof.
  induction blocks as [|a|a b l IH] using pairs_ind; try reflexivity.
  cbn [List.length regions]. rewrite range_odd_next.
  cbn [map nth_error]. f_equal.
  rewrite map_map. cbn [nth_error]. exact IH.
Qed.

Lemma correct_loop_regions (blocks : list string) (indices : list nat)
  (rs : list string) (c : option string) (l : string) :
  map (nth_error blocks) indices = map Some rs ->
  correct_loop blocks indices c l = Ok (first_truthy rs c l).
Proof.
  revert rs c l. induction indices as [|i indices IH]; intros rs c l H.
  - destruct rs; [reflexivity|discriminate].
  - destruct rs as [|r rs]; [discriminate|].
    cbn [map] in H. injection H as Hi Hrest.
    cbn [correct_loop first_truthy]. rewrite Hi.
    destruct (correct_block r l) as [c' l'].
    destruct (Py.truthy c'); [reflexivity|].
    now apply IH.
Qed.

Lemma extracted_code_regions (text : string) :
  extracted_code text =
  Ok (first_truthy (regions (Py.split fence text)) None "python").
Proof.
  unfold extracted_code. apply correct_loop_regions, range_regions.
Qed.

(** What the loop leaves in [extracted_code_content]: the content of the
    first region whose content is not empty, the empty content when every
    region is empty, and the initial value when there is no region. *)
Lemma first_truthy_content (rs : list string) (c : option string) (l : string) :
  fst (first_truthy rs c l) =
  match rs with
  | [] => c
  | _ :: _ =>
      Some (match find Py.truthy (map corrected_region_content rs) with
            | Some found => found
            | None => EmptyString
            end)
  end.
Proof.
  revert c l. induction rs as [|r rs IH]; intros c l; [reflexivity|].
  cbn [first_truthy map find]. rewrite correct_block_view.
  destruct (Py.truthy (corrected_region_content r)) eqn:E; [reflexivity|].
  rewrite IH. destruct rs as [|r' rs]; [|reflexivity].
  cbn [map find]. apply PyFacts.truthy_false in E. now rewrite E.
Qed.

(** The language the loop leaves is never empty. *)
Lemma first_truthy_language (rs : list string) (c : option string) (l : string) :
  Py.truthy l = true -> Py.truthy (snd (first_truthy rs c l)) = true.
Proof.
  revert c l. induction rs as [|r rs IH]; intros c l Hl; [exact Hl|].
  cbn [first_truthy]. rewrite correct_block_view.
  assert (Hl' : Py.truthy (if hint_taken_correct r then lang_hint r else l) = true).
  { destruct (hint_taken_correct r) eqn:E; [|exact Hl].
    unfold hint_taken_correct in E.
    apply andb_true_iff in E as [_ E]. now apply andb_true_iff in E as [E _]. }
  destruct (Py.truthy (corrected_region_content r)); [exact Hl'|].
  now apply IH.
Qed.

Lemma first_truthy_unhinted (rs : list string) (c : option string) (l : string) :
  Forall (fun r => hint_taken_correct r = false) rs ->
  snd (first_truthy rs c l) = l.
Proof.
  revert c l. induction rs as [|r rs IH]; intros c l H; [reflexivity|].
  inversion H as [|? ? Hr Hrs]; subst.
  cbn [first_truthy]. rewrite correct_block_view, Hr.
  destruct (Py.truthy (corrected_region_content r)); [reflexivity|].
  now apply IH.
Qed.

Lemma regions_length (pieces : list string) :
  List.length (regions pieces) = List.length pieces / 2.
Proof.
  induction pieces as [|a|a b l IH] using pairs_ind; try reflexivity.
  cbn [regions List.length]. rewrite IH.
  change (S (S (List.length l))) with (2 + List.length l).
  replace (2 + List.length l) with (List.length l + 1 * 2) by lia.
  rewrite Nat.div_add by lia. lia.
Qed.

Lemma regions_second (pieces : list string) (r0 : string) (rs : list string) :
  regions pieces = r0 :: rs -> nth_error pieces 1 = Some r0.
Proof.
  destruct pieces as [|a [|b l]]; cbn [regions]; intros H; try discriminate.
  now inversion H.
Qed.

Lemma code_to_store_total (text : string) :
  exists stored, code_to_store text = Ok stored.
Proof.
  unfold code_to_store.
  destruct (Py.contains fence text) eqn:E; [|eauto].
  apply PyFacts.split_fence_two in E.
  destruct (Py.split fence text) as [|a [|b l]]; cbn [List.length] in E; try lia.
  cbn [nth_error]. eauto.
Qed.

Lemma isalpha_not_startswith (x : ascii) (p s : string) :
  Py.isalpha_char x = false -> Py.isalpha s = true ->
  Py.startswith (String x p) s = false.
Proof.
  intros Hx Hs. unfold Py.isalpha in Hs.
  destruct s as [|c s]; [discriminate|].
  cbn [Py.truthy Py.all_chars andb] in Hs.
  apply andb_true_iff in Hs as [Hc _].
  unfold Py.startswith. cbn [String.prefix].
  destruct (Ascii.ascii_dec x c) as [->|_]; [congruence|reflexivity].
Qed.

Lemma isalpha_no_comment_prefix (s : string) :
  Py.isalpha s = true ->
  existsb (fun p => Py.startswith p s) ["#"; "//"; "/*"] = false.
Proof.
  intros H. cbn [existsb].
  rewrite !isalpha_not_startswith by (exact H || reflexivity).
  reflexivity.
Qed.

Lemma isalpha_lower_clean (s : string) :
  Py.isalpha s = true ->
  Py.truthy (Py.lower s) = true /\
  existsb (fun char => Py.contains char (Py.lower s)) hint_excluded = false.
Proof.
  intros H. unfold Py.isalpha in H. apply andb_true_iff in H as [Ht Ha].
  split.
  - destruct s; [discriminate|reflexivity].
  - apply PyFacts.all_alpha_lower in Ha.
    unfold hint_excluded. cbn [existsb].
    rewrite !PyFacts.contains_char_alpha by (exact Ha || reflexivity).
    reflexivity.
Qed.

End Parser.

Lemma lstrip_first (s : string) :
  match Py.lstrip s with
  | EmptyString => True
  | String c _ => Py.isspace c = false
  end.
Proof.
  induction s as [|c s IH]; cbn [Py.lstrip]; [exact I|].
  destruct (Py.isspace c) eqn:E; [exact IH|exact E].
Qed.

Lemma rstrip_last (s : string) :
  match last_char (Py.rstrip s) with
  | Some c => Py.isspace c = false
  | None => True
  end.
Proof.
  induction s as [|c s IH]; cbn [Py.rstrip]; [exact I|].
  destruct (Py.rstrip s) as [|d r].
  - destruct (Py.isspace c) eqn:Ec; cbn [last_char]; [exact I|exact Ec].
  - cbn [last_char] in *. destruct (last_char r); exact IH.
Qed.

Lemma lstrip_last (s : string) :
  Py.lstrip s = EmptyString \/ last_char (Py.lstrip s) = last_char s.
Proof.
  induction s as [|c s IH]; [now left|]. cbn [Py.lstrip].
  destruct (Py.isspace c); [|now right].
  destruct IH as [IH|IH]; [now left|].
  destruct s as [|d s]; [now left|].
  right. rewrite IH. cbn [last_char]. now destruct (last_char s).
Qed.

(** What [strip] returns neither starts nor ends with whitespace. *)
Lemma strip_trimmed (s : string) : trimmed (Py.strip s) = true.
Proof.
  unfold trimmed, Py.strip. apply andb_true_iff. split.
  - pose proof (lstrip_first (Py.rstrip s)) as H.
    destruct (Py.lstrip (Py.rstrip s)); [reflexivity|]. now rewrite H.
  - destruct (lstrip_last (Py.rstrip s)) as [E|E]; rewrite E; [reflexivity|].
    pose proof (rstrip_last s) as H.
    destruct (last_char (Py.rstrip s)); [now rewrite H|reflexivity].
Qed.

Lemma hint_taken_generate_alpha (segment : string) :
  hint_taken_generate segment =
  Py.contains nl segment && Py.isalpha (Py.strip (first_line segment)).
Proof.
  unfold hint_taken_generate. destruct (Py.contains nl segment); [|reflexivity].
  cbn [andb]. destruct (Py.isalpha (Py.strip (first_line segment))) eqn:E;
    [|reflexivity].
  now rewrite isalpha_no_comment_prefix.
Qed.

(** A first line that is a hint in the wording of the specification is
    dropped by both flows. *)
Lemma spec_hint_taken (segment : string) :
  Py.contains nl segment = true ->
  spec_language_hint (Py.strip (first_line segment)) = true ->
  hint_taken_generate segment = true /\ hint_taken_correct segment = true.
Proof.
  intros Hnl Hspec. unfold spec_language_hint in Hspec.
  apply andb_true_iff in Hspec as [Ha _].
  rewrite hint_taken_generate_alpha. unfold hint_taken_correct, lang_hint.
  rewrite Hnl, Ha. destruct (isalpha_lower_clean _ Ha) as [Ht Hx].
  now rewrite Ht, Hx.
Qed.

(** C2, as stated, fails: the correction flow drops the first line [x=1]
    of a fenced region although it is no language hint, so the content it
    returns is [y=2] and not the content of the region; the generate flow
    keeps the line. *)
Lemma region_content_counterexample :
  List.length (Py.split fence (fence ++ assignment_segment ++ fence)) = 2 * 1 + 1 /\
  regions (Py.split fence (fence ++ assignment_segment ++ fence))
  = [assignment_segment] /\
  spec_language_hint (Py.strip (first_line assignment_segment)) = false /\
  spec_region_content assignment_segment = assignment_segment /\
  extracted_code (fence ++ assignment_segment ++ fence) = Ok (Some "y=2", "x=1") /\
  ~ (exists l, extracted_code (fence ++ assignment_segment ++ fence)
               = Ok (Some (spec_region_content assignment_segment), l)) /\
  code_to_store (fence ++ assignment_segment ++ fence) = Ok assignment_segment.
Proof.
  repeat (split; [reflexivity|]). split; [|reflexivity].
  intros [l H]. vm_compute in H. discriminate H.
Qed.

(** C2, amended.  For a text with N >= 1 well-formed fenced regions (so
    that splitting on the fence gives 2N+1 pieces), the generate flow
    stores the content of the first region, and the chat correction flow
    extracts the content of the first region whose content is not empty,
    falling through the regions with empty content (the empty content when
    all are empty).  The content of a region is trimmed: it neither starts
    nor ends with whitespace.  It is the region without its first line
    when the flow takes that line as a hint, the whole region otherwise:
    the generate flow takes a trimmed first line that is alphabetic, the
    correction flow one that is not empty and holds none of the six
    excluded characters.  A first line that is alphabetic and holds none
    of the six characters is dropped by both flows. *)
Theorem first_nonempty_region_extracted (text : string) (N : nat) :
  1 <= N ->
  List.length (Py.split fence text) = 2 * N + 1 ->
  exists r0 rs l,
    regions (Py.split fence text) = r0 :: rs /\
    List.length (r0 :: rs) = N /\
    code_to_store text = Ok (generated_region_content r0) /\
    extracted_code text =
      Ok (Some (match find Py.truthy (map corrected_region_content (r0 :: rs)) with
                | Some found => found
                | None => EmptyString
                end), l) /\
    Forall (fun r =>
      trimmed (generated_region_content r) = true /\
      trimmed (corrected_region_content r) = true /\
      generated_region_content r =
        Py.strip (if Py.contains nl r && Py.isalpha (Py.strip (first_line r))
                  then after_first_line r else r) /\
      corrected_region_content r =
        Py.strip (if Py.contains nl r
                     && (Py.truthy (Py.lower (Py.strip (first_line r)))
                         && negb (existsb
                                    (fun char =>
                                       Py.contains char
                                         (Py.lower (Py.strip (first_line r))))
                                    [" "; ":"; ";"; "{"; "("; "#"]))
                  then after_first_line r else r) /\
      (Py.contains nl r = true ->
       spec_language_hint (Py.strip (first_line r)) = true ->
       generated_region_content r = spec_region_content r /\
       corrected_region_content r = spec_region_content r))
      (r0 :: rs).
Proof.
  intros HN Hlen.
  pose proof (regions_length (Py.split fence text)) as Hr.
  rewrite Hlen in Hr.
  replace (2 * N + 1) with (1 + N * 2) in Hr by lia.
  rewrite Nat.div_add in Hr by lia. cbn in Hr.
  destruct (regions (Py.split fence text)) as [|r0 rs] eqn:Eregions;
    [cbn in Hr; lia|].
  exists r0, rs, (snd (first_truthy (r0 :: rs) None "python")).
  split; [reflexivity|]. split; [exact Hr|]. split; [|split].
  - unfold code_to_store.
    destruct (Py.contains fence text) eqn:E.
    + rewrite (regions_second _ _ _ Eregions).
      now rewrite generate_block_view.
    + rewrite PyFacts.split_absent in Hlen by exact E.
      cbn in Hlen. lia.
  - rewrite extracted_code_regions, Eregions.
    rewrite (surjective_pairing (first_truthy (r0 :: rs) None "python")).
    now rewrite first_truthy_content.
  - apply Forall_forall. intros r _.
    split; [apply strip_trimmed|]. split; [apply strip_trimmed|].
    split; [|split].
    + unfold generated_region_content. now rewrite hint_taken_generate_alpha.
    + reflexivity.
    + intros Hnl Hspec. destruct (spec_hint_taken r Hnl Hspec) as [Hg Hc].
      unfold generated_region_content, corrected_region_content,
        spec_region_content.
      now rewrite Hg, Hc, Hspec.
Qed.

Lemma first_nonempty_region_witness :
  exists r0 rs l,
    regions (Py.split fence sample_reply) = r0 :: rs /\
    List.length (r0 :: rs) = 1 /\
    code_to_store sample_reply = Ok (generated_region_content r0) /\
    extracted_code sample_reply =
      Ok (Some (match find Py.truthy (map corrected_region_content (r0 :: rs)) with
                | Some found => found
                | None => EmptyString
                end), l) /\
    Forall (fun r =>
      trimmed (generated_region_content r) = true /\
      trimmed (corrected_region_content r) = true /\
      generated_region_content r =
        Py.strip (if Py.contains nl r && Py.isalpha (Py.strip (first_line r))
                  then after_first_line r else r) /\
      corrected_region_content r =
        Py.strip (if Py.contains nl r
                     && (Py.truthy (Py.lower (Py.strip (first_line r)))
                         && negb (existsb
                                    (fun char =>
                                       Py.contains char
                                         (Py.lower (Py.strip (first_line r))))
                                    [" "; ":"; ";"; "{"; "("; "#"]))
                  then after_first_line r else r) /\
      (Py.contains nl r = true ->
       spec_language_hint (Py.strip (first_line r)) = true ->
       generated_region_content r = spec_region_content r /\
       corrected_region_content r = spec_region_content r))
      (r0 :: rs).
Proof.
  apply (first_nonempty_region_extracted sample_reply 1).
  - lia.
  - reflexivity.
Defined.

(** The scenario of the specification: one fenced region with the hint
    [python] gives the language "python" and the content "print(1)". *)
Example parse_scenario :
  extracted_code sample_reply = Ok (Some "print(1)", "python") /\
  code_to_store sample_reply = Ok "print(1)".
Proof. split; reflexivity. Qed.

(** An empty region is passed over when a later one has content. *)
Example empty_region_skipped :
  extracted_code ("``` ```" ++ nl ++ "```js" ++ nl ++ "let x;" ++ nl ++ "```")
  = Ok (Some "let x;", "js").
Proof. reflexivity. Qed.

(** C3, as stated, fails: in the chat correction flow the first line
    [x=1] of a segment is taken as the language and dropped from the
    content although it is not alphabetic. *)
Lemma hint_rule_counterexample :
  ~ (hint_taken_correct assignment_segment = true <->
     spec_language_hint (Py.strip (first_line assignment_segment)) = true)
  /\ correct_block assignment_segment "python" = ("y=2", "x=1").
Proof.
  split; [|reflexivity].
  intros [H _]. specialize (H eq_refl). vm_compute in H. discriminate H.
Qed.

(** C3, amended.  The chat correction flow takes the first line of a
    segment as the language, and drops it from the content, exactly when
    the segment has a line break and the first line, trimmed and
    lowercased, is not empty and holds none of the six excluded characters;
    otherwise the whole segment is the content and the language stays what
    it was, which is "python" when no segment gave one.  The generate flow
    drops the first line exactly when the segment has a line break and the
    trimmed first line is alphabetic, and stores the language of the
    caller.  A trimmed first line that is alphabetic is taken as a hint by
    both flows when the segment has a line break. *)
Theorem language_hint_rule (segment extracted_language : string) :
  (hint_taken_correct segment = true <->
     Py.contains nl segment = true /\
     lang_hint segment <> EmptyString /\
     Forall (fun char => Py.contains char (lang_hint segment) = false)
       hint_excluded) /\
  correct_block segment extracted_language =
    (if hint_taken_correct segment
     then (Py.strip (after_first_line segment), lang_hint segment)
     else (Py.strip segment, extracted_language)) /\
  (hint_taken_generate segment = true <->
     Py.contains nl segment = true /\
     Py.isalpha (Py.strip (first_line segment)) = true) /\
  generate_block segment =
    (if hint_taken_generate segment then after_first_line segment
     else segment) /\
  (spec_language_hint (Py.strip (first_line segment)) = true ->
   Py.contains nl segment = true ->
   hint_taken_correct segment = true /\ hint_taken_generate segment = true) /\
  (forall text,
     Forall (fun r => hint_taken_correct r = false)
       (regions (Py.split fence text)) ->
     exists c, extracted_code text = Ok (c, "python")) /\
  (forall now prompt_gen filename_gen language_gen stored,
     language (generated_snippet now prompt_gen filename_gen language_gen stored)
     = language_gen).
Proof.
  split; [|split; [|split; [|split; [|split; [|split]]]]].
  - unfold hint_taken_correct.
    rewrite !andb_true_iff, negb_true_iff, PyFacts.truthy_true.
    rewrite <- not_true_iff_false, existsb_exists, Forall_forall.
    split; intros (H1 & H2 & H3); (split; [exact H1|split; [exact H2|]]).
    + intros char Hin. apply not_true_iff_false. intros Hc.
      apply H3. now exists char.
    + intros (char & Hin & Hc). specialize (H3 char Hin). congruence.
  - rewrite correct_block_view. unfold corrected_region_content.
    now destruct (hint_taken_correct segment).
  - unfold hint_taken_generate. rewrite !andb_true_iff, negb_true_iff.
    split.
    + intros (H1 & H2 & _). now split.
    + intros (H1 & H2). split; [exact H1|]. split; [exact H2|].
      now apply isalpha_no_comment_prefix.
  - apply generate_block_view.
  - intros Hspec Hnl. unfold spec_language_hint in Hspec.
    apply andb_true_iff in Hspec as [Ha _].
    unfold hint_taken_correct, hint_taken_generate, lang_hint.
    rewrite Hnl, Ha. cbn [andb].
    destruct (isalpha_lower_clean _ Ha) as [Ht Hx].
    rewrite Ht, Hx, isalpha_no_comment_prefix by exact Ha. now split.
  - intros text H. rewrite extracted_code_regions.
    exists (fst (first_truthy (regions (Py.split fence text)) None "python")).
    rewrite (surjective_pairing (first_truthy _ None "python")) at 1.
    now rewrite first_truthy_unhinted.
  - reflexivity.
Qed.

Lemma language_hint_rule_witness :
  hint_taken_correct sample_region = true /\
  hint_taken_generate sample_region = true.
Proof.
  apply (language_hint_rule sample_region "python"); reflexivity.
Defined.

(** C5, as stated, fails on the chat correction flow: a reply without a
    fence marker gives no content at all, and no snippet. *)
Lemma no_fence_counterexample :
  Py.contains fence "hello" = false /\
  ~ (exists l, extracted_code "hello" = Ok (Some (Py.strip "hello"), l)) /\
  generated_codes
    (state_of (chat_turn (replying "hello") sample_now sample_now
                 correct_mode "fix it" AppState_default)) = [].
Proof.
  split; [reflexivity|]. split; [|reflexivity].
  intros [l H]. vm_compute in H. discriminate H.
Qed.

(** C5, amended.  Both extractions are total: neither raises, for any
    text.  For a text without a fence marker the generate flow stores the
    whole text, trimmed, under the language of the caller, and the chat
    correction flow extracts nothing and adds no snippet. *)
Theorem extraction_total (text : string) :
  (exists stored, code_to_store text = Ok stored) /\
  (exists c l, extracted_code text = Ok (c, l)) /\
  (Py.contains fence text = false ->
   code_to_store text = Ok (Py.strip text) /\
   extracted_code text = Ok (None, "python") /\
   (forall now prompt_gen filename_gen language_gen,
      language (generated_snippet now prompt_gen filename_gen language_gen
                  (Py.strip text)) = language_gen) /\
   (forall now_name now_id action_mode st,
      add_corrected now_name now_id action_mode text st = st)).
Proof.
  split; [apply code_to_store_total|]. split.
  - rewrite extracted_code_regions.
    destruct (first_truthy (regions (Py.split fence text)) None "python")
      as [c l].
    now exists c, l.
  - intros H. split; [|split; [|split]].
    + unfold code_to_store. now rewrite H.
    + rewrite extracted_code_regions, PyFacts.split_absent by exact H.
      reflexivity.
    + reflexivity.
    + intros. unfold add_corrected. now rewrite H.
Qed.

Lemma extraction_total_witness :
  code_to_store "hello  " = Ok (Py.strip "hello  ") /\
  extracted_code "hello  " = Ok (None, "python") /\
  (forall now prompt_gen filename_gen language_gen,
     language (generated_snippet now prompt_gen filename_gen language_gen
                 (Py.strip "hello  ")) = language_gen) /\
  (forall now_name now_id action_mode st,
     add_corrected now_name now_id action_mode "hello  " st = st).
Proof.
  apply (extraction_total "hello  "). reflexivity.
Defined.

(** ** The selection dictionary *)

Module DictFacts.
Import Dict.

Lemma get_set (d : t) (k k' : string) (v default : bool) :
  get (set d k v) k' default =
  if String.eqb k k' then v else get d k' default.
Proof.
  induction d as [|[k0 v0] d IH]; cbn [set get].
  - reflexivity.
  - destruct (String.eqb_spec k0 k) as [->|Hne]; cbn [get].
    + destruct (String.eqb k k'); reflexivity.
    + rewrite IH.
      destruct (String.eqb_spec k0 k') as [->|Hne'];
        destruct (String.eqb_spec k k') as [->|Hne'']; congruence.
Qed.


Lemma has_key_set (d : t) (k k' : string) (v : bool) :
  has_key (set d k v) k' = String.eqb k k' || has_key d k'.
Proof.
  unfold has_key.
  induction d as [|[k0 v0] d IH]; cbn [set existsb fst].
  - reflexivity.
  - destruct (String.eqb_spec k0 k) as [->|Hne]; cbn [existsb fst].
    + destruct (String.eqb k k'); reflexivity.
    + rewrite IH. destruct (String.eqb k0 k'), (String.eqb k k'); reflexivity.
Qed.

Lemma in_set (d : t) (k : string) (v : bool) (e : string * bool) :
  In e (set d k v) -> e = (k, v) \/ In e d.
Proof.
  induction d as [|[k0 v0] d IH]; cbn [set].
  - intros [H|[]]. now left.
  - destruct (String.eqb k0 k).
    + intros [H|H]; [now left|right; now right].
    + intros [H|H]; [right; now left|].
      destruct (IH H) as [H'|H']; [now left|right; now right].
Qed.

(** [update] with a dictionary whose values are a function of the key. *)
Lemma get_update (g : string -> bool) (other d : t) (k : string) (default : bool) :
  (forall k' v, In (k', v) other -> v = g k') ->
  get (update d other) k default =
  if has_key other k then g k else get d k default.
Proof.
  unfold update, has_key. revert d.
  induction other as [|[k0 v0] other IH]; intros d H; cbn [fold_left existsb fst snd].
  - reflexivity.
  - rewrite IH by (intros k' v Hin; apply H; now right).
    rewrite get_set.
    rewrite (H k0 v0) by now left.
    destruct (existsb (fun kv => String.eqb (fst kv) k) other);
      destruct (String.eqb_spec k0 k) as [->|Hne]; reflexivity.
Qed.

End DictFacts.

(** ** Snippet store *)

Section Store.

Variable checkbox : bool -> string -> bool.

Lemma temp_fold_values (st : AppState) (codes : list CodeSnippet) (acc : Dict.t) :
  (forall k v, In (k, v) acc -> v = checked checkbox st k) ->
  forall k v,
    In (k, v)
      (fold_left (fun temp snippet =>
                    Dict.set temp (id snippet) (checked checkbox st (id snippet)))
         codes acc) ->
    v = checked checkbox st k.
Proof.
  revert acc. induction codes as [|s codes IH]; intros acc H k v; cbn [fold_left].
  - apply H.
  - apply IH. intros k' v' Hin.
    destruct (DictFacts.in_set _ _ _ _ Hin) as [E|Hacc].
    + now inversion E.
    + now apply H.
Qed.

Lemma temp_fold_keys (st : AppState) (codes : list CodeSnippet) (acc : Dict.t)
  (k : string) :
  Dict.has_key
    (fold_left (fun temp snippet =>
                  Dict.set temp (id snippet) (checked checkbox st (id snippet)))
       codes acc) k =
  existsb (fun s => String.eqb (id s) k) codes || Dict.has_key acc k.
Proof.
  revert acc. induction codes as [|s codes IH]; intros acc; cbn [fold_left existsb].
  - reflexivity.
  - rewrite IH, DictFacts.has_key_set.
    destruct (String.eqb (id s) k), (existsb (fun s => String.eqb (id s) k) codes);
      reflexivity.
Qed.

(** The flags after a render pass: the checkbox value for the ids in the
    store, the former flag for every other id. *)
Lemma render_flags (st : AppState) (k : string) :
  Dict.get (selected_code_ids_for_download (render_snippets checkbox st)) k false =
  if existsb (fun s => String.eqb (id s) k) (generated_codes st)
  then checked checkbox st k
  else Dict.get (selected_code_ids_for_download st) k false.
Proof.
  unfold render_snippets.
  destruct (generated_codes st) as [|s0 codes] eqn:E; [reflexivity|].
  cbn [selected_code_ids_for_download with_selected].
  rewrite (DictFacts.get_update (checked checkbox st)).
  - unfold temp_selections. rewrite E.
    rewrite temp_fold_keys. cbn [Dict.has_key Dict.empty existsb].
    now rewrite orb_false_r.
  - unfold temp_selections.
    apply temp_fold_values. intros k' v [].
Qed.

Lemma render_codes (st : AppState) :
  generated_codes (render_snippets checkbox st) = generated_codes st.
Proof.
  unfold render_snippets.
  destruct (generated_codes st) eqn:E; [exact E|exact E].
Qed.

Lemma render_history (st : AppState) :
  chat_history (render_snippets checkbox st) = chat_history st.
Proof.
  unfold render_snippets. destruct (generated_codes st); reflexivity.
Qed.

End Store.

Lemma append_snippet_flag (st : AppState) (snippet : CodeSnippet) (k : string) :
  Dict.get (selected_code_ids_for_download (append_snippet st snippet)) k false =
  if String.eqb (id snippet) k then true
  else Dict.get (selected_code_ids_for_download st) k false.
Proof.
  unfold append_snippet. cbn [selected_code_ids_for_download with_selected with_generated_codes].
  apply DictFacts.get_set.
Qed.

Lemma append_snippet_codes (st : AppState) (snippet : CodeSnippet) :
  generated_codes (append_snippet st snippet) = (generated_codes st ++ [snippet])%list.
Proof. reflexivity. Qed.

Lemma toggled_key (k0 k : string) (v current : bool) :
  toggled k0 v current ("cb_" ++ k) = if String.eqb k k0 then v else current.
Proof.
  unfold toggled. cbn. reflexivity.
Qed.

Lemma agrees_step (st : AppState) (ss : SpecStore) (op : store_op) :
  agrees st ss -> agrees (apply_op st op) (spec_apply ss op).
Proof.
  intros [Hcodes Hflags]. destruct op as [snippet|k0 v]; cbn [apply_op spec_apply].
  - split.
    + rewrite append_snippet_codes, Hcodes. reflexivity.
    + intros k. rewrite append_snippet_flag, Hflags. cbn [spec_append spec_flag].
      now rewrite String.eqb_sym.
  - split.
    + rewrite render_codes, Hcodes. unfold spec_setSelected.
      now destruct (existsb _ (spec_snippets ss)).
    + intros k. rewrite render_flags. unfold checked. rewrite toggled_key.
      rewrite Hcodes, Hflags. unfold spec_setSelected.
      destruct (String.eqb_spec k k0) as [->|Hne].
      * destruct (existsb (fun s => String.eqb (id s) k0) (spec_snippets ss));
          cbn [spec_flag]; [now rewrite String.eqb_refl|reflexivity].
      * destruct (existsb (fun s => String.eqb (id s) k0) (spec_snippets ss));
          cbn [spec_flag].
        -- destruct (String.eqb_spec k k0); [contradiction|].
           now destruct (existsb _ (spec_snippets ss)).
        -- now destruct (existsb _ (spec_snippets ss)).
Qed.

Lemma agrees_run (ops : list store_op) (st : AppState) (ss : SpecStore) :
  agrees st ss -> agrees (fold_left apply_op ops st) (fold_left spec_apply ops ss).
Proof.
  revert st ss. induction ops as [|op ops IH]; intros st ss H; [exact H|].
  cbn [fold_left]. apply IH. now apply agrees_step.
Qed.

Lemma spec_snippets_run (ops : list store_op) (ss : SpecStore) :
  spec_snippets (fold_left spec_apply ops ss) = (spec_snippets ss ++ appended ops)%list.
Proof.
  revert ss. induction ops as [|op ops IH]; intros ss; cbn [fold_left appended].
  - now rewrite app_nil_r.
  - rewrite IH. destruct op as [snippet|k v]; cbn [spec_apply].
    + cbn [spec_append spec_snippets]. now rewrite <- app_assoc.
    + unfold spec_setSelected. now destruct (existsb _ (spec_snippets ss)).
Qed.

(** The state update of the operations refines the store of the
    specification: same snippets, same flags, same selection. *)
Lemma run_ops_refines (ops : list store_op) :
  generated_codes (run_ops ops AppState_default) = appended ops /\
  (forall k,
     Dict.get (selected_code_ids_for_download (run_ops ops AppState_default))
       k false = spec_flag (spec_run ops) k) /\
  selected_to_download (run_ops ops AppState_default) =
    filter (fun s => spec_flag (spec_run ops) (id s)) (appended ops) /\
  selected_to_download (run_ops ops AppState_default) =
    spec_selected (spec_run ops).
Proof.
  assert (H : agrees (run_ops ops AppState_default) (spec_run ops)).
  { apply agrees_run. split; [reflexivity|]. intros k. reflexivity. }
  destruct H as [Hcodes Hflags].
  assert (Happ : spec_snippets (spec_run ops) = appended ops).
  { unfold spec_run. now rewrite spec_snippets_run. }
  assert (Hsel : selected_to_download (run_ops ops AppState_default) =
                 spec_selected (spec_run ops)).
  { unfold selected_to_download, spec_selected. rewrite Hcodes.
    apply filter_ext. intros s. apply Hflags. }
  split; [now rewrite Hcodes|]. split; [exact Hflags|]. split; [|exact Hsel].
  rewrite Hsel. unfold spec_selected. now rewrite Happ.
Qed.

Lemma existsb_eqb_in (k : string) (seen : list string) :
  existsb (String.eqb k) seen = true <-> In k seen.
Proof.
  rewrite existsb_exists. split.
  - intros (x & Hin & E). apply String.eqb_eq in E. now subst.
  - intros H. exists k. split; [exact H|apply String.eqb_refl].
Qed.

(** No key is met twice exactly when the keys are pairwise distinct and
    none was seen before. *)
Lemma first_duplicate_none (keys seen : list string) :
  first_duplicate seen keys = None <->
  NoDup keys /\ forall k, In k keys -> ~ In k seen.
Proof.
  revert seen. induction keys as [|k keys IH]; intros seen;
    cbn [first_duplicate].
  - split; [intros _; split; [constructor|intros k []]|reflexivity].
  - destruct (existsb (String.eqb k) seen) eqn:E.
    + apply existsb_eqb_in in E. split; [discriminate|].
      intros [_ H]. exfalso. apply (H k); [now left|exact E].
    + assert (Hk : ~ In k seen).
      { intros H. apply existsb_eqb_in in H. congruence. }
      rewrite IH. split.
      * intros [Hnd H]. split.
        -- constructor; [|exact Hnd]. intros Hin. apply (H k Hin). now left.
        -- intros x [<-|Hx]; [exact Hk|]. intros Hs. apply (H x Hx). now right.
      * intros [Hnd H]. apply NoDup_cons_iff in Hnd as [Hnk Hnd].
        split; [exact Hnd|].
        intros x Hx [<-|Hs]; [contradiction|].
        apply (H x); [now right|exact Hs].
Qed.

Lemma first_duplicate_in (keys seen : list string) (key : string) :
  first_duplicate seen keys = Some key -> In key keys.
Proof.
  revert seen. induction keys as [|k keys IH]; intros seen;
    cbn [first_duplicate]; [discriminate|].
  destruct (existsb (String.eqb k) seen).
  - intros H. inversion H. now left.
  - intros H. right. exact (IH _ H).
Qed.

Lemma checkbox_keys_nodup (st : AppState) :
  NoDup (checkbox_keys st) <-> NoDup (map id (generated_codes st)).
Proof.
  unfold checkbox_keys.
  rewrite <- (map_map id (fun k => "cb_" ++ k)). split.
  - apply NoDup_map_inv.
  - apply NoDup_map_NoDup_ForallPairs. intros x y _ _ H. cbn in H.
    now inversion H.
Qed.

(** With pairwise distinct ids the pass registers every checkbox and
    ends in the update of line 218. *)
Lemma render_pass_done (checkbox : bool -> string -> bool) (st : AppState) :
  NoDup (map id (generated_codes st)) ->
  render_pass checkbox st = Done (render_snippets checkbox st).
Proof.
  intros H. unfold render_pass.
  destruct (first_duplicate [] (checkbox_keys st)) as [key|] eqn:E;
    [|reflexivity].
  exfalso. apply checkbox_keys_nodup in H.
  assert (Hn : first_duplicate [] (checkbox_keys st) = None).
  { apply first_duplicate_none. split; [exact H|]. intros k _ []. }
  congruence.
Qed.

(** With a repeated id the pass stops at a checkbox of a stored snippet
    and leaves the session state as it was. *)
Lemma render_pass_raised (checkbox : bool -> string -> bool) (st : AppState) :
  ~ NoDup (map id (generated_codes st)) ->
  exists s,
    In s (generated_codes st) /\
    render_pass checkbox st = Raised (DuplicateElementKey ("cb_" ++ id s)) st.
Proof.
  intros H. unfold render_pass.
  destruct (first_duplicate [] (checkbox_keys st)) as [key|] eqn:E.
  - apply first_duplicate_in in E. unfold checkbox_keys in E.
    apply in_map_iff in E as (s & <- & Hin). now exists s.
  - exfalso. apply H. apply checkbox_keys_nodup.
    now apply first_duplicate_none in E as [E _].
Qed.

Lemma run_ops_checked_done (ops : list store_op) (st : AppState) :
  NoDup (map id (generated_codes st ++ appended ops)%list) ->
  run_ops_checked ops st = Done (run_ops ops st).
Proof.
  unfold run_ops. revert st.
  induction ops as [|[snippet|k v] ops IH]; intros st H;
    cbn [run_ops_checked apply_op_checked fold_left apply_op appended] in *.
  - reflexivity.
  - apply IH. rewrite append_snippet_codes, <- app_assoc. exact H.
  - rewrite render_pass_done.
    + apply IH. now rewrite render_codes.
    + rewrite map_app in H. now apply NoDup_app_remove_r in H.
Qed.

(** C7.  After any sequence of appends and toggles from the start of a
    session in which the appended snippets have pairwise distinct ids,
    every toggle goes through (no render pass stops at a repeated key),
    and the snippets selected for download are exactly the appended
    snippets whose current flag is true, in append order; the current flag
    is the one the store of the specification keeps ([append] sets it,
    [setSelected] changes it for a known id). *)
Theorem selected_exactly_flagged (ops : list store_op) :
  NoDup (map id (appended ops)) ->
  exists st,
    run_ops_checked ops AppState_default = Done st /\
    generated_codes st = appended ops /\
    (forall k,
       Dict.get (selected_code_ids_for_download st) k false
       = spec_flag (spec_run ops) k) /\
    selected_to_download st =
      filter (fun s => spec_flag (spec_run ops) (id s)) (appended ops) /\
    selected_to_download st = spec_selected (spec_run ops).
Proof.
  intros H. exists (run_ops ops AppState_default).
  split; [now apply run_ops_checked_done|]. apply run_ops_refines.
Qed.

Lemma selected_exactly_flagged_witness :
  exists st,
    run_ops_checked
      [OpAppend sample_snippet; OpAppend other_snippet;
       OpToggle (id sample_snippet) false] AppState_default = Done st /\
    generated_codes st = [sample_snippet; other_snippet] /\
    (forall k,
       Dict.get (selected_code_ids_for_download st) k false
       = spec_flag
           (spec_run [OpAppend sample_snippet; OpAppend other_snippet;
                      OpToggle (id sample_snippet) false]) k) /\
    selected_to_download st =
      filter
        (fun s =>
           spec_flag
             (spec_run [OpAppend sample_snippet; OpAppend other_snippet;
                        OpToggle (id sample_snippet) false]) (id s))
        [sample_snippet; other_snippet] /\
    selected_to_download st =
      spec_selected
        (spec_run [OpAppend sample_snippet; OpAppend other_snippet;
                   OpToggle (id sample_snippet) false]).
Proof.
  apply (selected_exactly_flagged
           [OpAppend sample_snippet; OpAppend other_snippet;
            OpToggle (id sample_snippet) false]).
  cbn. constructor; [|constructor; [|constructor]].
  - intros [H|[]]. discriminate H.
  - intros [].
Defined.

(** With two appended snippets of one id the toggle never goes through:
    the render pass stops at the second checkbox and both flags stay. *)
Example repeated_id_stops_toggle :
  run_ops_checked
    [OpAppend sample_snippet; OpAppend sample_snippet;
     OpToggle (id sample_snippet) false] AppState_default
  = Raised (DuplicateElementKey "cb_code_1700000000.123456")
      (run_ops [OpAppend sample_snippet; OpAppend sample_snippet]
         AppState_default) /\
  selected_to_download
    (run_ops [OpAppend sample_snippet; OpAppend sample_snippet]
       AppState_default)
  = [sample_snippet; sample_snippet].
Proof. split; reflexivity. Qed.

(** The scenario of the specification: append A, append B, clear A. *)
Example selected_scenario :
  run_ops_checked [OpAppend sample_snippet; OpAppend other_snippet;
                   OpToggle (id sample_snippet) false] AppState_default
  = Done (run_ops [OpAppend sample_snippet; OpAppend other_snippet;
                   OpToggle (id sample_snippet) false] AppState_default) /\
  selected_to_download
    (run_ops [OpAppend sample_snippet; OpAppend other_snippet;
              OpToggle (id sample_snippet) false] AppState_default)
  = [other_snippet].
Proof. split; reflexivity. Qed.

(** ** The flows *)

Lemma app_one_inv {A : Type} (l : list A) (x y : A) :
  (l ++ [x] = l ++ [y])%list -> x = y.
Proof.
  intros H. apply app_inv_head in H. now inversion H.
Qed.

Lemma app_one_neq {A : Type} (l : list A) (x : A) : l <> (l ++ [x])%list.
Proof.
  intros H. apply (f_equal (@List.length A)) in H.
  rewrite length_app in H. cbn in H. lia.
Qed.

(** A generate run leaves the state as it is or appends one snippet. *)
Lemma generate_code_cases (client : Client) (now : datetime)
  (prompt_gen filename_gen language_gen : string) (st : AppState) :
  generate_code client now prompt_gen filename_gen language_gen st = Done st \/
  exists stored,
    generate_code client now prompt_gen filename_gen language_gen st =
    Done (append_snippet st
            (generated_snippet now prompt_gen filename_gen language_gen stored)).
Proof.
  unfold generate_code.
  destruct (Py.truthy prompt_gen); [|now left].
  destruct (truthy_text _) as [generated_content|]; [|now left].
  destruct (code_to_store_total generated_content) as [stored ->].
  right. now exists stored.
Qed.

Lemma add_corrected_cases (now_name now_id : datetime)
  (action_mode text : string) (st : AppState) :
  add_corrected now_name now_id action_mode text st = st \/
  exists c l,
    extracted_code text = Ok (Some c, l) /\
    add_corrected now_name now_id action_mode text st =
    append_snippet st (corrected_snippet now_name now_id l c).
Proof.
  unfold add_corrected.
  destruct (Py.contains fence text && String.eqb action_mode correct_mode);
    [|now left].
  destruct (extracted_code text) as [[[c|] l]|e]; try now left.
  destruct (Py.truthy c); [|now left].
  right. now exists c, l.
Qed.

(** A chat turn keeps the snippets and the flags, or appends one corrected
    snippet built from the extraction. *)
Lemma chat_turn_cases (client : Client) (now_name now_id : datetime)
  (action_mode user_prompt : string) (st : AppState) :
  (generated_codes (state_of (chat_turn client now_name now_id action_mode
                                user_prompt st)) = generated_codes st /\
   selected_code_ids_for_download
     (state_of (chat_turn client now_name now_id action_mode user_prompt st))
   = selected_code_ids_for_download st) \/
  exists text c l st2,
    extracted_code text = Ok (Some c, l) /\
    generated_codes st2 = generated_codes st /\
    selected_code_ids_for_download st2 = selected_code_ids_for_download st /\
    chat_turn client now_name now_id action_mode user_prompt st =
    Done (append_snippet st2 (corrected_snippet now_name now_id l c)).
Proof.
  unfold chat_turn.
  destruct (Py.truthy user_prompt); [|left; now split].
  destruct (contextual_prompt _ action_mode user_prompt) as [prompt|e];
    [|left; now split].
  destruct (truthy_text _) as [text|]; [|left; now split].
  cbn [state_of].
  destruct (add_corrected_cases now_name now_id action_mode text
              (append_message (append_message st (user_message user_prompt))
                 (model_message text))) as [->|(c & l & He & ->)].
  - left; now split.
  - right. exists text, c, l. eexists. split; [exact He|].
    split; [|split]; [| |reflexivity]; reflexivity.
Qed.



(** A chat turn that grows the store: the reply, the extraction and the
    conditions under which the snippet was added. *)
Lemma chat_turn_added_inv (client : Client) (now_name now_id : datetime)
  (action_mode user_prompt : string) (st : AppState) (snippet : CodeSnippet) :
  generated_codes
    (state_of (chat_turn client now_name now_id action_mode user_prompt st))
  = (generated_codes st ++ [snippet])%list ->
  exists prompt text c l,
    contextual_prompt (append_message st (user_message user_prompt))
      action_mode user_prompt = Ok prompt /\
    truthy_text (send_gemini_message prompt (Some client) None) = Some text /\
    Py.contains fence text = true /\
    action_mode = correct_mode /\
    extracted_code text = Ok (Some c, l) /\
    Py.truthy c = true /\
    snippet = corrected_snippet now_name now_id l c.
Proof.
  unfold chat_turn.
  destruct (Py.truthy user_prompt);
    [|intros H; exfalso; exact (app_one_neq _ _ H)].
  destruct (contextual_prompt _ action_mode user_prompt) as [prompt|e] eqn:Ep;
    [|intros H; exfalso; exact (app_one_neq _ _ H)].
  destruct (truthy_text _) as [text|] eqn:Et;
    [|intros H; exfalso; exact (app_one_neq _ _ H)].
  cbn [state_of]. unfold add_corrected.
  destruct (Py.contains fence text) eqn:Ef;
    [|intros H; exfalso; exact (app_one_neq _ _ H)].
  destruct (String.eqb_spec action_mode correct_mode) as [Em|_];
    [|intros H; exfalso; exact (app_one_neq _ _ H)].
  cbn [andb].
  destruct (extracted_code text) as [[[c|] l]|e] eqn:Ex;
    try (intros H; exfalso; exact (app_one_neq _ _ H)).
  destruct (Py.truthy c) eqn:Ec;
    [|intros H; exfalso; exact (app_one_neq _ _ H)].
  intros H. rewrite append_snippet_codes in H.
  cbn [generated_codes append_message with_chat_history] in H.
  apply app_one_inv in H.
  exists prompt, text, c, l. repeat split; auto.
Qed.



(** C4, as stated, fails: a chat turn whose gateway call fails adds the
    user's message and then the model entry, and the text of the model
    entry ends with a full stop. *)
Lemma fallback_counterexample :
  chat_history
    (state_of (chat_turn failing sample_now sample_later correct_mode
                 "fix it" AppState_default))
  = [user_message "fix it"; model_message "Sorry, I encountered an issue."] /\
  ~ (chat_history
       (state_of (chat_turn failing sample_now sample_later correct_mode
                    "fix it" AppState_default))
     = (chat_history AppState_default
        ++ [model_message "Sorry, I encountered an issue"])%list) /\
  ~ In (model_message "Sorry, I encountered an issue")
      (chat_history
         (state_of (chat_turn failing sample_now sample_later correct_mode
                      "fix it" AppState_default))).
Proof.
  split; [reflexivity|]. split.
  - intros H. vm_compute in H. discriminate H.
  - intros H. vm_compute in H.
    destruct H as [H|[H|[]]]; discriminate H.
Qed.

(** C4, amended.  When a chat turn reaches the gateway call and the call
    fails (it raises, or gives no text), the conversation log gains the
    user's message followed by exactly one entry with role "model" whose
    only part is the text "Sorry, I encountered an issue." (with the full
    stop); the snippets and the selection flags are unchanged. *)
Theorem gateway_failure_logs_fallback (client : Client)
  (now_name now_id : datetime) (action_mode user_prompt prompt : string)
  (st : AppState) :
  Py.truthy user_prompt = true ->
  contextual_prompt (append_message st (user_message user_prompt))
    action_mode user_prompt = Ok prompt ->
  truthy_text (send_gemini_message prompt (Some client) None) = None ->
  exists st',
    chat_turn client now_name now_id action_mode user_prompt st = Done st' /\
    chat_history st' =
      (chat_history st
       ++ [ {| role := "user"; parts := [user_prompt] |};
            {| role := "model"; parts := ["Sorry, I encountered an issue."] |} ])%list /\
    generated_codes st' = generated_codes st /\
    selected_code_ids_for_download st' = selected_code_ids_for_download st.
Proof.
  intros Hp Hctx Hfail. unfold chat_turn. rewrite Hp, Hctx, Hfail.
  eexists. split; [reflexivity|].
  cbn [chat_history generated_codes selected_code_ids_for_download
         append_message with_chat_history].
  rewrite <- app_assoc. now split.
Qed.

Lemma gateway_failure_witness :
  exists st',
    chat_turn failing sample_now sample_later correct_mode "fix it"
      AppState_default = Done st' /\
    chat_history st' =
      (chat_history AppState_default
       ++ [ {| role := "user"; parts := ["fix it"] |};
            {| role := "model"; parts := ["Sorry, I encountered an issue."] |} ])%list /\
    generated_codes st' = generated_codes AppState_default /\
    selected_code_ids_for_download st' =
      selected_code_ids_for_download AppState_default.
Proof.
  apply (gateway_failure_logs_fallback failing sample_now sample_later
           correct_mode "fix it" "fix it" AppState_default); reflexivity.
Defined.

(** C10.  The filename of a snippet added by the chat correction flow is
    "corrected_", the time of day as six digits, a dot, and the Python
    display of the list of whitespace separated words of the language
    extracted from the gateway's reply, which is never empty and is also
    the snippet's language; for the language "python" the filename ends
    in [.['python']]. *)
Theorem corrected_filename (client : Client) (now_name now_id : datetime)
  (action_mode user_prompt : string) (st : AppState) (snippet : CodeSnippet) :
  generated_codes
    (state_of (chat_turn client now_name now_id action_mode user_prompt st))
  = (generated_codes st ++ [snippet])%list ->
  exists prompt text c l,
    contextual_prompt (append_message st (user_message user_prompt))
      action_mode user_prompt = Ok prompt /\
    truthy_text (send_gemini_message prompt (Some client) None) = Some text /\
    extracted_code text = Ok (Some c, l) /\
    l <> EmptyString /\
    filename snippet =
      "corrected_" ++ strftime_HMS now_name ++ "."
      ++ Py.list_repr (Py.split_ws l) /\
    language snippet = l /\
    content snippet = c /\
    String.length (strftime_HMS now_name) = 6 /\
    (l = "python" ->
     filename snippet = "corrected_" ++ strftime_HMS now_name ++ ".['python']").
Proof.
  intros H.
  destruct (chat_turn_added_inv _ _ _ _ _ _ _ H)
    as (prompt & text & c & l & Hp & Ht & _ & _ & He & _ & ->).
  exists prompt, text, c, l.
  split; [exact Hp|]. split; [exact Ht|]. split; [exact He|].
  rewrite extracted_code_regions in He. injection He as He.
  pose proof (first_truthy_language (regions (Py.split fence text)) None
                "python" eq_refl) as Hl.
  rewrite He in Hl. cbn [snd] in Hl.
  cbn [filename language content corrected_snippet]. rewrite Hl.
  split; [now apply PyFacts.truthy_true|].
  split; [reflexivity|]. split; [reflexivity|]. split; [reflexivity|].
  split; [reflexivity|]. now intros ->.
Qed.

Lemma corrected_filename_witness :
  exists prompt text c l,
    contextual_prompt (append_message AppState_default (user_message "fix it"))
      correct_mode "fix it" = Ok prompt /\
    truthy_text (send_gemini_message prompt (Some (replying js_reply)) None)
    = Some text /\
    extracted_code text = Ok (Some c, l) /\
    l <> EmptyString /\
    filename (corrected_snippet sample_now sample_later "js" "let x;") =
      "corrected_" ++ strftime_HMS sample_now ++ "."
      ++ Py.list_repr (Py.split_ws l) /\
    language (corrected_snippet sample_now sample_later "js" "let x;") = l /\
    content (corrected_snippet sample_now sample_later "js" "let x;") = c /\
    String.length (strftime_HMS sample_now) = 6 /\
    (l = "python" ->
     filename (corrected_snippet sample_now sample_later "js" "let x;") =
       "corrected_" ++ strftime_HMS sample_now ++ ".['python']").
Proof.
  apply (corrected_filename (replying js_reply) sample_now sample_later
           correct_mode "fix it" AppState_default
           (corrected_snippet sample_now sample_later "js" "let x;")).
  reflexivity.
Defined.

(** The filenames the flow gives for a reply fenced as [js], for the
    sample reply fenced as [python], and for a hint of two words. *)
Example corrected_filename_samples :
  map filename
    (generated_codes
       (state_of (chat_turn (replying js_reply) sample_now sample_later
                    correct_mode "fix it" AppState_default)))
  = ["corrected_090530.['js']"] /\
  map filename
    (generated_codes
       (state_of (chat_turn (replying sample_reply) sample_now sample_later
                    correct_mode "fix it" AppState_default)))
  = ["corrected_090530.['python']"] /\
  filename (corrected_snippet sample_now sample_later "python console" "x")
  = "corrected_090530.['python', 'console']".
Proof. repeat split; reflexivity. Qed.

(** ** Snippet ids *)

Lemma default_id_inj (a b : string) : "code_" ++ a = "code_" ++ b -> a = b.
Proof.
  cbn. intros H. now inversion H.
Qed.

(** One event keeps the store, or appends one snippet whose id is "code_"
    followed by the event's clock reading. *)
Lemma step_codes (st : AppState) (ev : event) :
  generated_codes (step st ev) = generated_codes st \/
  exists snippet stamp,
    id_stamps ev = [stamp] /\
    id snippet = "code_" ++ stamp /\
    generated_codes (step st ev) = (generated_codes st ++ [snippet])%list.
Proof.
  destruct ev as [client now p f l|client now_name now_id mode p|checkbox];
    cbn [step id_stamps].
  - destruct (generate_code_cases client now p f l st) as [E|[stored E]];
      rewrite E; cbn [state_of]; [now left|].
    right. eexists. exists (timestamp now).
    split; [reflexivity|]. split; [|apply append_snippet_codes]. reflexivity.
  - destruct (chat_turn_cases client now_name now_id mode p st)
      as [[E _]|(text & c & l & st2 & _ & Hc & _ & E)]; [now left|].
    rewrite E. cbn [state_of]. right. eexists. exists (timestamp now_id).
    split; [reflexivity|]. split; [|rewrite append_snippet_codes, Hc; reflexivity].
    reflexivity.
  - left. unfold render_pass.
    destruct (first_duplicate [] (checkbox_keys st)); [reflexivity|].
    apply render_codes.
Qed.

Lemma ids_distinct_from (evs : list event) (st : AppState) (seen : list string) :
  NoDup (seen ++ flat_map id_stamps evs) ->
  NoDup (map id (generated_codes st)) ->
  (forall k, In k (map id (generated_codes st)) ->
             exists stamp, In stamp seen /\ k = "code_" ++ stamp) ->
  NoDup (map id (generated_codes (fold_left step evs st))) /\
  (forall k, In k (map id (generated_codes (fold_left step evs st))) ->
             exists stamp,
               In stamp (seen ++ flat_map id_stamps evs) /\ k = "code_" ++ stamp).
Proof.
  revert st seen. induction evs as [|ev evs IH]; intros st seen Hstamps Hids Hseen.
  - cbn [fold_left flat_map]. rewrite app_nil_r. now split.
  - cbn [fold_left flat_map] in Hstamps |- *.
    rewrite app_assoc in Hstamps |- *.
    destruct (step_codes st ev) as [E|(snippet & stamp & Es & Eid & E)].
    + apply IH; [exact Hstamps|now rewrite E|].
      intros k Hk. rewrite E in Hk.
      destruct (Hseen k Hk) as (stamp & Hin & ->).
      exists stamp. split; [apply in_or_app; now left|reflexivity].
    + rewrite Es in Hstamps |- *.
      apply IH; [exact Hstamps| |].
      * rewrite E, map_app. cbn [map].
        apply (NoDup_Add (a := id snippet) (l := map id (generated_codes st))).
        { rewrite <- (app_nil_r (map id (generated_codes st))) at 1.
          apply Add_app. }
        split; [exact Hids|].
        intros Hin. destruct (Hseen _ Hin) as (stamp' & Hin' & E').
        rewrite Eid in E'. apply default_id_inj in E'. subst stamp'.
        apply NoDup_app_remove_r in Hstamps.
        apply NoDup_remove_2 in Hstamps. apply Hstamps.
        now rewrite app_nil_r.
      * intros k Hk. rewrite E, map_app in Hk. cbn [map] in Hk.
        apply in_app_or in Hk as [Hk|[<-|[]]].
        -- destruct (Hseen k Hk) as (stamp' & Hin & ->).
           exists stamp'. split; [apply in_or_app; now left|reflexivity].
        -- exists stamp. split; [|exact Eid].
           apply in_or_app. right. now left.
Qed.

(** Two snippets created at the same clock reading get the same id. *)
Lemma same_reading_counterexample :
  ~ NoDup
      (map id
         (generated_codes
            (session
               [EvGenerate (replying sample_reply) sample_now "quick sort"
                  "q.py" "python";
                EvGenerate (replying sample_reply) sample_now "merge sort"
                  "m.py" "python"]))).
Proof.
  intros H. vm_compute in H.
  apply NoDup_cons_iff in H as [H _]. apply H. now left.
Qed.

(** The id of a snippet is "code_" followed by the clock reading taken at
    its creation, and there is no other source of ids: in every session
    each id in the store comes from the reading of one of the events, and
    when the readings of the events are pairwise distinct the ids in the
    store are pairwise distinct. *)
Lemma ids_distinct_when_readings_distinct (evs : list event) :
  (forall k, In k (map id (generated_codes (session evs))) ->
             exists stamp, In stamp (flat_map id_stamps evs) /\ k = "code_" ++ stamp) /\
  (NoDup (flat_map id_stamps evs) ->
   NoDup (map id (generated_codes (session evs)))).
Proof.
  split.
  - intros k Hk.
    assert (H : forall (evs : list event) (st : AppState) (seen : list string),
               (forall k, In k (map id (generated_codes st)) ->
                          exists stamp, In stamp seen /\ k = "code_" ++ stamp) ->
               forall k, In k (map id (generated_codes (fold_left step evs st))) ->
                         exists stamp,
                           In stamp (seen ++ flat_map id_stamps evs)
                           /\ k = "code_" ++ stamp).
    { clear. induction evs as [|ev evs IH]; intros st seen Hseen k Hk.
      - cbn [fold_left flat_map] in *. rewrite app_nil_r. now apply Hseen.
      - cbn [fold_left flat_map] in *. rewrite app_assoc.
        apply (IH (step st ev)); [|exact Hk].
        intros k' Hk'.
        destruct (step_codes st ev) as [E|(snippet & stamp & Es & Eid & E)].
        + rewrite E in Hk'. destruct (Hseen k' Hk') as (s' & Hin & ->).
          exists s'. split; [apply in_or_app; now left|reflexivity].
        + rewrite E, map_app in Hk'. cbn [map] in Hk'.
          apply in_app_or in Hk' as [Hk'|[<-|[]]].
          * destruct (Hseen k' Hk') as (s' & Hin & ->).
            exists s'. split; [apply in_or_app; now left|reflexivity].
          * exists stamp. split; [|exact Eid].
            apply in_or_app. right. rewrite Es. now left. }
    apply (H evs AppState_default [] (fun k' (F : In k' []) => match F with end) k Hk).
  - intros Hd.
    apply (ids_distinct_from evs AppState_default []); cbn;
      [exact Hd|constructor|intros k []].
Qed.

(** The store of a session only grows. *)
Lemma fold_step_prefix (evs : list event) (st : AppState) :
  exists rest,
    generated_codes (fold_left step evs st)
    = (generated_codes st ++ rest)%list.
Proof.
  revert st. induction evs as [|ev evs IH]; intros st; cbn [fold_left].
  - exists []. now rewrite app_nil_r.
  - destruct (IH (step st ev)) as [rest Hrest]. rewrite Hrest.
    destruct (step_codes st ev) as [E|(snippet & stamp & _ & _ & E)];
      rewrite E; [now exists rest|].
    exists (snippet :: rest). now rewrite <- app_assoc.
Qed.

(** C6.  The ids of the store are not always distinct.  The id of a
    snippet is "code_" followed by the clock reading taken at its
    creation, with no check against the ids in use: two events that read
    the same clock value and both store a snippet leave two snippets of
    one id.  From then on the ids of the store are never pairwise
    distinct again, and every render pass stops at the checkbox of the
    second snippet, whose key line 213 takes from the id, before the
    selection is read. *)
Theorem same_reading_same_id (st : AppState) (ev1 ev2 : event)
  (more : list event) (checkbox : bool -> string -> bool) :
  id_stamps ev1 = id_stamps ev2 ->
  generated_codes (step st ev1) <> generated_codes st ->
  generated_codes (step (step st ev1) ev2) <> generated_codes (step st ev1) ->
  (exists s1 s2 rest,
     generated_codes (fold_left step more (step (step st ev1) ev2))
     = (generated_codes st ++ s1 :: s2 :: rest)%list /\
     id s1 = id s2) /\
  ~ NoDup (map id (generated_codes
                     (fold_left step more (step (step st ev1) ev2)))) /\
  exists s,
    In s (generated_codes (fold_left step more (step (step st ev1) ev2))) /\
    render_pass checkbox (fold_left step more (step (step st ev1) ev2))
    = Raised (DuplicateElementKey ("cb_" ++ id s))
        (fold_left step more (step (step st ev1) ev2)).
Proof.
  intros Hs H1 H2.
  destruct (step_codes st ev1) as [E1|(s1 & stamp1 & Es1 & Eid1 & E1)];
    [contradiction|].
  destruct (step_codes (step st ev1) ev2)
    as [E2|(s2 & stamp2 & Es2 & Eid2 & E2)]; [contradiction|].
  destruct (fold_step_prefix more (step (step st ev1) ev2)) as [rest Hrest].
  assert (Hid : id s1 = id s2).
  { rewrite Eid1, Eid2. rewrite Es1 in Hs. rewrite Es2 in Hs.
    now inversion Hs. }
  assert (Hcodes :
            generated_codes (fold_left step more (step (step st ev1) ev2))
            = (generated_codes st ++ s1 :: s2 :: rest)%list).
  { rewrite Hrest, E2, E1, <- !app_assoc. reflexivity. }
  assert (Hdup : ~ NoDup (map id (generated_codes
                     (fold_left step more (step (step st ev1) ev2))))).
  { rewrite Hcodes, map_app. cbn [map]. intros Hn.
    apply NoDup_app_remove_l in Hn.
    apply NoDup_cons_iff in Hn as [Hn _]. apply Hn. left. now symmetry. }
  split; [now exists s1, s2, rest|]. split; [exact Hdup|].
  now apply render_pass_raised.
Qed.

Lemma same_reading_same_id_witness :
  exists s,
    In s (generated_codes
            (session
               [EvGenerate (replying sample_reply) sample_now "quick sort"
                  "q.py" "python";
                EvGenerate (replying sample_reply) sample_now "merge sort"
                  "m.py" "python"])) /\
    render_pass (fun value _ => value)
      (session
         [EvGenerate (replying sample_reply) sample_now "quick sort"
            "q.py" "python";
          EvGenerate (replying sample_reply) sample_now "merge sort"
            "m.py" "python"])
    = Raised (DuplicateElementKey ("cb_" ++ id s))
        (session
           [EvGenerate (replying sample_reply) sample_now "quick sort"
              "q.py" "python";
            EvGenerate (replying sample_reply) sample_now "merge sort"
              "m.py" "python"]).
Proof.
  apply (same_reading_same_id AppState_default
           (EvGenerate (replying sample_reply) sample_now "quick sort"
              "q.py" "python")
           (EvGenerate (replying sample_reply) sample_now "merge sort"
              "m.py" "python")
           [] (fun value _ => value)).
  - reflexivity.
  - discriminate.
  - discriminate.
Defined.

(** The failing run: after two generates at one clock reading the page
    raises at the second checkbox. *)
Example same_reading_render :
  map id
    (generated_codes
       (session
          [EvGenerate (replying sample_reply) sample_now "quick sort"
             "q.py" "python";
           EvGenerate (replying sample_reply) sample_now "merge sort"
             "m.py" "python"]))
  = ["code_1700000000.123456"; "code_1700000000.123456"] /\
  render_pass (fun value _ => value)
    (session
       [EvGenerate (replying sample_reply) sample_now "quick sort"
          "q.py" "python";
        EvGenerate (replying sample_reply) sample_now "merge sort"
          "m.py" "python"])
  = Raised (DuplicateElementKey "cb_code_1700000000.123456")
      (session
         [EvGenerate (replying sample_reply) sample_now "quick sort"
            "q.py" "python";
          EvGenerate (replying sample_reply) sample_now "merge sort"
            "m.py" "python"]).
Proof. split; reflexivity. Qed.

(** With distinct clock readings the ids are distinct. *)
Example distinct_readings_distinct_ids :
  NoDup
    (map id
       (generated_codes
          (session
             [EvGenerate (replying sample_reply) sample_now "quick sort"
                "q.py" "python";
              EvGenerate (replying sample_reply) sample_later "merge sort"
                "m.py" "python"]))).
Proof.
  apply ids_distinct_when_readings_distinct.
  cbn. constructor; [|constructor; [|constructor]].
  - intros [H|[]]. discriminate H.
  - intros [].
Qed.

(** ** Archive *)














(** Two selected snippets with one filename give two entries of that name. *)
Example archive_duplicate_names :
  Zip.create_zip_file [sample_snippet; other_snippet]
  = Ok [{| entry_name := "q.py"; entry_data := encode_utf8 "print(1)" |};
        {| entry_name := "q.py"; entry_data := encode_utf8 "print(2)" |}].
Proof. reflexivity. Qed.

(** ** Context of a correction *)

Lemma load_s_unbound (action_mode user_prompt : string) :
  load_name (module_globals action_mode user_prompt) "s" = Raise (NameError "s").
Proof. reflexivity. Qed.

(** Line 269 raises as soon as one flag is true. *)
Lemma selected_for_chat_correction_raises (action_mode user_prompt : string)
  (items : list (string * bool)) :
  existsb snd items = true ->
  selected_for_chat_correction (module_globals action_mode user_prompt) items
  = Raise (NameError "s").
Proof.
  induction items as [|[k v] items IH]; cbn [existsb snd]; [discriminate|].
  intros H. cbn [selected_for_chat_correction]. destruct v.
  - now rewrite load_s_unbound.
  - now apply IH.
Qed.

Lemma selected_for_chat_correction_none (globals : list (string * pyobj))
  (items : list (string * bool)) :
  existsb snd items = false ->
  selected_for_chat_correction globals items = Ok [].
Proof.
  induction items as [|[k v] items IH]; cbn [existsb snd]; [reflexivity|].
  intros H. apply orb_false_iff in H as [-> H].
  cbn [selected_for_chat_correction]. now apply IH.
Qed.

Lemma filter_none {A : Type} (f : A -> bool) (l : list A) :
  existsb f l = false -> filter f l = [].
Proof.
  induction l as [|x l IH]; cbn [existsb filter]; [reflexivity|].
  intros H. apply orb_false_iff in H as [-> H]. now apply IH.
Qed.

(** With no flag set the code picks what the specification asks for: the
    most recently appended snippet, or none. *)
Lemma latest_code_unselected (st : AppState) (action_mode user_prompt : string) :
  existsb snd (Dict.items (selected_code_ids_for_download st)) = false ->
  latest_code_to_discuss st action_mode user_prompt = Ok (spec_subject_snippet st).
Proof.
  intros H. unfold latest_code_to_discuss, spec_subject_snippet.
  rewrite selected_for_chat_correction_none by exact H.
  rewrite filter_none by exact H. cbn [bind rev].
  destruct (rev (generated_codes st)); reflexivity.
Qed.

(** With a flag set, a chat turn in correction mode on a non-empty store
    stops at line 269, after the user's message was logged. *)
Lemma chat_turn_selected_raises (client : Client) (now_name now_id : datetime)
  (user_prompt : string) (st : AppState) :
  Py.truthy user_prompt = true ->
  generated_codes st <> [] ->
  existsb snd (Dict.items (selected_code_ids_for_download st)) = true ->
  chat_turn client now_name now_id correct_mode user_prompt st =
  Raised (NameError "s") (append_message st (user_message user_prompt)).
Proof.
  intros Hp Hcodes Hsel. unfold chat_turn. rewrite Hp.
  unfold contextual_prompt.
  cbn [generated_codes append_message with_chat_history].
  destruct (generated_codes st) as [|s0 codes] eqn:E; [contradiction|].
  rewrite String.eqb_refl. unfold latest_code_to_discuss.
  cbn [selected_code_ids_for_download append_message with_chat_history].
  now rewrite selected_for_chat_correction_raises by exact Hsel.
Qed.

(** C1 at the failing input: one generated snippet, selected as every new
    snippet is.  The specification names that snippet as the subject of
    the correction; the chat turn raises [NameError] for the name [s] of
    line 269 before any prompt reaches the gateway. *)
Theorem selected_subject_raises :
  spec_subject_snippet sample_state = Some sample_snippet /\
  latest_code_to_discuss sample_state correct_mode "fix it"
  = Raise (NameError "s") /\
  chat_turn (replying sample_reply) sample_now sample_later correct_mode
    "fix it" sample_state
  = Raised (NameError "s")
      (append_message sample_state (user_message "fix it")).
Proof.
  split; [reflexivity|]. split; reflexivity.
Qed.

(** * Further properties of the code *)

(** ** Splitting and partitioning *)

Lemma string_app_assoc (a b c : string) : (a ++ b) ++ c = a ++ b ++ c.
Proof.
  induction a as [|x a IH]; cbn [append]; [reflexivity|]. now rewrite IH.
Qed.

Lemma string_app_length (a b : string) :
  String.length (a ++ b) = String.length a + String.length b.
Proof.
  induction a as [|x a IH]; cbn [append String.length]; [reflexivity|].
  now rewrite IH.
Qed.

Lemma rev_acc_app (acc s : string) :
  Py.rev_acc acc s = Py.rev_acc acc EmptyString ++ s.
Proof.
  revert s. induction acc as [|c acc IH]; intros s; cbn [Py.rev_acc].
  - reflexivity.
  - rewrite (IH (String c s)), (IH (String c EmptyString)).
    now rewrite string_app_assoc.
Qed.

Lemma startswith_drop (p s : string) :
  Py.startswith p s = true -> p ++ Py.drop (String.length p) s = s.
Proof.
  unfold Py.startswith. revert s.
  induction p as [|a p IH]; intros s H; [reflexivity|].
  destruct s as [|c s]; [discriminate|].
  cbn [String.prefix] in H.
  destruct (Ascii.ascii_dec a c) as [->|]; [|discriminate].
  cbn [String.length Py.drop append]. now rewrite IH.
Qed.

Lemma join_cons (sep x : string) (l : list string) :
  1 <= List.length l ->
  Py.join sep (x :: l) = x ++ sep ++ Py.join sep l.
Proof.
  destruct l; cbn [List.length]; [lia|reflexivity].
Qed.

Lemma join_split_scan (sep : string) (s : string) (k : nat) (acc : string) :
  sep <> EmptyString ->
  Py.join sep (Py.split_scan sep k acc s) = Py.rev_acc acc (Py.drop k s).
Proof.
  intros Hsep. revert k acc.
  induction s as [|c s IH]; intros k acc.
  - destruct k; reflexivity.
  - destruct k as [|k].
    + rewrite PyFacts.split_scan_step.
      destruct (Py.startswith sep (String c s)) eqn:E.
      * rewrite join_cons by apply PyFacts.split_scan_nonempty.
        rewrite IH. cbn [Py.rev_acc Py.drop].
        rewrite (rev_acc_app acc (String c s)). f_equal.
        apply startswith_drop in E.
        destruct sep as [|a sep]; [contradiction|].
        cbn [String.length Py.drop] in E |- *.
        replace (S (String.length sep) - 1) with (String.length sep) by lia.
        exact E.
      * rewrite IH. reflexivity.
    + cbn [Py.split_scan Py.drop]. apply IH.
Qed.

(** X1.  Splitting a text on a separator loses nothing: joining the pieces
    with the separator gives the text back. *)
Theorem split_join_roundtrip (sep s : string) :
  sep <> EmptyString -> Py.join sep (Py.split sep s) = s.
Proof.
  intros Hsep. unfold Py.split. now rewrite join_split_scan.
Qed.

Lemma split_join_roundtrip_witness :
  Py.join fence (Py.split fence sample_reply) = sample_reply.
Proof.
  apply (split_join_roundtrip fence sample_reply). discriminate.
Defined.

Lemma startswith_app (p x y : string) :
  Py.startswith p x = true -> Py.startswith p (x ++ y) = true.
Proof.
  unfold Py.startswith. revert x.
  induction p as [|a p IH]; intros x H; [now destruct (x ++ y)|].
  destruct x as [|c x]; [discriminate|].
  cbn [String.prefix append] in H |- *.
  destruct (Ascii.ascii_dec a c); [now apply IH|discriminate].
Qed.

Lemma partition_roundtrip (sep s : string) :
  Py.startswith sep EmptyString = false ->
  Py.contains sep s = true ->
  fst (fst (Py.partition sep s)) ++ sep ++ snd (Py.partition sep s) = s /\
  snd (fst (Py.partition sep s)) = sep /\
  Py.contains sep (fst (fst (Py.partition sep s))) = false.
Proof.
  intros Hsep. induction s as [|c s IH]; intros H.
  - cbn in H. rewrite Hsep in H. discriminate.
  - rewrite PyFacts.contains_step in H. cbn [Py.partition].
    destruct (Py.startswith sep (String c s)) eqn:E.
    + cbn [fst snd append]. split; [now apply startswith_drop|].
      split; [reflexivity|]. cbn. now rewrite Hsep.
    + cbn [orb] in H. destruct (IH H) as (H1 & H2 & H3).
      destruct (Py.partition sep s) as [[a m] b]. cbn [fst snd] in *.
      split; [cbn [append]; now rewrite H1|]. split; [exact H2|].
      rewrite PyFacts.contains_step, H3, orb_false_r.
      destruct (Py.startswith sep (String c a)) eqn:Ea; [|reflexivity].
      apply (startswith_app _ _ (sep ++ b)) in Ea.
      cbn [append] in Ea. rewrite H1 in Ea. congruence.
Qed.

(** X2.  When the first line of a segment is taken as the language hint,
    the segment is that line, one line break and the part kept; the hint
    itself has no line break, and what is stored is the part kept,
    trimmed (nothing else of the segment is lost). *)
Theorem hint_split_exact (segment extracted_language : string) :
  hint_taken_correct segment = true ->
  segment = first_line segment ++ nl ++ after_first_line segment /\
  Py.contains nl (first_line segment) = false /\
  correct_block segment extracted_language =
    (Py.strip (after_first_line segment), Py.lower (Py.strip (first_line segment))).
Proof.
  intros H. pose proof H as H'. unfold hint_taken_correct in H'.
  apply andb_true_iff in H' as [Hnl _].
  destruct (partition_roundtrip nl segment eq_refl Hnl) as (H1 & _ & H3).
  split; [symmetry; exact H1|]. split; [exact H3|].
  rewrite correct_block_view. unfold corrected_region_content.
  now rewrite H.
Qed.

Lemma hint_split_exact_witness :
  sample_region = first_line sample_region ++ nl ++ after_first_line sample_region /\
  Py.contains nl (first_line sample_region) = false /\
  correct_block sample_region "python" =
    (Py.strip (after_first_line sample_region),
     Py.lower (Py.strip (first_line sample_region))).
Proof.
  apply (hint_split_exact sample_region "python"). reflexivity.
Defined.

(** ** The gateway *)

Lemma join_truthy (sep x : string) (l : list string) :
  Py.truthy x = true -> Py.truthy (Py.join sep (x :: l)) = true.
Proof.
  intros H. destruct x as [|c x]; [discriminate|].
  destruct l; reflexivity.
Qed.

Lemma join_filter_truthy (sep : string) (l : list string) :
  existsb Py.truthy l = true ->
  Py.truthy (Py.join sep (filter Py.truthy l)) = true.
Proof.
  induction l as [|x l IH]; cbn [existsb filter]; [discriminate|].
  destruct (Py.truthy x) eqn:E; [intros _; now apply join_truthy|].
  exact IH.
Qed.

Lemma parts_text_none (ps : list Part) :
  parts_text ps = None <-> Exists part_raises ps.
Proof.
  unfold part_raises. induction ps as [|p ps IH]; cbn [parts_text].
  - split; [discriminate|]. intros H. inversion H.
  - destruct (part_text p) as [|t|] eqn:E.
    + rewrite IH. split; [now right|].
      intros H. inversion H as [? ? Hp|? ? Hps]; subst; [congruence|exact Hps].
    + destruct (parts_text ps) as [joined|].
      * split; [discriminate|].
        intros H. inversion H as [? ? Hp|? ? Hps]; subst; [congruence|].
        apply IH in Hps. discriminate Hps.
      * split; [|reflexivity]. intros _. right. now apply IH.
    + split; [|reflexivity]. intros _. now left.
Qed.

Lemma candidate_texts_none (cs : list Candidate) :
  candidate_texts cs = None <-> Exists candidate_raises cs.
Proof.
  induction cs as [|c cs IH]; cbn [candidate_texts].
  - split; [discriminate|]. intros H. inversion H.
  - assert (Hc : candidate_raises c <->
                 candidate_parts c = Raising \/
                 exists ps, candidate_parts c = Present ps /\
                            parts_text ps = None).
    { unfold candidate_raises. split.
      - intros [H|(ps & H1 & H2)]; [now left|right].
        exists ps. split; [exact H1|]. now apply parts_text_none.
      - intros [H|(ps & H1 & H2)]; [now left|right].
        exists ps. split; [exact H1|]. now apply parts_text_none. }
    rewrite Exists_cons, Hc, <- IH.
    destruct (candidate_parts c) as [|ps|].
    + split; [now right|].
      intros [[H|(ps & H & _)]|H]; [discriminate H|discriminate H|exact H].
    + destruct (parts_text ps) as [t|] eqn:Et.
      * destruct (candidate_texts cs) as [texts|].
        -- split; [discriminate|].
           intros [[H|(ps' & H & H')]|H];
             [discriminate H|inversion H; subst; congruence|discriminate H].
        -- split; [now right|reflexivity].
      * split; [|reflexivity]. intros _. left. right. now exists ps.
    + split; [|reflexivity]. intros _. now left; left.
Qed.

Lemma response_to_text_none (r : Response) :
  response_to_text r = None <-> raises_in_try r.
Proof.
  unfold response_to_text, raises_in_try, text_unusable, parts_unusable.
  split.
  - destruct (response_text r) as [|[|c t]|]; [| |discriminate|now left].
    all: intros H; right; split; [tauto|].
    all: destruct (response_parts r) as [|[|p ps]|];
      [| |right; left; exists (p :: ps); split; [reflexivity|];
           now apply parts_text_none
       |now left].
    all: right; right; split; [tauto|].
    all: destruct (response_candidates r) as [|[|c cs]|];
      [discriminate H|discriminate H| |now left].
    all: right; exists (c :: cs); split; [reflexivity|].
    all: apply candidate_texts_none.
    all: destruct (candidate_texts (c :: cs)) as [texts|]; [|reflexivity].
    all: destruct (existsb Py.truthy texts); discriminate H.
  - intros [H|[Ht [H|[(ps & Ep & H)|[Ep [H|(cs & Ec & H)]]]]]].
    + now rewrite H.
    + destruct Ht as [Ht|Ht]; rewrite Ht, H; reflexivity.
    + destruct ps as [|p ps]; [inversion H|]. apply parts_text_none in H.
      destruct Ht as [Ht|Ht]; rewrite Ht, Ep; exact H.
    + destruct Ht as [Ht|Ht], Ep as [Ep|Ep]; rewrite Ht, Ep, H; reflexivity.
    + destruct cs as [|c cs]; [inversion H|]. apply candidate_texts_none in H.
      destruct Ht as [Ht|Ht], Ep as [Ep|Ep]; rewrite Ht, Ep, Ec, H;
        reflexivity.
Qed.

Lemma response_to_text_empty (r : Response) :
  response_to_text r = Some EmptyString <->
  text_unusable r /\
  exists p ps, response_parts r = Present (p :: ps) /\
               parts_text (p :: ps) = Some EmptyString.
Proof.
  unfold response_to_text, text_unusable.
  destruct (response_text r) as [|[|c t]|].
  4:{ split; [discriminate|]. intros [[H|H] _]; discriminate H. }
  3:{ split; [discriminate|]. intros [[H|H] _]; discriminate H. }
  all: destruct (response_parts r) as [|[|p ps]|].
  all: try (split; [intros H; split; [tauto|]; now exists p, ps
                   |intros [_ (p' & ps' & E & H)]; now inversion E; subst]).
  all: split; [|intros [_ (p' & ps' & E & _)]; discriminate E].
  all: intros H; exfalso.
  all: destruct (response_candidates r) as [|[|c cs]|]; try discriminate H.
  all: destruct (candidate_texts (c :: cs)) as [texts|]; try discriminate H.
  all: destruct (existsb Py.truthy texts) eqn:E; [|discriminate H].
  all: apply (join_filter_truthy nl) in E.
  all: inversion H as [H']; rewrite H' in E; discriminate E.
Qed.

(** X3.  The flows see no text from the gateway exactly when the client
    call raises, when reading an attribute of the response raises inside
    the [try], or when the response has no usable [text], has parts, and
    the texts of its parts are all empty.  In every other case, also for a
    response of unexpected shape, they get a non-empty text. *)
Theorem no_text_iff (client : Client) (prompt : string) :
  truthy_text (send_gemini_message prompt (Some client) None) = None <->
  generate_content client prompt = None \/
  exists r,
    generate_content client prompt = Some r /\
    (raises_in_try r \/
     (text_unusable r /\
      exists p ps,
        response_parts r = Present (p :: ps) /\
        parts_text (p :: ps) = Some EmptyString)).
Proof.
  unfold send_gemini_message.
  destruct (generate_content client prompt) as [r|].
  - split.
    + intros H. right. exists r. split; [reflexivity|].
      destruct (response_to_text r) as [[|c t]|] eqn:E.
      * right. now apply response_to_text_empty.
      * discriminate H.
      * left. now apply response_to_text_none.
    + intros [H|(r' & Er & [H|H])]; [discriminate H| |];
        inversion Er; subst r'.
      * apply response_to_text_none in H. now rewrite H.
      * apply response_to_text_empty in H. now rewrite H.
  - split; [now left|reflexivity].
Qed.

(** A reply whose [text] cannot be read (the SDK raises on a blocked
    reply) gives the flows no text, and the chat turn logs the fallback. *)
Example blocked_reply_gives_no_text :
  let blocked :=
    {| generate_content := fun _ =>
         Some {| response_text := Raising;
                 response_parts := Absent;
                 response_candidates := Absent |};
       send_message := fun _ _ => None |} in
  send_gemini_message "hello" (Some blocked) None = None /\
  chat_history
    (state_of (chat_turn blocked sample_now sample_later "Generate Code"
                 "hello" AppState_default))
  = [user_message "hello"; model_message fallback_text].
Proof. split; reflexivity. Qed.

(** X4.  The conversation log is never sent to the gateway: the flows call
    only [generate_content], with a prompt that does not depend on the
    log, so two clients that agree on [generate_content] give the same
    runs whatever their [send_message] does. *)
Theorem history_never_sent (c1 c2 : Client) :
  (forall p, generate_content c1 p = generate_content c2 p) ->
  (forall now_name now_id action_mode user_prompt st,
     chat_turn c1 now_name now_id action_mode user_prompt st =
     chat_turn c2 now_name now_id action_mode user_prompt st) /\
  (forall now prompt_gen filename_gen language_gen st,
     generate_code c1 now prompt_gen filename_gen language_gen st =
     generate_code c2 now prompt_gen filename_gen language_gen st) /\
  (forall code_to_explain st,
     explain_code c1 code_to_explain st = explain_code c2 code_to_explain st) /\
  (forall st h action_mode user_prompt,
     contextual_prompt (with_chat_history st h) action_mode user_prompt =
     contextual_prompt st action_mode user_prompt).
Proof.
  intros H. split; [|split; [|split]].
  - intros. unfold chat_turn.
    destruct (Py.truthy user_prompt); [|reflexivity].
    destruct (contextual_prompt _ action_mode user_prompt); [|reflexivity].
    unfold send_gemini_message. now rewrite H.
  - intros. unfold generate_code, send_gemini_message. now rewrite H.
  - intros. unfold explain_code, send_gemini_message. now rewrite H.
  - reflexivity.
Qed.

Lemma history_never_sent_witness :
  chat_turn (replying sample_reply) sample_now sample_later correct_mode
    "fix it" AppState_default =
  chat_turn
    {| generate_content := generate_content (replying sample_reply);
       send_message := fun _ _ => None |}
    sample_now sample_later correct_mode "fix it" AppState_default.
Proof.
  apply (history_never_sent (replying sample_reply)
           {| generate_content := generate_content (replying sample_reply);
              send_message := fun _ _ => None |}).
  reflexivity.
Defined.

(** ** What the flows leave alone *)

(** The fields of the state outside the store and the log. *)
Lemma append_snippet_frame (st : AppState) (snippet : CodeSnippet) :
  api_key_configured (append_snippet st snippet) = api_key_configured st /\
  current_explanation (append_snippet st snippet) = current_explanation st /\
  chat_history (append_snippet st snippet) = chat_history st.
Proof. now split. Qed.

Lemma generate_code_frame (client : Client) (now : datetime)
  (prompt_gen filename_gen language_gen : string) (st : AppState) :
  api_key_configured
    (state_of (generate_code client now prompt_gen filename_gen language_gen st))
  = api_key_configured st /\
  current_explanation
    (state_of (generate_code client now prompt_gen filename_gen language_gen st))
  = current_explanation st /\
  chat_history
    (state_of (generate_code client now prompt_gen filename_gen language_gen st))
  = chat_history st.
Proof.
  destruct (generate_code_cases client now prompt_gen filename_gen
              language_gen st) as [E|[stored E]]; rewrite E; now split.
Qed.

Lemma add_corrected_frame (now_name now_id : datetime)
  (action_mode text : string) (st : AppState) :
  api_key_configured (add_corrected now_name now_id action_mode text st)
  = api_key_configured st /\
  current_explanation (add_corrected now_name now_id action_mode text st)
  = current_explanation st /\
  chat_history (add_corrected now_name now_id action_mode text st)
  = chat_history st.
Proof.
  destruct (add_corrected_cases now_name now_id action_mode text st)
    as [E|(c & l & _ & E)]; rewrite E; now split.
Qed.

Lemma chat_turn_frame (client : Client) (now_name now_id : datetime)
  (action_mode user_prompt : string) (st : AppState) :
  api_key_configured
    (state_of (chat_turn client now_name now_id action_mode user_prompt st))
  = api_key_configured st /\
  current_explanation
    (state_of (chat_turn client now_name now_id action_mode user_prompt st))
  = current_explanation st.
Proof.
  unfold chat_turn.
  destruct (Py.truthy user_prompt); [|now split].
  destruct (contextual_prompt _ action_mode user_prompt); [|now split].
  destruct (truthy_text _) as [text|]; [|now split].
  cbn [state_of].
  destruct (add_corrected_frame now_name now_id action_mode text
              (append_message (append_message st (user_message user_prompt))
                 (model_message text))) as (H1 & H2 & _).
  rewrite H1, H2. now split.
Qed.

Lemma render_frame (checkbox : bool -> string -> bool) (st : AppState) :
  api_key_configured (render_snippets checkbox st) = api_key_configured st /\
  current_explanation (render_snippets checkbox st) = current_explanation st.
Proof.
  unfold render_snippets. destruct (generated_codes st); now split.
Qed.

Lemma explain_code_frame (client : Client) (code_to_explain : string)
  (st : AppState) :
  api_key_configured (explain_code client code_to_explain st)
  = api_key_configured st /\
  chat_history (explain_code client code_to_explain st) = chat_history st /\
  generated_codes (explain_code client code_to_explain st) = generated_codes st /\
  selected_code_ids_for_download (explain_code client code_to_explain st)
  = selected_code_ids_for_download st.
Proof.
  unfold explain_code.
  destruct (Py.truthy code_to_explain); [|now repeat split].
  destruct (truthy_text _); now repeat split.
Qed.

Lemma show_explanation_frame (st : AppState) :
  api_key_configured (snd (show_explanation st)) = api_key_configured st /\
  chat_history (snd (show_explanation st)) = chat_history st /\
  generated_codes (snd (show_explanation st)) = generated_codes st /\
  selected_code_ids_for_download (snd (show_explanation st))
  = selected_code_ids_for_download st.
Proof.
  unfold show_explanation.
  destruct (truthy_text (current_explanation st)); now repeat split.
Qed.

Lemma run_action_configured (client : Client) (inp : Page.Input) (st : AppState) :
  api_key_configured (state_of (run_action client inp st)) = api_key_configured st.
Proof.
  unfold run_action.
  destruct (String.eqb (Page.action_mode inp) "Generate Code").
  - destruct (Page.submit_gen inp); [|reflexivity]. apply generate_code_frame.
  - destruct (String.eqb (Page.action_mode inp) "Explain Code"); [|reflexivity].
    destruct (Page.submit_explain inp); [|reflexivity].
    cbn [state_of]. apply explain_code_frame.
Qed.

Lemma run_chat_frame (client : Client) (inp : Page.Input) (st : AppState) :
  api_key_configured (state_of (run_chat client inp st)) = api_key_configured st /\
  current_explanation (state_of (run_chat client inp st)) = current_explanation st.
Proof.
  unfold run_chat. destruct (Page.user_prompt inp); [|now split].
  apply chat_turn_frame.
Qed.

(** A run that got a client leaves the key and the client as
    [get_gemini_client] left them, and the configured flag too. *)
Lemma run_page_with_client (inp : Page.Input) (ss ss1 : SessionState)
  (client : Client) :
  get_gemini_client (Page.initialize inp) (Page.api_key_input inp) ss
  = Returned (Some client) ss1 ->
  api_key (Page.final (run_page inp ss)) = api_key ss1 /\
  gemini_model_client (Page.final (run_page inp ss)) = gemini_model_client ss1 /\
  api_key_configured (app_state (Page.final (run_page inp ss)))
  = api_key_configured (app_state ss1) /\
  Page.sidebar_error (run_page inp ss) <> Some init_failed_error.
Proof.
  intros E. unfold run_page. rewrite E. unfold run_columns.
  pose proof (run_action_configured client inp (app_state ss1)) as Ha.
  destruct (run_action client inp (app_state ss1)) as [st1|e st1];
    cbn [state_of] in Ha.
  - pose proof (show_explanation_frame st1) as (Hs & _).
    pose proof (render_frame (Page.checkbox inp) (snd (show_explanation st1)))
      as (Hr & _).
    pose proof (run_chat_frame client inp
                  (render_snippets (Page.checkbox inp)
                     (snd (show_explanation st1)))) as (Hc & _).
    destruct (run_chat client inp _) as [st4|e st4]; cbn [state_of] in Hc;
      cbn [Page.final Page.sidebar_error with_app_state api_key
             gemini_model_client app_state].
    + repeat split; [congruence|].
      unfold final_check. cbn [app_state with_app_state api_key].
      destruct (negb (api_key_configured st4) && _); [discriminate|].
      rewrite andb_false_r. discriminate.
    + repeat split; [congruence|discriminate].
  - cbn [Page.final Page.sidebar_error with_app_state api_key
           gemini_model_client app_state].
    repeat split; [congruence|discriminate].
Qed.

Lemma truthy_text_some (t : option string) (s : string) :
  truthy_text t = Some s -> t = Some s /\ Py.truthy s = true.
Proof.
  destruct t as [[|c x]|]; cbn [truthy_text]; intros H; inversion H.
  now split.
Qed.

(** What [get_gemini_client] guarantees on a consistent session. *)
Lemma get_gemini_client_consistent (initialize : string -> option Client)
  (api_key_input : string) (ss : SessionState) :
  credentials_consistent ss ->
  match get_gemini_client initialize api_key_input ss with
  | Restart ss' => credentials_consistent ss'
  | Returned None ss' =>
      credentials_consistent ss' /\ api_key_configured (app_state ss') = false
  | Returned (Some _) ss' => credentials_consistent ss'
  end.
Proof.
  intros [H1 H2]. unfold get_gemini_client.
  destruct (truthy_text (api_key ss)) as [key|] eqn:Ek.
  - apply truthy_text_some in Ek as [Ek Ht].
    unfold client_block.
    destruct (gemini_model_client ss) as [model|] eqn:Ec.
    + split; [exact H1|now rewrite Ec].
    + rewrite Ek. cbn [truthy_text]. destruct key as [|c key]; [discriminate|].
      destruct (initialize (String c key)) as [model|].
      * split; cbn [app_state api_key gemini_model_client with_configured
                      api_key_configured]; intros _; [|reflexivity].
        now exists (String c key).
      * split; [|reflexivity].
        split; cbn [app_state api_key gemini_model_client with_configured
                      api_key_configured]; [discriminate|].
        intros H. now contradiction H.
  - assert (Hc : api_key_configured (app_state ss) = false).
    { destruct (api_key_configured (app_state ss)); [|reflexivity].
      destruct (H1 eq_refl) as (key & Ek' & Ht). rewrite Ek' in Ek.
      destruct key; [discriminate Ht|discriminate Ek]. }
    destruct (Py.truthy api_key_input) eqn:Ei.
    + split; cbn [app_state api_key gemini_model_client with_configured
                    api_key_configured]; intros _; [|reflexivity].
      now exists api_key_input.
    + split; [|exact Hc]. split; [exact H1|exact H2].
Qed.

(** ** API key and client *)

Lemma app_run_invariant (P : SessionState -> Prop) :
  P fresh_session ->
  (forall inp ss, P ss -> P (Page.final (run_page inp ss))) ->
  forall inputs, P (app_run inputs).
Proof.
  intros H0 Hstep inputs. unfold app_run.
  generalize fresh_session H0. induction inputs as [|inp inputs IH];
    intros ss Hss; cbn [fold_left]; [exact Hss|].
  apply IH, Hstep, Hss.
Qed.

Lemma run_page_credentials (inp : Page.Input) (ss : SessionState) :
  credentials_consistent ss ->
  credentials_consistent (Page.final (run_page inp ss)).
Proof.
  intros H.
  pose proof (get_gemini_client_consistent (Page.initialize inp)
                (Page.api_key_input inp) ss H) as Hg.
  destruct (get_gemini_client (Page.initialize inp) (Page.api_key_input inp) ss)
    as [ss'|[client|] ss1] eqn:E.
  - unfold run_page. now rewrite E.
  - destruct (run_page_with_client inp ss ss1 client E) as (Hk & Hc & Hf & _).
    destruct Hg as [G1 G2]. split.
    + rewrite Hf, Hk. exact G1.
    + rewrite Hf, Hc. exact G2.
  - unfold run_page. rewrite E. apply Hg.
Qed.

Lemma app_run_credentials (inputs : list Page.Input) :
  credentials_consistent (app_run inputs).
Proof.
  apply app_run_invariant.
  - split; [discriminate|]. intros H. now contradiction H.
  - intros inp ss. apply run_page_credentials.
Qed.

(** X5.  In every session, whenever the configured flag is set a
    non-empty API key is stored, and whenever a client is stored the
    configured flag is set (and so a key is stored too). *)
Theorem credentials_invariant (inputs : list Page.Input) :
  (api_key_configured (app_state (app_run inputs)) = true ->
   exists key, api_key (app_run inputs) = Some key /\ Py.truthy key = true) /\
  (gemini_model_client (app_run inputs) <> None ->
   api_key_configured (app_state (app_run inputs)) = true /\
   exists key, api_key (app_run inputs) = Some key /\ Py.truthy key = true).
Proof.
  destruct (app_run_credentials inputs) as [H1 H2].
  split; [exact H1|]. intros H. split; [now apply H2|]. now apply H1, H2.
Qed.

(** X6.  The sidebar error of line 348, "Gemini client initialization
    failed", is never shown: no run of any session ends with the
    configured flag set and no client. *)
Theorem init_failed_error_never_shown (inputs : list Page.Input)
  (inp : Page.Input) :
  Page.sidebar_error (run_page inp (app_run inputs)) <> Some init_failed_error.
Proof.
  pose proof (app_run_credentials inputs) as H.
  pose proof (get_gemini_client_consistent (Page.initialize inp)
                (Page.api_key_input inp) (app_run inputs) H) as Hg.
  destruct (get_gemini_client (Page.initialize inp) (Page.api_key_input inp)
              (app_run inputs)) as [ss'|[client|] ss1] eqn:E.
  - unfold run_page. rewrite E. discriminate.
  - apply (run_page_with_client inp (app_run inputs) ss1 client E).
  - unfold run_page. rewrite E. cbn [Page.sidebar_error].
    destruct Hg as [_ Hc]. unfold final_check. rewrite Hc.
    cbn [negb andb]. destruct (api_key ss1); discriminate.
Qed.

(** X7.  When the client cannot be built from the stored key, the run
    deletes the key, clears the configured flag and leaves the rest of
    the session state as it was; the forms, the snippet list and the chat
    of the two columns are skipped, so it shows no explanation and offers
    no download, and its sidebar ends with the "not configured" error.
    The next run that gets a key typed in stores it and restarts. *)
Theorem failed_initialization_resets (inp next : Page.Input)
  (ss : SessionState) (key : string) :
  api_key ss = Some key ->
  Py.truthy key = true ->
  gemini_model_client ss = None ->
  Page.initialize inp key = None ->
  Py.truthy (Page.api_key_input next) = true ->
  script_run inp ss =
    {| Page.status := Page.Completed;
       Page.final := {| api_key := None;
                        gemini_model_client := None;
                        app_state := with_configured (app_state ss) false |};
       Page.explanation_shown := None;
       Page.download := None;
       Page.sidebar_error := Some not_configured_error |} /\
  Page.status (script_run next (Page.final (script_run inp ss))) = Page.Rerun /\
  api_key (Page.final (script_run next (Page.final (script_run inp ss))))
  = Some (Page.api_key_input next).
Proof.
  intros Hk Ht Hc Hi Hn.
  assert (E : script_run inp ss =
    {| Page.status := Page.Completed;
       Page.final := {| api_key := None;
                        gemini_model_client := None;
                        app_state := with_configured (app_state ss) false |};
       Page.explanation_shown := None;
       Page.download := None;
       Page.sidebar_error := Some not_configured_error |}).
  { unfold script_run, get_gemini_client, client_block.
    rewrite Hk, Hc. destruct key as [|c key]; [discriminate|].
    cbn [truthy_text]. now rewrite Hi. }
  rewrite E. split; [reflexivity|].
  unfold script_run, get_gemini_client. cbn [Page.final api_key truthy_text].
  rewrite Hn. now split.
Qed.

Lemma failed_initialization_witness :
  Page.sidebar_error
    (script_run
       {| Page.initialize := fun _ => None;
          Page.api_key_input := "";
          Page.action_mode := "Generate Code";
          Page.submit_gen := false;
          Page.prompt_gen := "";
          Page.filename_gen := "generated_script.py";
          Page.language_gen := "python";
          Page.submit_explain := false;
          Page.code_to_explain := "";
          Page.checkbox := fun value _ => value;
          Page.user_prompt := None;
          Page.now_gen := sample_now;
          Page.now_name := sample_now;
          Page.now_id := sample_later |}
       {| api_key := Some "bad-key";
          gemini_model_client := None;
          app_state := with_configured AppState_default true |})
  = Some not_configured_error.
Proof.
  pose proof (failed_initialization_resets
    {| Page.initialize := fun _ => None;
       Page.api_key_input := "";
       Page.action_mode := "Generate Code";
       Page.submit_gen := false;
       Page.prompt_gen := "";
       Page.filename_gen := "generated_script.py";
       Page.language_gen := "python";
       Page.submit_explain := false;
       Page.code_to_explain := "";
       Page.checkbox := fun value _ => value;
       Page.user_prompt := None;
       Page.now_gen := sample_now;
       Page.now_name := sample_now;
       Page.now_id := sample_later |}
    {| Page.initialize := fun _ => None;
       Page.api_key_input := "new-key";
       Page.action_mode := "Generate Code";
       Page.submit_gen := false;
       Page.prompt_gen := "";
       Page.filename_gen := "generated_script.py";
       Page.language_gen := "python";
       Page.submit_explain := false;
       Page.code_to_explain := "";
       Page.checkbox := fun value _ => value;
       Page.user_prompt := None;
       Page.now_gen := sample_now;
       Page.now_name := sample_now;
       Page.now_id := sample_later |}
    {| api_key := Some "bad-key";
       gemini_model_client := None;
       app_state := with_configured AppState_default true |}
    "bad-key" eq_refl eq_refl eq_refl eq_refl eq_refl) as [H _].
  now rewrite H.
Defined.

(** ** Explain flow *)

Lemma with_explanation_same (st : AppState) :
  with_explanation st (current_explanation st) = st.
Proof. now destruct st. Qed.

(** X8.  Explaining code leaves the session state exactly as it was: the
    reply of the gateway is shown in the same run and cleared again, and
    nothing is shown when the code is empty or the gateway gives no
    text. *)
Theorem explanation_shown_once (client : Client) (code_to_explain : string)
  (st : AppState) :
  current_explanation st = None ->
  show_explanation (explain_code client code_to_explain st) =
    (if Py.truthy code_to_explain
     then truthy_text (send_gemini_message (explain_prompt code_to_explain)
                         (Some client) None)
     else None,
     st).
Proof.
  intros H. unfold explain_code.
  destruct (Py.truthy code_to_explain).
  - destruct (truthy_text (send_gemini_message _ _ _)) as [e|] eqn:E.
    + apply truthy_text_some in E as [_ Ht].
      destruct e as [|c e]; [discriminate|].
      unfold show_explanation.
      cbn [current_explanation with_explanation truthy_text].
      f_equal. rewrite <- (with_explanation_same st) at 2. now rewrite H.
    + unfold show_explanation. now rewrite H.
  - unfold show_explanation. now rewrite H.
Qed.

Lemma explanation_shown_once_witness :
  show_explanation (explain_code (replying "It prints 1.") "print(1)"
                      AppState_default)
  = (Some "It prints 1.", AppState_default).
Proof.
  apply (explanation_shown_once (replying "It prints 1.") "print(1)"
           AppState_default).
  reflexivity.
Defined.

Lemma show_explanation_cleared (st : AppState) :
  current_explanation st = None \/
  (exists e, current_explanation st = Some e /\ Py.truthy e = true) ->
  current_explanation (snd (show_explanation st)) = None.
Proof.
  unfold show_explanation. intros [H|(e & H & Ht)]; rewrite H.
  - cbn. exact H.
  - destruct e; [discriminate|]. reflexivity.
Qed.

Lemma run_action_explanation (client : Client) (inp : Page.Input) (st : AppState) :
  current_explanation st = None ->
  current_explanation (state_of (run_action client inp st)) = None \/
  exists e, current_explanation (state_of (run_action client inp st)) = Some e
            /\ Py.truthy e = true.
Proof.
  intros H. unfold run_action.
  destruct (String.eqb (Page.action_mode inp) "Generate Code").
  - left. destruct (Page.submit_gen inp); [|exact H].
    destruct (generate_code_frame client (Page.now_gen inp) (Page.prompt_gen inp)
                (Page.filename_gen inp) (Page.language_gen inp) st) as (_ & E & _).
    now rewrite E.
  - destruct (String.eqb (Page.action_mode inp) "Explain Code"); [|now left].
    destruct (Page.submit_explain inp); [|now left].
    cbn [state_of]. unfold explain_code.
    destruct (Py.truthy (Page.code_to_explain inp)); [|now left].
    destruct (truthy_text (send_gemini_message _ _ _)) as [e|] eqn:E; [|now left].
    right. exists e. split; [reflexivity|].
    now apply truthy_text_some in E.
Qed.

Lemma run_action_done (client : Client) (inp : Page.Input) (st : AppState) :
  exists st1, run_action client inp st = Done st1.
Proof.
  unfold run_action.
  destruct (String.eqb (Page.action_mode inp) "Generate Code").
  - destruct (Page.submit_gen inp); [|eauto].
    destruct (generate_code_cases client (Page.now_gen inp) (Page.prompt_gen inp)
                (Page.filename_gen inp) (Page.language_gen inp) st)
      as [E|[stored E]]; rewrite E; eauto.
  - destruct (String.eqb (Page.action_mode inp) "Explain Code"); [|eauto].
    destruct (Page.submit_explain inp); eauto.
Qed.

(** The state the two columns leave: the action, the explanation, the
    render pass and the chat input, in this order. *)
Lemma run_columns_final (client : Client) (inp : Page.Input) (ss : SessionState) :
  exists st1,
    run_action client inp (app_state ss) = Done st1 /\
    Page.final (run_columns client inp ss) =
    with_app_state ss
      (state_of (run_chat client inp
                   (render_snippets (Page.checkbox inp)
                      (snd (show_explanation st1))))) /\
    Page.explanation_shown (run_columns client inp ss) = fst (show_explanation st1) /\
    Page.download (run_columns client inp ss) =
      download_offer (render_snippets (Page.checkbox inp)
                        (snd (show_explanation st1))).
Proof.
  destruct (run_action_done client inp (app_state ss)) as [st1 E].
  exists st1. split; [exact E|].
  unfold run_columns. rewrite E.
  destruct (run_chat client inp _); now repeat split.
Qed.

(** [get_gemini_client] changes nothing of the application state but the
    configured flag. *)
Lemma get_gemini_client_app_state (initialize : string -> option Client)
  (api_key_input : string) (ss : SessionState) :
  exists b,
    app_state
      (match get_gemini_client initialize api_key_input ss with
       | Restart ss' => ss'
       | Returned _ ss' => ss'
       end) = with_configured (app_state ss) b.
Proof.
  assert (Hsame : app_state ss
                  = with_configured (app_state ss)
                      (api_key_configured (app_state ss))).
  { now destruct (app_state ss). }
  unfold get_gemini_client, client_block.
  destruct (truthy_text (api_key ss)) as [key|].
  - destruct (gemini_model_client ss); [eexists; exact Hsame|].
    destruct (initialize key); eexists; reflexivity.
  - destruct (Py.truthy api_key_input); eexists; [reflexivity|exact Hsame].
Qed.

Lemma run_columns_explanation (client : Client) (inp : Page.Input)
  (ss : SessionState) :
  current_explanation (app_state ss) = None ->
  current_explanation (app_state (Page.final (run_columns client inp ss))) = None.
Proof.
  intros H.
  destruct (run_columns_final client inp ss) as (st1 & Ea & Ef & _).
  rewrite Ef. cbn [app_state with_app_state].
  pose proof (run_action_explanation client inp (app_state ss) H) as Ha.
  rewrite Ea in Ha. cbn [state_of] in Ha.
  pose proof (show_explanation_cleared st1 Ha) as Hs.
  pose proof (render_frame (Page.checkbox inp) (snd (show_explanation st1)))
    as (_ & Hr).
  pose proof (run_chat_frame client inp
                (render_snippets (Page.checkbox inp)
                   (snd (show_explanation st1)))) as (_ & Hc).
  congruence.
Qed.

Lemma run_page_explanation (inp : Page.Input) (ss : SessionState) :
  current_explanation (app_state ss) = None ->
  current_explanation (app_state (Page.final (run_page inp ss))) = None.
Proof.
  intros H.
  destruct (get_gemini_client_app_state (Page.initialize inp)
              (Page.api_key_input inp) ss) as [b Hb].
  unfold run_page.
  destruct (get_gemini_client (Page.initialize inp) (Page.api_key_input inp) ss)
    as [ss'|[client|] ss1]; cbn [Page.final].
  - now rewrite Hb.
  - apply run_columns_explanation. now rewrite Hb.
  - now rewrite Hb.
Qed.

(** X9.  No explanation is ever left in the session state: after every
    run of every session [current_explanation] is [None], so a rerun never
    shows an old explanation again. *)
Theorem explanation_never_persists (inputs : list Page.Input) :
  current_explanation (app_state (app_run inputs)) = None.
Proof.
  apply (app_run_invariant
           (fun ss => current_explanation (app_state ss) = None)).
  - reflexivity.
  - intros inp ss. apply run_page_explanation.
Qed.

(** ** Invariants of the store *)

Lemma has_key_in (d : Dict.t) (k : string) :
  Dict.has_key d k = true <-> In k (Dict.keys d).
Proof.
  unfold Dict.has_key, Dict.keys. rewrite existsb_exists, in_map_iff.
  split.
  - intros ([k' v] & Hin & E). apply String.eqb_eq in E. cbn in E. subst k'.
    now exists (k, v).
  - intros ([k' v] & E & Hin). cbn in E. subst k'.
    exists (k, v). split; [exact Hin|]. apply String.eqb_refl.
Qed.

Lemma keys_set (d : Dict.t) (k : string) (v : bool) :
  Dict.keys (Dict.set d k v) =
  if Dict.has_key d k then Dict.keys d else (Dict.keys d ++ [k])%list.
Proof.
  unfold Dict.keys, Dict.has_key.
  induction d as [|[k0 v0] d IH]; cbn [Dict.set map existsb fst app].
  - reflexivity.
  - destruct (String.eqb_spec k0 k) as [->|Hne]; cbn [map fst orb].
    + reflexivity.
    + rewrite IH. now destruct (existsb _ d).
Qed.

Lemma NoDup_keys_set (d : Dict.t) (k : string) (v : bool) :
  NoDup (Dict.keys d) -> NoDup (Dict.keys (Dict.set d k v)).
Proof.
  intros H. rewrite keys_set.
  destruct (Dict.has_key d k) eqn:E; [exact H|].
  apply (NoDup_Add (a := k) (l := Dict.keys d)).
  - rewrite <- (app_nil_r (Dict.keys d)) at 1. apply Add_app.
  - split; [exact H|]. intros Hin. apply has_key_in in Hin. congruence.
Qed.

Lemma has_key_update (d other : Dict.t) (k : string) :
  Dict.has_key (Dict.update d other) k = Dict.has_key other k || Dict.has_key d k.
Proof.
  unfold Dict.update. revert d.
  induction other as [|[k0 v0] other IH]; intros d; cbn [fold_left fst snd].
  - reflexivity.
  - rewrite IH, DictFacts.has_key_set.
    change (Dict.has_key ((k0, v0) :: other) k)
      with (String.eqb k0 k || Dict.has_key other k).
    destruct (String.eqb k0 k), (Dict.has_key other k); reflexivity.
Qed.

Lemma NoDup_keys_update (d other : Dict.t) :
  NoDup (Dict.keys d) -> NoDup (Dict.keys (Dict.update d other)).
Proof.
  unfold Dict.update. revert d.
  induction other as [|[k0 v0] other IH]; intros d H; cbn [fold_left];
    [exact H|].
  apply IH, NoDup_keys_set, H.
Qed.

Lemma selection_matches_ext (st st' : AppState) :
  generated_codes st' = generated_codes st ->
  selected_code_ids_for_download st' = selected_code_ids_for_download st ->
  selection_matches_store st -> selection_matches_store st'.
Proof.
  unfold selection_matches_store. intros -> ->. auto.
Qed.

Lemma append_snippet_matches (st : AppState) (snippet : CodeSnippet) :
  selection_matches_store st -> selection_matches_store (append_snippet st snippet).
Proof.
  intros [Hn Hk]. unfold append_snippet, selection_matches_store.
  cbn [selected_code_ids_for_download generated_codes with_selected
         with_generated_codes].
  split; [now apply NoDup_keys_set|].
  intros k. rewrite DictFacts.has_key_set, existsb_app, Hk.
  cbn [existsb]. rewrite orb_false_r. apply orb_comm.
Qed.

Lemma render_matches (checkbox : bool -> string -> bool) (st : AppState) :
  selection_matches_store st ->
  selection_matches_store (render_snippets checkbox st).
Proof.
  intros [Hn Hk]. split.
  - unfold render_snippets. destruct (generated_codes st); [exact Hn|].
    cbn [selected_code_ids_for_download with_selected].
    now apply NoDup_keys_update.
  - intros k. rewrite render_codes.
    unfold render_snippets.
    destruct (generated_codes st) as [|s0 codes] eqn:E; [apply Hk|].
    cbn [selected_code_ids_for_download with_selected].
    rewrite has_key_update, Hk. unfold temp_selections.
    rewrite temp_fold_keys, E. cbn [Dict.has_key Dict.empty existsb].
    rewrite orb_false_r. apply orb_diag.
Qed.

Lemma generate_code_matches (client : Client) (now : datetime)
  (prompt_gen filename_gen language_gen : string) (st : AppState) :
  selection_matches_store st ->
  selection_matches_store
    (state_of (generate_code client now prompt_gen filename_gen language_gen st)).
Proof.
  intros H.
  destruct (generate_code_cases client now prompt_gen filename_gen
              language_gen st) as [E|[stored E]]; rewrite E; cbn [state_of];
    [exact H|now apply append_snippet_matches].
Qed.

Lemma chat_turn_matches (client : Client) (now_name now_id : datetime)
  (action_mode user_prompt : string) (st : AppState) :
  selection_matches_store st ->
  selection_matches_store
    (state_of (chat_turn client now_name now_id action_mode user_prompt st)).
Proof.
  intros H.
  destruct (chat_turn_cases client now_name now_id action_mode user_prompt st)
    as [[Ec Es]|(text & c & l & st2 & _ & Hc & Hs & E)].
  - exact (selection_matches_ext _ _ Ec Es H).
  - rewrite E. cbn [state_of]. apply append_snippet_matches.
    exact (selection_matches_ext _ _ Hc Hs H).
Qed.

Lemma run_action_matches (client : Client) (inp : Page.Input) (st : AppState) :
  selection_matches_store st ->
  selection_matches_store (state_of (run_action client inp st)).
Proof.
  intros H. unfold run_action.
  destruct (String.eqb (Page.action_mode inp) "Generate Code").
  - destruct (Page.submit_gen inp); [|exact H]. now apply generate_code_matches.
  - destruct (String.eqb (Page.action_mode inp) "Explain Code"); [|exact H].
    destruct (Page.submit_explain inp); [|exact H]. cbn [state_of].
    destruct (explain_code_frame client (Page.code_to_explain inp) st)
      as (_ & _ & Hc & Hs).
    exact (selection_matches_ext _ _ Hc Hs H).
Qed.

Lemma run_columns_matches (client : Client) (inp : Page.Input)
  (ss : SessionState) :
  selection_matches_store (app_state ss) ->
  selection_matches_store (app_state (Page.final (run_columns client inp ss))).
Proof.
  intros H.
  destruct (run_columns_final client inp ss) as (st1 & Ea & Ef & _).
  rewrite Ef. cbn [app_state with_app_state].
  pose proof (run_action_matches client inp (app_state ss) H) as Ha.
  rewrite Ea in Ha. cbn [state_of] in Ha.
  destruct (show_explanation_frame st1) as (_ & _ & Hc & Hs).
  pose proof (selection_matches_ext _ _ Hc Hs Ha) as H2.
  apply (render_matches (Page.checkbox inp)) in H2.
  unfold run_chat. destruct (Page.user_prompt inp); [|exact H2].
  now apply chat_turn_matches.
Qed.

Lemma run_page_matches (inp : Page.Input) (ss : SessionState) :
  selection_matches_store (app_state ss) ->
  selection_matches_store (app_state (Page.final (run_page inp ss))).
Proof.
  intros H.
  destruct (get_gemini_client_app_state (Page.initialize inp)
              (Page.api_key_input inp) ss) as [b Hb].
  assert (Hm : selection_matches_store (with_configured (app_state ss) b)).
  { exact (selection_matches_ext (app_state ss) _ eq_refl eq_refl H). }
  unfold run_page.
  destruct (get_gemini_client (Page.initialize inp) (Page.api_key_input inp) ss)
    as [ss'|[client|] ss1]; cbn [Page.final].
  - now rewrite Hb.
  - apply run_columns_matches. now rewrite Hb.
  - now rewrite Hb.
Qed.

(** X10.  In every session the keys of the selection dictionary are
    exactly the ids of the stored snippets, without repetition: no flag is
    kept for an id that is not in the store, and every stored snippet has
    a flag. *)
Theorem selection_keys_are_store_ids (inputs : list Page.Input) :
  selection_matches_store (app_state (app_run inputs)).
Proof.
  apply (app_run_invariant (fun ss => selection_matches_store (app_state ss))).
  - split; [constructor|]. intros k. reflexivity.
  - intros inp ss. apply run_page_matches.
Qed.

(** ** Growth of the store and of the log *)

Lemma generate_code_grows (client : Client) (now : datetime)
  (prompt_gen filename_gen language_gen : string) (st : AppState) :
  (exists added,
     generated_codes
       (state_of (generate_code client now prompt_gen filename_gen language_gen st))
     = (generated_codes st ++ added)%list /\ List.length added <= 1) /\
  chat_history
    (state_of (generate_code client now prompt_gen filename_gen language_gen st))
  = chat_history st.
Proof.
  destruct (generate_code_cases client now prompt_gen filename_gen
              language_gen st) as [E|[stored E]]; rewrite E; cbn [state_of].
  - split; [|reflexivity]. exists []. rewrite app_nil_r. split; [reflexivity|cbn; lia].
  - split; [|reflexivity]. eexists. split; [apply append_snippet_codes|cbn; lia].
Qed.

Lemma chat_turn_history (client : Client) (now_name now_id : datetime)
  (action_mode user_prompt : string) (st : AppState) :
  exists turns,
    chat_history
      (state_of (chat_turn client now_name now_id action_mode user_prompt st))
    = (chat_history st ++ flat_map turn_messages turns)%list /\
    List.length turns <= 1.
Proof.
  unfold chat_turn.
  destruct (Py.truthy user_prompt).
  2:{ exists []. cbn. rewrite app_nil_r. split; [reflexivity|lia]. }
  destruct (contextual_prompt _ action_mode user_prompt) as [prompt|e].
  2:{ exists [(user_prompt, None)]. cbn. split; [reflexivity|lia]. }
  destruct (truthy_text _) as [text|]; cbn [state_of].
  - exists [(user_prompt, Some text)]. split; [|cbn; lia].
    destruct (add_corrected_frame now_name now_id action_mode text
                (append_message (append_message st (user_message user_prompt))
                   (model_message text))) as (_ & _ & H).
    rewrite H. cbn. now rewrite <- app_assoc.
  - exists [(user_prompt, Some fallback_text)]. split; [|cbn; lia].
    cbn. now rewrite <- app_assoc.
Qed.

Lemma chat_turn_codes_grow (client : Client) (now_name now_id : datetime)
  (action_mode user_prompt : string) (st : AppState) :
  exists added,
    generated_codes
      (state_of (chat_turn client now_name now_id action_mode user_prompt st))
    = (generated_codes st ++ added)%list /\ List.length added <= 1.
Proof.
  destruct (chat_turn_cases client now_name now_id action_mode user_prompt st)
    as [[Ec _]|(text & c & l & st2 & _ & Hc & _ & E)].
  - exists []. rewrite app_nil_r. split; [exact Ec|cbn; lia].
  - rewrite E. cbn [state_of]. eexists.
    rewrite append_snippet_codes, Hc. split; [reflexivity|cbn; lia].
Qed.

Lemma run_action_grows (client : Client) (inp : Page.Input) (st : AppState) :
  (exists added,
     generated_codes (state_of (run_action client inp st))
     = (generated_codes st ++ added)%list /\ List.length added <= 1) /\
  chat_history (state_of (run_action client inp st)) = chat_history st.
Proof.
  assert (H0 : (exists added : list CodeSnippet,
                  generated_codes st = (generated_codes st ++ added)%list /\
                  List.length added <= 1) /\ chat_history st = chat_history st).
  { split; [|reflexivity]. exists []. rewrite app_nil_r. split; [reflexivity|cbn; lia]. }
  unfold run_action.
  destruct (String.eqb (Page.action_mode inp) "Generate Code").
  - destruct (Page.submit_gen inp); [apply generate_code_grows|exact H0].
  - destruct (String.eqb (Page.action_mode inp) "Explain Code"); [|exact H0].
    destruct (Page.submit_explain inp); [|exact H0]. cbn [state_of].
    destruct (explain_code_frame client (Page.code_to_explain inp) st)
      as (_ & Hh & Hc & _).
    rewrite Hh, Hc. exact H0.
Qed.

Lemma run_columns_grows (client : Client) (inp : Page.Input) (ss : SessionState) :
  grows (app_state ss) (app_state (Page.final (run_columns client inp ss))).
Proof.
  destruct (run_columns_final client inp ss) as (st1 & Ea & Ef & _).
  rewrite Ef. cbn [app_state with_app_state].
  destruct (run_action_grows client inp (app_state ss)) as [(a1 & Hc1 & Hl1) Hh1].
  rewrite Ea in Hc1, Hh1. cbn [state_of] in Hc1, Hh1.
  destruct (show_explanation_frame st1) as (_ & Hh2 & Hc2 & _).
  pose proof (render_codes (Page.checkbox inp) (snd (show_explanation st1))) as Hc3.
  pose proof (render_history (Page.checkbox inp) (snd (show_explanation st1))) as Hh3.
  unfold run_chat. destruct (Page.user_prompt inp) as [p|]; cbn [state_of].
  - destruct (chat_turn_codes_grow client (Page.now_name inp) (Page.now_id inp)
                (Page.action_mode inp) p
                (render_snippets (Page.checkbox inp) (snd (show_explanation st1))))
      as (a2 & Hc4 & Hl2).
    destruct (chat_turn_history client (Page.now_name inp) (Page.now_id inp)
                (Page.action_mode inp) p
                (render_snippets (Page.checkbox inp) (snd (show_explanation st1))))
      as (turns & Hh4 & Hl3).
    split.
    + exists (a1 ++ a2)%list. rewrite Hc4, Hc3, Hc2, Hc1, <- app_assoc.
      split; [reflexivity|]. rewrite length_app. lia.
    + exists turns. rewrite Hh4, Hh3, Hh2, Hh1. now split.
  - split.
    + exists a1. rewrite Hc3, Hc2, Hc1. split; [reflexivity|lia].
    + exists []. rewrite Hh3, Hh2, Hh1. cbn. rewrite app_nil_r.
      split; [reflexivity|lia].
Qed.

Lemma run_page_grows (inp : Page.Input) (ss : SessionState) :
  grows (app_state ss) (app_state (Page.final (run_page inp ss))).
Proof.
  destruct (get_gemini_client_app_state (Page.initialize inp)
              (Page.api_key_input inp) ss) as [b Hb].
  assert (H0 : grows (app_state ss) (with_configured (app_state ss) b)).
  { split; [exists []|exists []]; cbn; rewrite app_nil_r; split;
      try reflexivity; lia. }
  unfold run_page.
  destruct (get_gemini_client (Page.initialize inp) (Page.api_key_input inp) ss)
    as [ss'|[client|] ss1]; cbn [Page.final].
  - now rewrite Hb.
  - pose proof (run_columns_grows client inp ss1) as H. rewrite Hb in H.
    exact H.
  - now rewrite Hb.
Qed.

Lemma app_run_app (inputs more : list Page.Input) :
  app_run (inputs ++ more) =
  fold_left (fun ss inp => Page.final (run_page inp ss)) more (app_run inputs).
Proof.
  unfold app_run. apply fold_left_app.
Qed.

Lemma fold_run_grows (more : list Page.Input) (ss : SessionState) :
  (exists added,
     generated_codes
       (app_state (fold_left (fun ss inp => Page.final (run_page inp ss)) more ss))
     = (generated_codes (app_state ss) ++ added)%list /\
     List.length added <= 2 * List.length more) /\
  (exists turns,
     chat_history
       (app_state (fold_left (fun ss inp => Page.final (run_page inp ss)) more ss))
     = (chat_history (app_state ss) ++ flat_map turn_messages turns)%list /\
     List.length turns <= List.length more).
Proof.
  revert ss. induction more as [|inp more IH]; intros ss; cbn [fold_left].
  - split; [exists []|exists []]; cbn; rewrite app_nil_r; split;
      try reflexivity; lia.
  - destruct (IH (Page.final (run_page inp ss)))
      as [(a2 & Hc2 & Hl2) (t2 & Hh2 & Hm2)].
    destruct (run_page_grows inp ss) as [(a1 & Hc1 & Hl1) (t1 & Hh1 & Hm1)].
    split.
    + exists (a1 ++ a2)%list. rewrite Hc2, Hc1, <- app_assoc.
      split; [reflexivity|]. rewrite length_app. cbn [List.length]. lia.
    + exists (t1 ++ t2)%list. rewrite Hh2, Hh1, <- app_assoc, flat_map_app.
      split; [reflexivity|]. rewrite length_app. cbn [List.length]. lia.
Qed.

(** X11.  The store only grows: whatever runs follow, the snippets stored
    so far stay, in their order, at the front of the store, and each run
    adds at most two (one generated, one corrected).  No run removes,
    replaces or reorders a snippet. *)
Theorem store_append_only (inputs more : list Page.Input) :
  exists added,
    generated_codes (app_state (app_run (inputs ++ more)))
    = (generated_codes (app_state (app_run inputs)) ++ added)%list /\
    List.length added <= 2 * List.length more.
Proof.
  rewrite app_run_app. apply fold_run_grows.
Qed.

(** X12.  The conversation log only grows, by whole chat turns: a user
    message, followed by at most one model message.  So the log of every
    session is a sequence of such turns, with never two model messages in
    a row and none before the first user message. *)
Theorem log_is_sequence_of_turns (inputs more : list Page.Input) :
  exists turns,
    chat_history (app_state (app_run (inputs ++ more)))
    = (chat_history (app_state (app_run inputs))
       ++ flat_map turn_messages turns)%list /\
    List.length turns <= List.length more.
Proof.
  rewrite app_run_app. apply fold_run_grows.
Qed.

(** ** The render pass and the download *)

Lemma set_same (d : Dict.t) (k : string) (default : bool) :
  Dict.has_key d k = true -> Dict.set d k (Dict.get d k default) = d.
Proof.
  unfold Dict.has_key.
  induction d as [|[k0 v0] d IH]; cbn [existsb fst Dict.set Dict.get];
    [discriminate|].
  destruct (String.eqb_spec k0 k) as [->|Hne]; cbn [orb]; [reflexivity|].
  intros H. now rewrite IH.
Qed.

Lemma update_same (d other : Dict.t) :
  (forall k v, In (k, v) other ->
               Dict.has_key d k = true /\ v = Dict.get d k false) ->
  Dict.update d other = d.
Proof.
  unfold Dict.update.
  induction other as [|[k0 v0] other IH]; intros H; cbn [fold_left fst snd];
    [reflexivity|].
  destruct (H k0 v0 (or_introl eq_refl)) as [Hk ->].
  rewrite set_same by exact Hk.
  apply IH. intros k v Hin. apply H. now right.
Qed.

Lemma in_has_key (d : Dict.t) (k : string) (v : bool) :
  In (k, v) d -> Dict.has_key d k = true.
Proof.
  intros H. apply has_key_in. unfold Dict.keys.
  change k with (fst (k, v)). now apply in_map.
Qed.

Lemma with_selected_same (st : AppState) :
  with_selected st (selected_code_ids_for_download st) = st.
Proof. now destruct st. Qed.

(** A render pass in which every checkbox returns the value it was given
    changes nothing. *)
Lemma render_unchanged (checkbox : bool -> string -> bool) (st : AppState) :
  (forall value key, checkbox value key = value) ->
  selection_matches_store st ->
  render_snippets checkbox st = st.
Proof.
  intros Hcb [_ Hk]. unfold render_snippets.
  destruct (generated_codes st) as [|s0 codes] eqn:E; [reflexivity|].
  rewrite update_same; [apply with_selected_same|].
  intros k v Hin. split.
  - apply in_has_key in Hin. unfold temp_selections in Hin.
    rewrite temp_fold_keys in Hin. cbn [Dict.has_key Dict.empty existsb] in Hin.
    rewrite orb_false_r in Hin. rewrite Hk, <- E. exact Hin.
  - unfold temp_selections in Hin.
    apply (temp_fold_values checkbox st (generated_codes st) Dict.empty) in Hin.
    + rewrite Hin. unfold checked. apply Hcb.
    + intros k' v' [].
Qed.









(** An idle rerun on the state a generate with a cleared filename field
    leaves: the run stops at line 227 and the state stays. *)
Example idle_rerun_unnamed :
  script_run (sample_input "Generate Code" None)
    {| api_key := Some "key";
       gemini_model_client := Some (replying sample_reply);
       app_state := append_snippet AppState_default unnamed_snippet |}
  = {| Page.status := Page.Uncaught IndexError;
       Page.final :=
         {| api_key := Some "key";
            gemini_model_client := Some (replying sample_reply);
            app_state := append_snippet AppState_default unnamed_snippet |};
       Page.explanation_shown := None;
       Page.download := None;
       Page.sidebar_error := None |}.
Proof. reflexivity. Qed.



(** ** The prompt of a chat turn *)

Lemma rev_nonempty {A : Type} (x : A) (l : list A) : rev (x :: l) <> [].
Proof.
  cbn [rev]. intros H. apply (f_equal (@List.length A)) in H.
  rewrite length_app in H. cbn in H. lia.
Qed.

Lemma selected_for_chat_correction_ok (action_mode user_prompt : string)
  (items : list (string * bool)) (chosen : list pyobj) :
  selected_for_chat_correction (module_globals action_mode user_prompt) items
  = Ok chosen ->
  existsb snd items = false /\ chosen = [].
Proof.
  intros H. destruct (existsb snd items) eqn:E.
  - rewrite selected_for_chat_correction_raises in H by exact E. discriminate H.
  - rewrite selected_for_chat_correction_none in H by exact E.
    split; [reflexivity|]. now inversion H.
Qed.

(** The prompts [contextual_prompt] can give. *)
Lemma contextual_prompt_cases (st : AppState) (action_mode user_prompt q : string) :
  contextual_prompt st action_mode user_prompt = Ok q ->
  q = user_prompt \/
  exists latest rest,
    rev (generated_codes st) = latest :: rest /\
    q = prompt_with_code latest user_prompt /\
    action_mode = correct_mode /\
    existsb snd (Dict.items (selected_code_ids_for_download st)) = false.
Proof.
  unfold contextual_prompt.
  destruct (generated_codes st) as [|s0 codes] eqn:Ec;
    [intros H; left; now inversion H|].
  destruct (String.eqb_spec action_mode correct_mode) as [Em|_];
    [|intros H; left; now inversion H].
  unfold latest_code_to_discuss.
  destruct (selected_for_chat_correction _ _) as [chosen|e] eqn:Es;
    [|discriminate].
  apply selected_for_chat_correction_ok in Es as [Ex ->].
  cbn [bind rev]. rewrite Ec.
  destruct (rev (s0 :: codes)) as [|latest rest] eqn:Er.
  - exfalso. exact (rev_nonempty _ _ Er).
  - cbn [bind]. intros H. inversion H. right. now exists latest, rest.
Qed.

(** X15.  The prompt "User request: ... (No specific code snippet context
    provided by the app)." of line 284 is never sent: a chat turn sends
    the user's text as it is, or, in correction mode with a non-empty
    store and no flag set, the text wrapped with the most recently
    appended snippet. *)
Theorem no_context_prompt_never_sent (st : AppState)
  (action_mode user_prompt : string) :
  contextual_prompt st action_mode user_prompt
  <> Ok (prompt_without_code user_prompt) /\
  forall q,
    contextual_prompt st action_mode user_prompt = Ok q ->
    q = user_prompt \/
    exists latest rest,
      rev (generated_codes st) = latest :: rest /\
      q = prompt_with_code latest user_prompt /\
      action_mode = correct_mode /\
      existsb snd (Dict.items (selected_code_ids_for_download st)) = false.
Proof.
  split; [|intros q; apply contextual_prompt_cases].
  intros H. apply contextual_prompt_cases in H
    as [H|(latest & rest & _ & H & _)].
  - apply (f_equal String.length) in H. unfold prompt_without_code in H.
    rewrite !string_app_length in H. cbn [String.length] in H. lia.
  - unfold prompt_without_code, prompt_with_code in H.
    cbn [append] in H. discriminate H.
Qed.

(** X16.  Outside correction mode a chat turn is plain question and
    answer: the user's text goes to the gateway unchanged, the log gains
    the user's message and the reply (the fallback text when there is
    none), the turn never raises, and the store and the flags are not
    touched, also when the reply holds fenced code. *)
Theorem chat_outside_correction (client : Client) (now_name now_id : datetime)
  (action_mode user_prompt : string) (st : AppState) :
  Py.truthy user_prompt = true ->
  action_mode <> correct_mode ->
  chat_turn client now_name now_id action_mode user_prompt st =
  Done (append_message (append_message st (user_message user_prompt))
          (model_message
             match truthy_text (send_gemini_message user_prompt (Some client) None)
             with
             | Some text => text
             | None => fallback_text
             end)).
Proof.
  intros Hp Hm. apply String.eqb_neq in Hm.
  unfold chat_turn, contextual_prompt. rewrite Hp, Hm.
  assert (E : match generated_codes
                      (append_message st (user_message user_prompt)) with
              | [] => Ok user_prompt
              | _ :: _ => Ok user_prompt
              end = Ok user_prompt).
  { now destruct (generated_codes _). }
  rewrite E.
  destruct (truthy_text _) as [text|]; [|reflexivity].
  unfold add_corrected. now rewrite Hm, andb_false_r.
Qed.

Lemma chat_outside_correction_witness :
  chat_turn (replying sample_reply) sample_now sample_later "Generate Code"
    "what is this?" sample_state =
  Done (append_message (append_message sample_state (user_message "what is this?"))
          (model_message sample_reply)).
Proof.
  apply (chat_outside_correction (replying sample_reply) sample_now
           sample_later "Generate Code" "what is this?" sample_state).
  - reflexivity.
  - discriminate.
Defined.

(** ** The snippets the flows store *)

(** What a chat turn that grows the store went through. *)
(** X17.  A snippet the chat correction flow stores has a non-empty
    content and a non-empty language and the fixed description; it is
    stored only in correction mode, from a reply that holds a fence, and
    only when the store was empty or no selection flag was set before the
    turn. *)
Theorem corrected_snippet_conditions (client : Client)
  (now_name now_id : datetime) (action_mode user_prompt : string)
  (st : AppState) (snippet : CodeSnippet) :
  generated_codes
    (state_of (chat_turn client now_name now_id action_mode user_prompt st))
  = (generated_codes st ++ [snippet])%list ->
  content snippet <> EmptyString /\
  language snippet <> EmptyString /\
  description snippet = Some "Corrected/refined via chat" /\
  action_mode = correct_mode /\
  (generated_codes st = [] \/
   existsb snd (Dict.items (selected_code_ids_for_download st)) = false).
Proof.
  intros H.
  destruct (chat_turn_added_inv _ _ _ _ _ _ _ H)
    as (prompt & text & c & l & Hp & _ & _ & Hm & He & Hc & ->).
  rewrite extracted_code_regions in He. injection He as He.
  pose proof (first_truthy_language (regions (Py.split fence text)) None
                "python" eq_refl) as Hl.
  rewrite He in Hl. cbn [snd] in Hl.
  cbn [content language description corrected_snippet]. rewrite Hl.
  split; [now apply PyFacts.truthy_true|].
  split; [now apply PyFacts.truthy_true|].
  split; [reflexivity|]. split; [exact Hm|].
  apply contextual_prompt_cases in Hp as [_|(latest & rest & _ & _ & _ & Hx)].
  - assert (Hd : generated_codes st = [] \/ generated_codes st <> []).
    { destruct (generated_codes st); [now left|right; discriminate]. }
    destruct Hd as [Hd|Hne]; [now left|].
    right. subst action_mode.
    destruct (existsb snd (Dict.items (selected_code_ids_for_download st)))
      eqn:Ex; [|reflexivity].
    exfalso.
    pose proof (chat_turn_selected_raises client now_name now_id user_prompt st)
      as Hr.
    destruct (Py.truthy user_prompt) eqn:Et.
    + rewrite (Hr eq_refl Hne Ex) in H. cbn [state_of] in H.
      exact (app_one_neq _ _ H).
    + unfold chat_turn in H. rewrite Et in H. exact (app_one_neq _ _ H).
  - right. exact Hx.
Qed.

Lemma corrected_snippet_conditions_witness :
  content (corrected_snippet sample_now sample_later "python" "print(1)")
  <> EmptyString.
Proof.
  apply (corrected_snippet_conditions (replying sample_reply) sample_now
           sample_later correct_mode "fix it" AppState_default
           (corrected_snippet sample_now sample_later "python" "print(1)")).
  reflexivity.
Defined.

(** Every snippet in the store of a session was built by one of the two
    flows: a predicate that holds for what they build holds for the whole
    store. *)
Section StoreContents.

Variable P : CodeSnippet -> Prop.

Hypothesis generated_ok :
  forall now prompt_gen filename_gen language_gen text stored,
    code_to_store text = Ok stored ->
    P (generated_snippet now prompt_gen filename_gen language_gen stored).

Hypothesis corrected_ok :
  forall now_name now_id text c l,
    extracted_code text = Ok (Some c, l) ->
    P (corrected_snippet now_name now_id l c).

Lemma generate_code_contents (client : Client) (now : datetime)
  (prompt_gen filename_gen language_gen : string) (st : AppState) :
  Forall P (generated_codes st) ->
  Forall P
    (generated_codes
       (state_of (generate_code client now prompt_gen filename_gen
                    language_gen st))).
Proof.
  intros H. unfold generate_code.
  destruct (Py.truthy prompt_gen); [|exact H].
  destruct (truthy_text _) as [text|]; [|exact H].
  destruct (code_to_store text) as [stored|e] eqn:E; [|exact H].
  cbn [state_of]. rewrite append_snippet_codes.
  apply Forall_app. split; [exact H|].
  constructor; [|constructor]. eapply generated_ok, E.
Qed.

Lemma chat_turn_contents (client : Client) (now_name now_id : datetime)
  (action_mode user_prompt : string) (st : AppState) :
  Forall P (generated_codes st) ->
  Forall P
    (generated_codes
       (state_of (chat_turn client now_name now_id action_mode user_prompt st))).
Proof.
  intros H.
  destruct (chat_turn_cases client now_name now_id action_mode user_prompt st)
    as [[Ec _]|(text & c & l & st2 & He & Hc & _ & E)].
  - now rewrite Ec.
  - rewrite E. cbn [state_of]. rewrite append_snippet_codes, Hc.
    apply Forall_app. split; [exact H|].
    constructor; [|constructor]. eapply corrected_ok, He.
Qed.

Lemma run_page_contents (inp : Page.Input) (ss : SessionState) :
  Forall P (generated_codes (app_state ss)) ->
  Forall P (generated_codes (app_state (Page.final (run_page inp ss)))).
Proof.
  intros H.
  destruct (get_gemini_client_app_state (Page.initialize inp)
              (Page.api_key_input inp) ss) as [b Hb].
  unfold run_page.
  destruct (get_gemini_client (Page.initialize inp) (Page.api_key_input inp) ss)
    as [ss'|[client|] ss1]; cbn [Page.final]; try now rewrite Hb.
  destruct (run_columns_final client inp ss1) as (st1 & Ea & Ef & _).
  rewrite Ef. cbn [app_state with_app_state].
  assert (H1 : Forall P (generated_codes st1)).
  { assert (Hs : Forall P (generated_codes (app_state ss1))) by now rewrite Hb.
    unfold run_action in Ea.
    destruct (String.eqb (Page.action_mode inp) "Generate Code").
    - destruct (Page.submit_gen inp); [|inversion Ea; now subst].
      pose proof (generate_code_contents client (Page.now_gen inp)
                    (Page.prompt_gen inp) (Page.filename_gen inp)
                    (Page.language_gen inp) (app_state ss1) Hs) as Hg.
      now rewrite Ea in Hg.
    - destruct (String.eqb (Page.action_mode inp) "Explain Code");
        [|inversion Ea; now subst].
      destruct (Page.submit_explain inp); inversion Ea; [|now subst].
      destruct (explain_code_frame client (Page.code_to_explain inp)
                  (app_state ss1)) as (_ & _ & Hc & _).
      now rewrite Hc. }
  destruct (show_explanation_frame st1) as (_ & _ & Hc2 & _).
  assert (H3 : Forall P (generated_codes
                           (render_snippets (Page.checkbox inp)
                              (snd (show_explanation st1))))).
  { now rewrite render_codes, Hc2. }
  unfold run_chat. destruct (Page.user_prompt inp); [|exact H3].
  now apply chat_turn_contents.
Qed.

Lemma store_contents (inputs : list Page.Input) :
  Forall P (generated_codes (app_state (app_run inputs))).
Proof.
  apply (app_run_invariant
           (fun ss => Forall P (generated_codes (app_state ss)))).
  - constructor.
  - intros inp ss. apply run_page_contents.
Qed.

End StoreContents.

Lemma code_to_store_trimmed (text stored : string) :
  code_to_store text = Ok stored -> Py.strip stored = stored.
Proof.
  unfold code_to_store.
  destruct (Py.contains fence text).
  - destruct (nth_error (Py.split fence text) 1); [|discriminate].
    intros H. inversion H. apply PyFacts.strip_idem.
  - intros H. inversion H. apply PyFacts.strip_idem.
Qed.

Lemma extracted_code_member (text c l : string) :
  extracted_code text = Ok (Some c, l) ->
  c = EmptyString \/
  In c (map corrected_region_content (regions (Py.split fence text))).
Proof.
  rewrite extracted_code_regions. intros H. injection H as H.
  apply (f_equal fst) in H. rewrite first_truthy_content in H. cbn [fst] in H.
  destruct (regions (Py.split fence text)) as [|r rs]; [discriminate|].
  destruct (find Py.truthy (map corrected_region_content (r :: rs)))
    as [found|] eqn:E; injection H as <-; [|now left].
  right. apply find_some in E. apply E.
Qed.

(** X18.  The content of every snippet in the store of every session is
    trimmed: it has no whitespace at its start or its end (trimming it
    again gives the same text). *)
Theorem stored_content_trimmed (inputs : list Page.Input) :
  Forall (fun s => Py.strip (content s) = content s)
    (generated_codes (app_state (app_run inputs))).
Proof.
  apply store_contents.
  - intros now p f l text stored H. cbn [content generated_snippet].
    exact (code_to_store_trimmed _ _ H).
  - intros now_name now_id text c l H. cbn [content corrected_snippet].
    destruct (extracted_code_member _ _ _ H) as [->|Hin]; [reflexivity|].
    apply in_map_iff in Hin as (r & <- & _). apply PyFacts.strip_idem.
Qed.

(** ** Fence markers *)

Lemma split_scan_skip (sep : string) (s : string) (k : nat) (acc : string) :
  Py.split_scan sep k acc s = Py.split_scan sep 0 acc (Py.drop k s).
Proof.
  revert k. induction s as [|c s IH]; intros k.
  - destruct k; reflexivity.
  - destruct k as [|k]; [reflexivity|]. cbn [Py.split_scan Py.drop]. apply IH.
Qed.

(** [split] cuts at the first occurrence of the separator and goes on with
    what follows it. *)
Lemma split_scan_partition (sep : string) (s acc : string) :
  Py.startswith sep EmptyString = false ->
  Py.contains sep s = true ->
  Py.split_scan sep 0 acc s =
  Py.rev_acc acc (fst (fst (Py.partition sep s)))
  :: Py.split sep (snd (Py.partition sep s)).
Proof.
  intros Hsep. revert acc. induction s as [|c s IH]; intros acc H.
  - cbn in H. rewrite Hsep in H. discriminate.
  - rewrite PyFacts.split_scan_step. rewrite PyFacts.contains_step in H.
    cbn [Py.partition].
    destruct (Py.startswith sep (String c s)) eqn:E.
    + cbn [fst snd]. f_equal. rewrite split_scan_skip. unfold Py.split.
      destruct sep as [|a sep]; [discriminate Hsep|].
      cbn [String.length Py.drop].
      now replace (S (String.length sep) - 1) with (String.length sep) by lia.
    + cbn [orb] in H. rewrite (IH (String c acc) H).
      destruct (Py.partition sep s) as [[a m] b]. reflexivity.
Qed.

Lemma contains_of_startswith (sub s : string) :
  Py.startswith sub s = true -> Py.contains sub s = true.
Proof.
  intros H. destruct s; cbn [Py.contains]; now rewrite H.
Qed.

Lemma contains_app_r (sub a b : string) :
  Py.contains sub b = true -> Py.contains sub (a ++ b) = true.
Proof.
  intros H. induction a as [|c a IH]; [exact H|].
  cbn [append]. rewrite PyFacts.contains_step, IH. apply orb_true_r.
Qed.

Lemma contains_app_l (sub a b : string) :
  Py.contains sub a = true -> Py.contains sub (a ++ b) = true.
Proof.
  induction a as [|c a IH]; intros H.
  - cbn in H. rewrite orb_false_r in H.
    apply contains_of_startswith. now apply (startswith_app sub EmptyString b).
  - rewrite PyFacts.contains_step in H. cbn [append].
    rewrite PyFacts.contains_step.
    destruct (Py.startswith sub (String c a)) eqn:E.
    + pose proof (startswith_app sub (String c a) b E) as E'.
      cbn [append] in E'. now rewrite E'.
    + cbn [orb] in H. rewrite IH by exact H. apply orb_true_r.
Qed.

Lemma lstrip_suffix (s : string) : exists a, s = a ++ Py.lstrip s.
Proof.
  induction s as [|c s [a IH]]; [now exists EmptyString|].
  cbn [Py.lstrip]. destruct (Py.isspace c).
  - exists (String c a). cbn [append]. now rewrite <- IH.
  - now exists EmptyString.
Qed.

Lemma rstrip_prefix (s : string) : exists b, s = Py.rstrip s ++ b.
Proof.
  induction s as [|c s [b IH]]; [now exists EmptyString|].
  cbn [Py.rstrip]. destruct (Py.rstrip s) as [|c' r].
  - destruct (Py.isspace c).
    + now exists (String c s).
    + exists s. reflexivity.
  - exists b. cbn [append] in IH |- *. now rewrite <- IH.
Qed.

(** Trimming cannot bring in a text that was not there. *)
Lemma contains_strip (sub s : string) :
  Py.contains sub s = false -> Py.contains sub (Py.strip s) = false.
Proof.
  intros H. apply not_true_iff_false. intros Hc. unfold Py.strip in Hc.
  destruct (lstrip_suffix (Py.rstrip s)) as [a Ea].
  destruct (rstrip_prefix s) as [b Eb].
  apply (contains_app_r sub a) in Hc. rewrite <- Ea in Hc.
  apply (contains_app_l sub _ b) in Hc. rewrite <- Eb in Hc. congruence.
Qed.

Lemma contains_after_first_line (sub segment : string) :
  Py.contains nl segment = true ->
  Py.contains sub segment = false ->
  Py.contains sub (after_first_line segment) = false.
Proof.
  intros Hnl H. apply not_true_iff_false. intros Hc.
  destruct (partition_roundtrip nl segment eq_refl Hnl) as (E & _ & _).
  apply (contains_app_r sub nl) in Hc.
  apply (contains_app_r sub (fst (fst (Py.partition nl segment)))) in Hc.
  unfold after_first_line in Hc. rewrite E in Hc. congruence.
Qed.

Lemma partition_shorter (sep s : string) :
  Py.startswith sep EmptyString = false ->
  Py.contains sep s = true ->
  String.length (snd (Py.partition sep s)) < String.length s.
Proof.
  intros Hsep H.
  destruct (partition_roundtrip sep s Hsep H) as (E & _ & _).
  apply (f_equal String.length) in E. rewrite !string_app_length in E.
  destruct sep as [|a sep]; [discriminate Hsep|]. cbn [String.length] in E. lia.
Qed.

(** No piece of a split text holds the separator. *)
Lemma split_pieces_clean (sep s : string) :
  Py.startswith sep EmptyString = false ->
  Forall (fun p => Py.contains sep p = false) (Py.split sep s).
Proof.
  intros Hsep.
  remember (String.length s) as n eqn:En. revert s En.
  induction n as [n IH] using lt_wf_ind. intros s En.
  destruct (Py.contains sep s) eqn:E.
  - unfold Py.split. rewrite split_scan_partition by assumption.
    destruct (partition_roundtrip sep s Hsep E) as (_ & _ & Ha).
    constructor; [exact Ha|].
    apply (IH (String.length (snd (Py.partition sep s)))); [|reflexivity].
    subst n. now apply partition_shorter.
  - rewrite PyFacts.split_absent by exact E. now constructor.
Qed.

Lemma regions_incl (pieces : list string) (r : string) :
  In r (regions pieces) -> In r pieces.
Proof.
  induction pieces as [|a|a b l IH] using pairs_ind; cbn [regions];
    try contradiction.
  intros [H|H]; [right; now left|right; right; now apply IH].
Qed.

Lemma corrected_region_clean (r : string) :
  Py.contains fence r = false ->
  Py.contains fence (corrected_region_content r) = false.
Proof.
  intros H. unfold corrected_region_content. apply contains_strip.
  destruct (hint_taken_correct r) eqn:E; [|exact H].
  unfold hint_taken_correct in E. apply andb_true_iff in E as [Hnl _].
  now apply contains_after_first_line.
Qed.

Lemma generated_region_clean (r : string) :
  Py.contains fence r = false ->
  Py.contains fence (generated_region_content r) = false.
Proof.
  intros H. unfold generated_region_content. apply contains_strip.
  destruct (hint_taken_generate r) eqn:E; [|exact H].
  unfold hint_taken_generate in E. apply andb_true_iff in E as [Hnl _].
  now apply contains_after_first_line.
Qed.

(** X19.  No snippet in the store of any session holds a fence marker in
    its content: both extractions keep only text from between two
    markers, or a reply that has none. *)
Theorem stored_content_has_no_fence (inputs : list Page.Input) :
  Forall (fun s => Py.contains fence (content s) = false)
    (generated_codes (app_state (app_run inputs))).
Proof.
  apply store_contents.
  - intros now p f l text stored H. cbn [content generated_snippet].
    unfold code_to_store in H.
    destruct (Py.contains fence text) eqn:E.
    + destruct (nth_error (Py.split fence text) 1) as [r0|] eqn:En;
        [|discriminate].
      inversion H. rewrite generate_block_view.
      apply generated_region_clean.
      apply nth_error_In in En.
      pose proof (split_pieces_clean fence text eq_refl) as Hp.
      rewrite Forall_forall in Hp. now apply Hp.
    + inversion H. now apply contains_strip.
  - intros now_name now_id text c l H. cbn [content corrected_snippet].
    destruct (extracted_code_member _ _ _ H) as [->|Hin]; [reflexivity|].
    apply in_map_iff in Hin as (r & <- & Hr).
    apply corrected_region_clean. apply regions_incl in Hr.
    pose proof (split_pieces_clean fence text eq_refl) as Hp.
    rewrite Forall_forall in Hp. now apply Hp.
Qed.

(** ** Edge cases of the extraction *)

(** X20.  An opening fence without a closing one still gives code: when
    the text after the first fence marker holds no further marker, both
    flows take all of that text as the fenced region. *)
Theorem unterminated_fence_extracted (text : string) :
  Py.contains fence text = true ->
  Py.contains fence (snd (Py.partition fence text)) = false ->
  code_to_store text =
    Ok (generated_region_content (snd (Py.partition fence text))) /\
  extracted_code text =
    Ok (Some (corrected_region_content (snd (Py.partition fence text))),
        if hint_taken_correct (snd (Py.partition fence text))
        then lang_hint (snd (Py.partition fence text))
        else "python").
Proof.
  intros H Hb.
  assert (E : Py.split fence text =
              [fst (fst (Py.partition fence text)); snd (Py.partition fence text)]).
  { unfold Py.split. rewrite split_scan_partition by (reflexivity || exact H).
    cbn [Py.rev_acc]. f_equal. now apply PyFacts.split_absent. }
  split.
  - unfold code_to_store. rewrite H, E. cbn [nth_error].
    now rewrite generate_block_view.
  - rewrite extracted_code_regions, E. cbn [regions first_truthy].
    rewrite correct_block_view.
    now destruct (Py.truthy (corrected_region_content _)).
Qed.

Lemma unterminated_fence_witness :
  code_to_store ("Sure:" ++ nl ++ "```python" ++ nl ++ "print(1)") = Ok "print(1)" /\
  extracted_code ("Sure:" ++ nl ++ "```python" ++ nl ++ "print(1)")
  = Ok (Some "print(1)", "python").
Proof.
  apply (unterminated_fence_extracted
           ("Sure:" ++ nl ++ "```python" ++ nl ++ "print(1)")); reflexivity.
Defined.

(** X21.  The generate flow stores a snippet exactly when the prompt is
    not empty and the gateway gives a text, whatever the text: also when
    the extraction leaves nothing (an empty fenced region gives a snippet
    with empty content).  It never raises. *)
Theorem generate_stores_iff (client : Client) (now : datetime)
  (prompt_gen filename_gen language_gen : string) (st : AppState) :
  (exists st', generate_code client now prompt_gen filename_gen language_gen st
               = Done st') /\
  (generated_codes
     (state_of (generate_code client now prompt_gen filename_gen language_gen st))
   <> generated_codes st <->
   Py.truthy prompt_gen = true /\
   truthy_text (send_gemini_message (generate_prompt language_gen prompt_gen)
                  (Some client) None) <> None) /\
  generated_codes
    (state_of (generate_code (replying "``` ```") now "quick sort" filename_gen
                 language_gen st))
  = (generated_codes st
     ++ [generated_snippet now "quick sort" filename_gen language_gen
           EmptyString])%list.
Proof.
  split; [|split; [|reflexivity]].
  - destruct (generate_code_cases client now prompt_gen filename_gen
                language_gen st) as [E|[stored E]]; rewrite E; eauto.
  - unfold generate_code.
    destruct (Py.truthy prompt_gen).
    2:{ split; [intros H; now contradiction H|intros [H _]; discriminate H]. }
    destruct (truthy_text _) as [text|].
    2:{ split; [intros H; now contradiction H|intros [_ H]; now contradiction H]. }
    destruct (code_to_store_total text) as [stored ->]. cbn [state_of].
    split; [intros _; split; [reflexivity|discriminate]|].
    intros _ H. rewrite append_snippet_codes in H. symmetry in H.
    exact (app_one_neq _ _ H).
Qed.

(** ** The language of a corrected snippet *)

Lemma lower_char_idem (c : ascii) :
  Py.lower_char (Py.lower_char c) = Py.lower_char c.
Proof.
  destruct c as [[] [] [] [] [] [] [] []]; reflexivity.
Qed.

Lemma lower_idem (s : string) : Py.lower (Py.lower s) = Py.lower s.
Proof.
  induction s as [|c s IH]; cbn [Py.lower]; [reflexivity|].
  now rewrite lower_char_idem, IH.
Qed.

(** The language the loop leaves is "python" or the hint of a region. *)
Lemma first_truthy_language_source (rs : list string) (c : option string)
  (l : string) :
  snd (first_truthy rs c l) = l \/
  exists r, In r rs /\ hint_taken_correct r = true /\
            snd (first_truthy rs c l) = lang_hint r.
Proof.
  revert c l. induction rs as [|r rs IH]; intros c l; [now left|].
  cbn [first_truthy]. rewrite correct_block_view.
  destruct (Py.truthy (corrected_region_content r)).
  - cbn [snd]. destruct (hint_taken_correct r) eqn:E; [|now left].
    right. exists r. split; [now left|now split].
  - destruct (IH (Some (corrected_region_content r))
                (if hint_taken_correct r then lang_hint r else l))
      as [H|(r' & Hin & Ht & H)].
    + rewrite H. destruct (hint_taken_correct r) eqn:E; [|now left].
      right. exists r. split; [now left|now split].
    + right. exists r'. split; [now right|now split].
Qed.

(** X22.  The language of a snippet the chat correction flow stores is
    "python" or the hint of one of the fenced regions of the gateway's
    reply (not necessarily the region the content comes from); in both
    cases it is in lower case and holds none of the six excluded
    characters. *)
Theorem corrected_language_clean (client : Client)
  (now_name now_id : datetime) (action_mode user_prompt : string)
  (st : AppState) (snippet : CodeSnippet) :
  generated_codes
    (state_of (chat_turn client now_name now_id action_mode user_prompt st))
  = (generated_codes st ++ [snippet])%list ->
  exists prompt text,
    contextual_prompt (append_message st (user_message user_prompt))
      action_mode user_prompt = Ok prompt /\
    truthy_text (send_gemini_message prompt (Some client) None) = Some text /\
    (language snippet = "python" \/
     exists r,
       In r (regions (Py.split fence text)) /\
       hint_taken_correct r = true /\
       language snippet = Py.lower (Py.strip (first_line r))) /\
    Py.lower (language snippet) = language snippet /\
    existsb (fun char => Py.contains char (language snippet)) hint_excluded
    = false.
Proof.
  intros H.
  destruct (chat_turn_added_inv _ _ _ _ _ _ _ H)
    as (prompt & text & c & l & Hp & Ht & _ & _ & He & _ & ->).
  exists prompt, text. split; [exact Hp|]. split; [exact Ht|].
  rewrite extracted_code_regions in He. injection He as He.
  pose proof (first_truthy_language (regions (Py.split fence text)) None
                "python" eq_refl) as Hl.
  pose proof (first_truthy_language_source (regions (Py.split fence text)) None
                "python") as Hs.
  rewrite He in Hl, Hs. cbn [snd] in Hl, Hs.
  cbn [language corrected_snippet]. rewrite Hl.
  destruct Hs as [->|(r & Hin & Hr & ->)]; [split; [now left|now split]|].
  split; [right; now exists r|].
  split; [apply lower_idem|].
  unfold hint_taken_correct in Hr.
  apply andb_true_iff in Hr as [_ Hr]. apply andb_true_iff in Hr as [_ Hr].
  now apply negb_true_iff in Hr.
Qed.

Lemma corrected_language_witness :
  exists prompt text,
    contextual_prompt (append_message AppState_default (user_message "fix it"))
      correct_mode "fix it" = Ok prompt /\
    truthy_text (send_gemini_message prompt (Some (replying js_reply)) None)
    = Some text /\
    (language (corrected_snippet sample_now sample_later "js" "let x;")
     = "python" \/
     exists r,
       In r (regions (Py.split fence text)) /\
       hint_taken_correct r = true /\
       language (corrected_snippet sample_now sample_later "js" "let x;")
       = Py.lower (Py.strip (first_line r))) /\
    Py.lower (language (corrected_snippet sample_now sample_later "js" "let x;"))
    = language (corrected_snippet sample_now sample_later "js" "let x;") /\
    existsb
      (fun char =>
         Py.contains char
           (language (corrected_snippet sample_now sample_later "js" "let x;")))
      hint_excluded
    = false.
Proof.
  apply (corrected_language_clean (replying js_reply) sample_now
           sample_later correct_mode "fix it" AppState_default
           (corrected_snippet sample_now sample_later "js" "let x;")).
  reflexivity.
Defined.

(** The hint of a region that gave no content is kept for the content of a
    later region. *)
Example language_carried_over :
  extracted_code ("```Ruby" ++ nl ++ "```" ++ nl ++ "```" ++ nl ++ "x = 1" ++ nl ++ "```")
  = Ok (Some "x = 1", "ruby").
Proof. reflexivity. Qed.

(** ** Runs without a key, and corrections with a ticked snippet *)

(** X23.  Without a stored key and without a key typed in, a run does
    nothing: whatever the other widgets return, the session state is left
    as it was, nothing is shown or offered for download, and the sidebar
    ends with the error "Gemini API Key is not configured". *)
Theorem no_key_no_run (inp : Page.Input) (ss : SessionState) :
  credentials_consistent ss ->
  api_key ss = None ->
  Py.truthy (Page.api_key_input inp) = false ->
  run_page inp ss =
    {| Page.status := Page.Completed;
       Page.final := ss;
       Page.explanation_shown := None;
       Page.download := None;
       Page.sidebar_error := Some not_configured_error |}.
Proof.
  intros [H1 _] Hk Hi. unfold run_page, get_gemini_client.
  rewrite Hk, Hi. cbn [truthy_text]. unfold final_check. rewrite Hk.
  destruct (api_key_configured (app_state ss)) eqn:E; [|reflexivity].
  destruct (H1 eq_refl) as (key & Hk' & _). congruence.
Qed.

Lemma no_key_no_run_witness :
  run_page (sample_input "Generate Code" (Some "hello")) fresh_session =
    {| Page.status := Page.Completed;
       Page.final := fresh_session;
       Page.explanation_shown := None;
       Page.download := None;
       Page.sidebar_error := Some not_configured_error |}.
Proof.
  apply (no_key_no_run (sample_input "Generate Code" (Some "hello")) fresh_session).
  - split; [discriminate|]. intros H. now contradiction H.
  - reflexivity.
  - reflexivity.
Defined.

Lemma get_true_existsb (d : Dict.t) (k : string) :
  Dict.get d k false = true -> existsb snd (Dict.items d) = true.
Proof.
  unfold Dict.items.
  induction d as [|[k0 v0] d IH]; cbn [Dict.get existsb snd]; [discriminate|].
  destruct (String.eqb k0 k).
  - intros ->. reflexivity.
  - intros H. rewrite (IH H). apply orb_true_r.
Qed.


(** X24.  In correction mode a chat message fails whenever the checkbox
    of at least one stored snippet is ticked: the run stops with
    [NameError] for the name [s], after the render pass and the logging of
    the user's message; the gateway is not called, no snippet is added,
    and the final check of the sidebar is not reached. *)
Theorem correction_fails_while_ticked (client : Client) (inp : Page.Input)
  (ss : SessionState) (p : string) (s : CodeSnippet) :
  Page.action_mode inp = correct_mode ->
  Page.user_prompt inp = Some p ->
  Py.truthy p = true ->
  In s (generated_codes (app_state ss)) ->
  Page.checkbox inp
    (Dict.get (selected_code_ids_for_download (app_state ss)) (id s) false)
    ("cb_" ++ id s) = true ->
  Page.status (run_columns client inp ss) = Page.Uncaught (NameError "s") /\
  chat_history (app_state (Page.final (run_columns client inp ss)))
  = (chat_history (app_state ss) ++ [user_message p])%list /\
  generated_codes (app_state (Page.final (run_columns client inp ss)))
  = generated_codes (app_state ss) /\
  Page.sidebar_error (run_columns client inp ss) = None.
Proof.
  intros Hm Hp Ht Hin Hcb.
  unfold run_columns, run_action. rewrite Hm. cbn [String.eqb Ascii.eqb].
  cbn [correct_mode String.eqb Ascii.eqb Bool.eqb].
  destruct (show_explanation_frame (app_state ss)) as (_ & Hh & Hc & Hs).
  set (st2 := snd (show_explanation (app_state ss))) in *.
  set (st3 := render_snippets (Page.checkbox inp) st2).
  assert (Hflag : Dict.get (selected_code_ids_for_download st3) (id s) false = true).
  { unfold st3. rewrite render_flags, Hc.
    replace (existsb (fun s0 => String.eqb (id s0) (id s))
               (generated_codes (app_state ss))) with true.
    - unfold checked. now rewrite Hs.
    - symmetry. apply existsb_exists. exists s. split; [exact Hin|].
      apply String.eqb_refl. }
  assert (Hne : generated_codes st3 <> []).
  { unfold st3. rewrite render_codes, Hc. intros E. rewrite E in Hin.
    contradiction Hin. }
  assert (Er : run_chat client inp st3 =
               Raised (NameError "s") (append_message st3 (user_message p))).
  { unfold run_chat. rewrite Hp, Hm.
    apply chat_turn_selected_raises; [exact Ht|exact Hne|].
    exact (get_true_existsb _ _ Hflag). }
  rewrite Er. cbn [Page.status Page.final Page.sidebar_error app_state
                     with_app_state chat_history generated_codes append_message
                     with_chat_history].
  unfold st3. rewrite render_history, render_codes, Hh, Hc. now repeat split.
Qed.

Lemma correction_fails_witness :
  Page.status
    (run_columns (replying sample_reply)
       (sample_input correct_mode (Some "fix it"))
       {| api_key := Some "key";
          gemini_model_client := Some (replying sample_reply);
          app_state := sample_state |})
  = Page.Uncaught (NameError "s").
Proof.
  apply (correction_fails_while_ticked (replying sample_reply)
           (sample_input correct_mode (Some "fix it"))
           {| api_key := Some "key";
              gemini_model_client := Some (replying sample_reply);
              app_state := sample_state |}
           "fix it" sample_snippet); try reflexivity.
  now left.
Defined.

(** ** Sessions of the script with the raises of column 1 *)

Lemma app_run_matches (inputs : list Page.Input) :
  selection_matches_store (app_state (app_run inputs)).
Proof.
  apply (app_run_invariant (fun ss => selection_matches_store (app_state ss))).
  - split; [constructor|]. intros k. reflexivity.
  - intros inp ss. apply run_page_matches.
Qed.

Lemma app_run_explanation (inputs : list Page.Input) :
  current_explanation (app_state (app_run inputs)) = None.
Proof.
  apply (app_run_invariant
           (fun ss => current_explanation (app_state ss) = None)).
  - reflexivity.
  - intros inp ss. apply run_page_explanation.
Qed.

(** A run that stops at line 210 or at line 227 leaves the session state
    of a run that goes through: the one with the same forms in which no
    checkbox is changed, or only nothing is typed in the chat. *)
Lemma script_columns_reached (client : Client) (inp : Page.Input)
  (ss : SessionState) :
  selection_matches_store (app_state ss) ->
  exists inp',
    In inp' [inp; no_chat inp; quiet inp] /\
    Page.final (script_columns client inp ss)
    = Page.final (run_columns client inp' ss).
Proof.
  intros Hm. unfold script_columns.
  destruct (run_action_done client inp (app_state ss)) as [st1 E1].
  rewrite E1.
  assert (Hm2 : selection_matches_store (snd (show_explanation st1))).
  { pose proof (run_action_matches client inp (app_state ss) Hm) as H.
    rewrite E1 in H. cbn [state_of] in H.
    destruct (show_explanation_frame st1) as (_ & _ & Hc & Hs).
    exact (selection_matches_ext _ _ Hc Hs H). }
  unfold render_pass.
  destruct (first_duplicate [] (checkbox_keys (snd (show_explanation st1)))).
  - exists (quiet inp). split; [right; right; now left|].
    destruct (run_columns_final client (quiet inp) ss) as (st1' & Ea & Ef & _).
    change (run_action client (quiet inp) (app_state ss))
      with (run_action client inp (app_state ss)) in Ea.
    rewrite E1 in Ea. inversion Ea; subst st1'. rewrite Ef.
    cbn [Page.final Page.checkbox quiet]. unfold run_chat.
    cbn [Page.user_prompt state_of].
    now rewrite render_unchanged.
  - destruct (download_button
                (render_snippets (Page.checkbox inp)
                   (snd (show_explanation st1)))).
    + exists inp. split; [now left|].
      destruct (run_columns_final client inp ss) as (st1' & Ea & Ef & _).
      rewrite E1 in Ea. inversion Ea; subst st1'. rewrite Ef.
      now destruct (run_chat client inp _).
    + exists (no_chat inp). split; [right; now left|].
      destruct (run_columns_final client (no_chat inp) ss)
        as (st1' & Ea & Ef & _).
      change (run_action client (no_chat inp) (app_state ss))
        with (run_action client inp (app_state ss)) in Ea.
      rewrite E1 in Ea. inversion Ea; subst st1'. rewrite Ef.
      reflexivity.
Qed.

Lemma script_run_reached (inp : Page.Input) (ss : SessionState) :
  selection_matches_store (app_state ss) ->
  exists inp',
    Page.final (script_run inp ss) = Page.final (run_page inp' ss).
Proof.
  intros Hm. unfold script_run.
  destruct (get_gemini_client (Page.initialize inp) (Page.api_key_input inp) ss)
    as [ss'|[client|] ss1] eqn:Eg.
  - exists inp. unfold run_page. now rewrite Eg.
  - destruct (get_gemini_client_app_state (Page.initialize inp)
                (Page.api_key_input inp) ss) as [b Hb].
    rewrite Eg in Hb.
    assert (Hm1 : selection_matches_store (app_state ss1)).
    { apply (selection_matches_ext (app_state ss)); [now rewrite Hb..|exact Hm]. }
    destruct (script_columns_reached client inp ss1 Hm1)
      as (inp' & Hin & ->).
    exists inp'. unfold run_page.
    destruct Hin as [<-|[<-|[<-|[]]]];
      cbn [Page.initialize Page.api_key_input no_chat quiet];
      now rewrite Eg.
  - exists inp. unfold run_page. now rewrite Eg.
Qed.

(** X25.  The raises of column 1 lead to no new session state: every
    state a session of the script reaches, with runs stopped at a repeated
    checkbox key or at the archive build, is reached by a session of as
    many runs that all go through.  So in these sessions too a set flag
    comes with a stored key and a stored client with the flag, no
    explanation is left in the state, and the keys of the selection
    dictionary are the ids of the stored snippets. *)
Theorem script_sessions_reached (inputs : list Page.Input) :
  (exists inputs',
     List.length inputs' = List.length inputs /\
     script_session inputs = app_run inputs') /\
  credentials_consistent (script_session inputs) /\
  current_explanation (app_state (script_session inputs)) = None /\
  selection_matches_store (app_state (script_session inputs)).
Proof.
  assert (H : exists inputs',
            List.length inputs' = List.length inputs /\
            script_session inputs = app_run inputs').
  { induction inputs as [|inp inputs IH] using rev_ind.
    - exists []. now split.
    - destruct IH as (inputs' & Hl & E).
      unfold script_session in *. rewrite fold_left_app. cbn [fold_left].
      rewrite E.
      destruct (script_run_reached inp (app_run inputs')
                  (app_run_matches inputs')) as [inp' ->].
      exists (inputs' ++ [inp'])%list. split.
      + rewrite !length_app, Hl. reflexivity.
      + now rewrite app_run_app. }
  split; [exact H|]. destruct H as (inputs' & _ & ->).
  split; [apply app_run_credentials|].
  split; [apply app_run_explanation|apply app_run_matches].
Qed.



